(** * A five-stage RV32I pipeline simulator: hazard unit, pipeline registers,
      top-level wiring, disassembler and inspection API.

    Shallow embedding of [pyv/hazard.py], [pyv/pipeline_regs.py],
    [pyv/models/pipelined.py] and [pyv/disassembler.py].

    Python integers are unbounded, so words are [Z] and the bit operations
    are [Z.land], [Z.lor], [Z.shiftl], [Z.shiftr] (which agree with Python's
    [&], [|], [<<], [>>] on all integers).  Lists indexed by position are
    stdpp lists with [!!]. *)

From Stdlib Require Import ZArith Lia Bool List Ascii String.
From Stdlib Require DecimalString HexadecimalString.
From stdpp Require Import base option list strings gmap.

Local Open Scope string_scope.
Local Open Scope Z_scope.

(* ===================================================================== *)
(** * Part I: definitions *)
(* ===================================================================== *)

(** ** ISA tables ([pyv.isa]) *)

(** The tables of [pyv/isa.py] that the code consults.  The file is not
    embedded here; the tables are data, and every definition below takes
    them as a parameter.  [OPCODES] and [CSR_F3] are the dictionaries
    indexed by name, [INST_I] .. [INST_J] the instruction-class lists
    tested with Python's [in]. *)
Record isa_tables := {
  OPCODES : string -> Z;
  INST_I : list Z;
  INST_S : list Z;
  INST_B : list Z;
  INST_U : list Z;
  INST_J : list Z;
  CSR_F3 : string -> Z
}.

(** Python's [x in l] on a list of integers. *)
Definition py_in (x : Z) (l : list Z) : bool := existsb (Z.eqb x) l.

(** The RV32I base encoding of the tables (opcode field [inst[6:2]] of the
    RISC-V opcode map, [funct3] of the Zicsr instructions): the instance at
    which the definitions are run on concrete words. *)
Definition rv32i_OPCODES (name : string) : Z :=
  if String.eqb name "LOAD" then 0
  else if String.eqb name "MISC-MEM" then 3
  else if String.eqb name "OP-IMM" then 4
  else if String.eqb name "AUIPC" then 5
  else if String.eqb name "STORE" then 8
  else if String.eqb name "OP" then 12
  else if String.eqb name "LUI" then 13
  else if String.eqb name "BRANCH" then 24
  else if String.eqb name "JALR" then 25
  else if String.eqb name "JAL" then 27
  else if String.eqb name "SYSTEM" then 28
  else -1.

Definition rv32i_CSR_F3 (name : string) : Z :=
  if String.eqb name "CSRRW" then 1
  else if String.eqb name "CSRRS" then 2
  else if String.eqb name "CSRRC" then 3
  else if String.eqb name "CSRRWI" then 5
  else if String.eqb name "CSRRSI" then 6
  else if String.eqb name "CSRRCI" then 7
  else -1.

Definition rv32i : isa_tables := {|
  OPCODES := rv32i_OPCODES;
  INST_I := [4; 25; 0; 28];
  INST_S := [8];
  INST_B := [24];
  INST_U := [13; 5];
  INST_J := [27];
  CSR_F3 := rv32i_CSR_F3
|}.

(** ** Pipeline records ([pyv.stages]: [IFID_t], [IDEX_t], [EXMEM_t],
    [MEMWB_t]) *)

Module IFID.
(** Modelled from the spec: the record type [IFID_t] of [pyv/stages.py]
    (a file that is not embedded here), with the fields of the data model:
    [IFID_t = { inst: u32, pc: i32 }]. *)
Record t := mk { inst : Z; pc : Z }.
End IFID.

Module IDEX.
(** Modelled from the spec: the record type [IDEX_t] of [pyv/stages.py],
    with the fields of the data model; [csr_*] stands for the three CSR
    fields carried down the pipeline. *)
Record t := mk {
  pc : Z; rs1 : Z; rs2 : Z; imm : Z; rd : Z;
  rs1_idx : Z; rs2_idx : Z;
  opcode : Z; funct3 : Z; funct7 : Z;
  we : bool; wb_sel : Z; mem : Z; is_branch : bool;
  csr_addr : Z; csr_read_val : Z; csr_write_en : bool
}.
(** Modelled from the spec: the default constructor [IDEX_t()] of
    [pyv/stages.py]; "reset/bubble = all zero (we=false, mem=0)". *)
Definition default : t :=
  mk 0 0 0 0 0 0 0 0 0 0 false 0 0 false 0 0 false.
End IDEX.

Module EXMEM.
(** Modelled from the spec: the record type [EXMEM_t] of [pyv/stages.py],
    with the fields of the data model. *)
Record t := mk {
  pc4 : Z; alu_res : Z; rs2 : Z; rd : Z;
  we : bool; wb_sel : Z; mem : Z; funct3 : Z; take_branch : bool;
  csr_addr : Z; csr_read_val : Z; csr_write_en : bool; csr_write_val : Z
}.
(** Modelled from the spec: the default constructor [EXMEM_t()]; "bubble
    = all zero". *)
Definition default : t := mk 0 0 0 0 false 0 0 0 false 0 0 false 0.
End EXMEM.

Module MEMWB.
(** Modelled from the spec: the record type [MEMWB_t] of [pyv/stages.py],
    with the fields of the data model. *)
Record t := mk {
  pc4 : Z; alu_res : Z; mem_rdata : Z; rd : Z;
  we : bool; wb_sel : Z;
  csr_addr : Z; csr_read_val : Z; csr_write_en : bool; csr_write_val : Z
}.
(** Modelled from the spec: the default constructor [MEMWB_t()]; "bubble
    = all zero". *)
Definition default : t := mk 0 0 0 0 false 0 0 0 false 0.
End MEMWB.

(** ** Registers ([pyv.reg.Reg]) *)

(** Modelled from the spec: the clock edge of [Reg(T, reset)] of
    [pyv/reg.py] (a file that is not embedded here).  A register is a pair
    of faces [cur] and [next]; at the clock edge [cur] takes [next], and
    [next] defaults to [cur] when nobody writes it during the cycle.  A
    module's write to [reg.next] in one cycle is an [option T]: [None] is
    "no write". *)
Definition Reg_tick {T : Type} (cur : T) (next_w : option T) : T :=
  match next_w with
  | Some v => v
  | None => cur
  end.

(** ** Hazard unit ([pyv/hazard.py]) *)
Module HazardUnit.

Record out := mk {
  stall_pc_o : bool;
  stall_ifid_o : bool;
  stall_idex_o : bool;
  stall_exmem_o : bool;
  stall_memwb_o : bool;
  flush_ifid_o : bool;
  flush_idex_o : bool;
  flush_exmem_o : bool
}.

Definition _needs_rs1 (isa : isa_tables) (opcode : Z) : bool :=
  py_in opcode [OPCODES isa "OP"; OPCODES isa "OP-IMM"; OPCODES isa "LOAD";
                OPCODES isa "STORE"; OPCODES isa "BRANCH"; OPCODES isa "JALR"].

Definition _needs_rs2 (isa : isa_tables) (opcode : Z) : bool :=
  py_in opcode [OPCODES isa "OP"; OPCODES isa "STORE"; OPCODES isa "BRANCH"].

(** The local variables [stall_pc], [stall_ifid], [flush_ifid],
    [flush_idex], [flush_exmem] of [process]. *)
Record locals := mk_locals {
  stall_pc : bool; stall_ifid : bool;
  flush_ifid : bool; flush_idex : bool; flush_exmem : bool
}.

(** "Default: no stall, no flush". *)
Definition no_hazard : locals := mk_locals false false false false false.

(** The three assignments [stall_pc = True; stall_ifid = True;
    flush_idex = True] that every data-hazard branch performs. *)
Definition stall (l : locals) : locals :=
  mk_locals true true (flush_ifid l) true (flush_exmem l).

(** The [if (inst & 0x3) == 0x3:] block: load-use and RAW detection. *)
Definition data_hazards (isa : isa_tables)
    (ifid : IFID.t) (idex : IDEX.t) (exmem : EXMEM.t) (l : locals) : locals :=
  let inst := IFID.inst ifid in
  if Z.land inst 3 =? 3 then
    let opcode := Z.land (Z.shiftr inst 2) 31 in
    let rs1_idx := Z.land (Z.shiftr inst 15) 31 in
    let rs2_idx := Z.land (Z.shiftr inst 20) 31 in
    if IDEX.mem idex =? 1 then
      let load_dest := IDEX.rd idex in
      let need_rs1 := _needs_rs1 isa opcode in
      let need_rs2 := _needs_rs2 isa opcode in
      if need_rs1 && (rs1_idx =? load_dest) && negb (load_dest =? 0) then
        stall l
      else if need_rs2 && (rs2_idx =? load_dest) && negb (load_dest =? 0) then
        stall l
      else l
    else
      let need_rs1 := _needs_rs1 isa opcode in
      let need_rs2 := _needs_rs2 isa opcode in
      if IDEX.we idex && negb (IDEX.rd idex =? 0) then
        if (need_rs1 && (rs1_idx =? IDEX.rd idex))
           || (need_rs2 && (rs2_idx =? IDEX.rd idex)) then stall l
        else l
      else if EXMEM.we exmem && negb (EXMEM.rd exmem =? 0) then
        if (need_rs1 && (rs1_idx =? EXMEM.rd exmem))
           || (need_rs2 && (rs2_idx =? EXMEM.rd exmem)) then stall l
        else l
      else l
  else l.

(** The [if take_branch:] block. *)
Definition control_hazard (take_branch : bool) (l : locals) : locals :=
  if take_branch then
    mk_locals (stall_pc l) (stall_ifid l) true true (flush_exmem l)
  else l.

Definition process (isa : isa_tables)
    (ifid : IFID.t) (idex : IDEX.t) (exmem : EXMEM.t) (take_branch : bool)
    : out :=
  let l := control_hazard take_branch (data_hazards isa ifid idex exmem no_hazard) in
  {| stall_pc_o := stall_pc l;
     stall_ifid_o := stall_ifid l;
     stall_idex_o := false;
     stall_exmem_o := false;
     stall_memwb_o := false;
     flush_ifid_o := flush_ifid l;
     flush_idex_o := flush_idex l;
     flush_exmem_o := flush_exmem l |}.

(** The instruction in IF/ID reads register [r]: its opcode uses rs1 and
    the rs1 field names [r], or its opcode uses rs2 and the rs2 field names
    [r].  The opcode tables list [inst[6:2]]; the two low bits of a 32-bit
    opcode are [11], which is what [process] tests first ("valid
    instruction"). *)
Definition reads (isa : isa_tables) (inst r : Z) : bool :=
  (Z.land inst 3 =? 3)
  && ((_needs_rs1 isa (Z.land (Z.shiftr inst 2) 31)
         && (Z.land (Z.shiftr inst 15) 31 =? r))
      || (_needs_rs2 isa (Z.land (Z.shiftr inst 2) 31)
            && (Z.land (Z.shiftr inst 20) 31 =? r))).

End HazardUnit.

(** ** Pipeline registers ([pyv/pipeline_regs.py])

    Each [process] returns its write to [self.reg.next]. *)
Module IFIDReg.
Definition reset : IFID.t := IFID.mk 19 (-4).
Definition process (IFID_i : IFID.t) (stall flush : bool) : option IFID.t :=
  if flush then Some (IFID.mk 19 (-4))
  else if negb stall then Some IFID_i
  else None.
End IFIDReg.

Module IDEXReg.
Definition reset : IDEX.t := IDEX.default.
Definition process (IDEX_i : IDEX.t) (stall flush : bool) : option IDEX.t :=
  if flush then Some IDEX.default
  else if negb stall then Some IDEX_i
  else None.
End IDEXReg.

Module EXMEMReg.
Definition reset : EXMEM.t := EXMEM.default.
Definition process (EXMEM_i : EXMEM.t) (stall flush : bool) : option EXMEM.t :=
  if flush then Some EXMEM.default
  else if negb stall then Some EXMEM_i
  else None.
End EXMEMReg.

Module MEMWBReg.
Definition reset : MEMWB.t := MEMWB.default.
Definition process (MEMWB_i : MEMWB.t) (stall flush : bool) : option MEMWB.t :=
  if flush then Some MEMWB.default
  else if negb stall then Some MEMWB_i
  else None.
End MEMWBReg.

(** ** Top-level glue ([Pipelined.connects]) *)
Module Connects.
(** What one call writes: [pc_reg.next] (or nothing), and the wires
    [take_branch] and [alu_res]. *)
Record out := mk {
  pc_next_w : option Z;
  take_branch_w : bool;
  alu_res_w : Z
}.

Definition connects (stall : bool) (npc : Z) (exmem : EXMEM.t) : out :=
  {| pc_next_w := if negb stall then Some npc else None;
     take_branch_w := EXMEM.take_branch exmem;
     alu_res_w := EXMEM.alu_res exmem |}.
End Connects.

(** ** Python string formatting of integers *)

(** [str(z)] and the f-string field [{z}]: decimal with a leading minus. *)
Definition py_str (z : Z) : string :=
  DecimalString.NilZero.string_of_int (Z.to_int z).

(** Lower-case hexadecimal digits of a natural number, no prefix. *)
Definition hex_digits (z : Z) : string :=
  HexadecimalString.NilZero.string_of_uint (N.to_hex_uint (Z.to_N z)).

Fixpoint zeros (n : nat) : string :=
  match n with
  | O => EmptyString
  | S n' => String "0" (zeros n')
  end.

(** Left padding with ["0"] up to [width] characters. *)
Definition zero_pad (width : nat) (s : string) : string :=
  zeros (width - String.length s) +:+ s.

(** The f-string field [{z:0Nx}]: the sign counts in the width. *)
Definition py_format_x (width : nat) (z : Z) : string :=
  if z <? 0 then "-" +:+ zero_pad (width - 1) (hex_digits (- z))
  else zero_pad width (hex_digits z).

(** [hex(z)]. *)
Definition py_hex (z : Z) : string :=
  if z <? 0 then "-0x" +:+ hex_digits (- z) else "0x" +:+ hex_digits z.

(** ** Bit utilities ([pyv.util]) *)

(** Modelled from the spec: [get_bits] of [pyv/util.py] (a file that is
    not embedded here); the bit utilities "extract fields from 32-bit
    words", and [get_bits(val, msb, lsb)] is the field [val[msb:lsb]]. *)
Definition get_bits (val msb lsb : Z) : Z :=
  Z.land (Z.shiftr val lsb) (Z.shiftl 1 (msb - lsb + 1) - 1).

(** Modelled from the spec: [get_bit] of [pyv/util.py]; [get_bit(val, n)]
    is the single bit [val[n]]. *)
Definition get_bit (val n : Z) : Z := Z.land (Z.shiftr val n) 1.

(** ** The hazard rules as the design states them *)
Module HazardRules.

(** Modelled from the spec: "[needs_rs1] = opcode ∈ {OP, OP-IMM, LOAD,
    STORE, BRANCH, JALR}". *)
Definition needs_rs1 (isa : isa_tables) (opcode : Z) : bool :=
  existsb (fun name => opcode =? OPCODES isa name)
    ["OP"; "OP-IMM"; "LOAD"; "STORE"; "BRANCH"; "JALR"].

(** Modelled from the spec: "[needs_rs2] = opcode ∈ {OP, STORE, BRANCH}". *)
Definition needs_rs2 (isa : isa_tables) (opcode : Z) : bool :=
  existsb (fun name => opcode =? OPCODES isa name) ["OP"; "STORE"; "BRANCH"].

(** Modelled from the spec: "the instruction in IF/ID reads that register
    as rs1 (if used by its opcode) or rs2 (if used)".  The opcode is the
    field [inst[6:2]] that the ISA tables list, and the two sources are the
    fields [inst[19:15]] and [inst[24:20]]. *)
Definition reads_register (isa : isa_tables) (inst r : Z) : bool :=
  (needs_rs1 isa (get_bits inst 6 2) && (get_bits inst 19 15 =? r))
  || (needs_rs2 isa (get_bits inst 6 2) && (get_bits inst 24 20 =? r)).

End HazardRules.

(** ** Disassembler ([pyv/disassembler.py]) *)
Module Disassembler.

(** The dictionary [REG_ABI_NAMES]. *)
Definition REG_ABI_NAMES : gmap Z string :=
  list_to_map
    [(0, "zero"); (1, "ra"); (2, "sp"); (3, "gp");
     (4, "tp"); (5, "t0"); (6, "t1"); (7, "t2");
     (8, "s0"); (9, "s1"); (10, "a0"); (11, "a1");
     (12, "a2"); (13, "a3"); (14, "a4"); (15, "a5");
     (16, "a6"); (17, "a7"); (18, "s2"); (19, "s3");
     (20, "s4"); (21, "s5"); (22, "s6"); (23, "s7");
     (24, "s8"); (25, "s9"); (26, "s10"); (27, "s11");
     (28, "t3"); (29, "t4"); (30, "t5"); (31, "t6")].

(** [reg_name]; [None] is the [KeyError] of a missing key. *)
Definition reg_name (reg_num : Z) : option string :=
  abi ← REG_ABI_NAMES !! reg_num;
  Some ("x" +:+ py_str reg_num +:+ "(" +:+ abi +:+ ")").

Definition decode_imm (isa : isa_tables) (opcode inst : Z) : Z :=
  let sign := get_bit inst 31 in
  if py_in opcode (INST_I isa) then
    let imm := get_bits inst 31 20 in
    let sign_ext := if sign =? 0 then 0 else Z.shiftl 1048575 12 in
    Z.lor sign_ext imm
  else if py_in opcode (INST_S isa) then
    let imm_11_5 := get_bits inst 31 25 in
    let imm_4_0 := get_bits inst 11 7 in
    let imm := Z.lor (Z.shiftl imm_11_5 5) imm_4_0 in
    let sign_ext := if sign =? 0 then 0 else Z.shiftl 1048575 12 in
    Z.lor sign_ext imm
  else if py_in opcode (INST_B isa) then
    let imm_12 := get_bit inst 31 in
    let imm_10_5 := get_bits inst 30 25 in
    let imm_4_1 := get_bits inst 11 8 in
    let imm_11 := get_bits inst 7 7 in
    let imm := Z.lor (Z.lor (Z.lor (Z.shiftl imm_12 12) (Z.shiftl imm_11 11))
                        (Z.shiftl imm_10_5 5)) (Z.shiftl imm_4_1 1) in
    let sign_ext := if sign =? 0 then 0 else Z.shiftl 524287 13 in
    Z.lor sign_ext imm
  else if py_in opcode (INST_U isa) then
    let imm := Z.shiftl (get_bits inst 31 12) 12 in
    Z.lor 0 imm
  else if py_in opcode (INST_J isa) then
    let imm_20 := get_bit inst 31 in
    let imm_10_1 := get_bits inst 30 21 in
    let imm_11 := get_bits inst 20 20 in
    let imm_19_12 := get_bits inst 19 12 in
    let imm := Z.lor (Z.lor (Z.lor (Z.shiftl imm_20 20) (Z.shiftl imm_19_12 12))
                        (Z.shiftl imm_11 11)) (Z.shiftl imm_10_1 1) in
    let sign_ext := if sign =? 0 then 0 else Z.shiftl 2047 21 in
    Z.lor sign_ext imm
  else Z.lor 0 0.

(** The nested helper [to_signed(val, bits=32)]. *)
Definition to_signed (val : Z) : Z :=
  if Z.land val (Z.shiftl 1 31) =? 0 then val else val - Z.shiftl 1 32.

(** The body of the [try:] block.  [None] means that no [return] was
    reached, either because no case matched or because an exception was
    raised and swallowed by [except Exception: pass]. *)
Definition try_block (isa : isa_tables) (inst : Z) : option (string * string) :=
  let opcode := get_bits inst 6 2 in
  let funct3 := get_bits inst 14 12 in
  let funct7 := get_bits inst 31 25 in
  let rd := get_bits inst 11 7 in
  let rs1 := get_bits inst 19 15 in
  let rs2 := get_bits inst 24 20 in
  let imm := decode_imm isa opcode inst in
  let imm_signed := to_signed imm in
  if opcode =? OPCODES isa "OP" then
    rd_name ← reg_name rd;
    rs1_name ← reg_name rs1;
    rs2_name ← reg_name rs2;
    let ops := rd_name +:+ ", " +:+ rs1_name +:+ ", " +:+ rs2_name in
    if funct7 =? 0 then
      if funct3 =? 0 then Some ("ADD", "add " +:+ ops)
      else if funct3 =? 1 then Some ("SLL", "sll " +:+ ops)
      else if funct3 =? 2 then Some ("SLT", "slt " +:+ ops)
      else if funct3 =? 3 then Some ("SLTU", "sltu " +:+ ops)
      else if funct3 =? 4 then Some ("XOR", "xor " +:+ ops)
      else if funct3 =? 5 then Some ("SRL", "srl " +:+ ops)
      else if funct3 =? 6 then Some ("OR", "or " +:+ ops)
      else if funct3 =? 7 then Some ("AND", "and " +:+ ops)
      else None
    else if funct7 =? 32 then
      if funct3 =? 0 then Some ("SUB", "sub " +:+ ops)
      else if funct3 =? 5 then Some ("SRA", "sra " +:+ ops)
      else None
    else None
  else if opcode =? OPCODES isa "OP-IMM" then
    rd_name ← reg_name rd;
    rs1_name ← reg_name rs1;
    let shamt := get_bits inst 24 20 in
    let ops_imm := rd_name +:+ ", " +:+ rs1_name +:+ ", " +:+ py_str imm_signed in
    let ops_sh := rd_name +:+ ", " +:+ rs1_name +:+ ", " +:+ py_str shamt in
    if funct3 =? 0 then Some ("ADDI", "addi " +:+ ops_imm)
    else if funct3 =? 2 then Some ("SLTI", "slti " +:+ ops_imm)
    else if funct3 =? 3 then Some ("SLTIU", "sltiu " +:+ ops_imm)
    else if funct3 =? 4 then Some ("XORI", "xori " +:+ ops_imm)
    else if funct3 =? 6 then Some ("ORI", "ori " +:+ ops_imm)
    else if funct3 =? 7 then Some ("ANDI", "andi " +:+ ops_imm)
    else if funct3 =? 1 then Some ("SLLI", "slli " +:+ ops_sh)
    else if funct3 =? 5 then
      if funct7 =? 0 then Some ("SRLI", "srli " +:+ ops_sh)
      else if funct7 =? 32 then Some ("SRAI", "srai " +:+ ops_sh)
      else None
    else None
  else if opcode =? OPCODES isa "LOAD" then
    rd_name ← reg_name rd;
    rs1_name ← reg_name rs1;
    let ops := rd_name +:+ ", " +:+ py_str imm_signed +:+ "(" +:+ rs1_name +:+ ")" in
    if funct3 =? 0 then Some ("LB", "lb " +:+ ops)
    else if funct3 =? 1 then Some ("LH", "lh " +:+ ops)
    else if funct3 =? 2 then Some ("LW", "lw " +:+ ops)
    else if funct3 =? 4 then Some ("LBU", "lbu " +:+ ops)
    else if funct3 =? 5 then Some ("LHU", "lhu " +:+ ops)
    else None
  else if opcode =? OPCODES isa "STORE" then
    rs1_name ← reg_name rs1;
    rs2_name ← reg_name rs2;
    let ops := rs2_name +:+ ", " +:+ py_str imm_signed +:+ "(" +:+ rs1_name +:+ ")" in
    if funct3 =? 0 then Some ("SB", "sb " +:+ ops)
    else if funct3 =? 1 then Some ("SH", "sh " +:+ ops)
    else if funct3 =? 2 then Some ("SW", "sw " +:+ ops)
    else None
  else if opcode =? OPCODES isa "BRANCH" then
    rs1_name ← reg_name rs1;
    rs2_name ← reg_name rs2;
    let ops := rs1_name +:+ ", " +:+ rs2_name +:+ ", " +:+ py_str imm_signed in
    if funct3 =? 0 then Some ("BEQ", "beq " +:+ ops)
    else if funct3 =? 1 then Some ("BNE", "bne " +:+ ops)
    else if funct3 =? 4 then Some ("BLT", "blt " +:+ ops)
    else if funct3 =? 5 then Some ("BGE", "bge " +:+ ops)
    else if funct3 =? 6 then Some ("BLTU", "bltu " +:+ ops)
    else if funct3 =? 7 then Some ("BGEU", "bgeu " +:+ ops)
    else None
  else if opcode =? OPCODES isa "JAL" then
    rd_name ← reg_name rd;
    Some ("JAL", "jal " +:+ rd_name +:+ ", " +:+ py_str imm_signed)
  else if opcode =? OPCODES isa "JALR" then
    rd_name ← reg_name rd;
    rs1_name ← reg_name rs1;
    Some ("JALR", "jalr " +:+ rd_name +:+ ", " +:+ rs1_name +:+ ", "
                    +:+ py_str imm_signed)
  else if opcode =? OPCODES isa "LUI" then
    rd_name ← reg_name rd;
    Some ("LUI", "lui " +:+ rd_name +:+ ", " +:+ py_str (Z.shiftr imm 12))
  else if opcode =? OPCODES isa "AUIPC" then
    rd_name ← reg_name rd;
    Some ("AUIPC", "auipc " +:+ rd_name +:+ ", " +:+ py_str (Z.shiftr imm 12))
  else if opcode =? OPCODES isa "SYSTEM" then
    rd_name ← reg_name rd;
    rs1_name ← reg_name rs1;
    let csr := get_bits inst 31 20 in
    let ops_r := rd_name +:+ ", 0x" +:+ py_format_x 3 csr +:+ ", " +:+ rs1_name in
    let ops_i := rd_name +:+ ", 0x" +:+ py_format_x 3 csr +:+ ", " +:+ py_str rs1 in
    if funct3 =? CSR_F3 isa "CSRRW" then Some ("CSRRW", "csrrw " +:+ ops_r)
    else if funct3 =? CSR_F3 isa "CSRRS" then Some ("CSRRS", "csrrs " +:+ ops_r)
    else if funct3 =? CSR_F3 isa "CSRRC" then Some ("CSRRC", "csrrc " +:+ ops_r)
    else if funct3 =? CSR_F3 isa "CSRRWI" then Some ("CSRRWI", "csrrwi " +:+ ops_i)
    else if funct3 =? CSR_F3 isa "CSRRSI" then Some ("CSRRSI", "csrrsi " +:+ ops_i)
    else if funct3 =? CSR_F3 isa "CSRRCI" then Some ("CSRRCI", "csrrci " +:+ ops_i)
    else None
  else None.

Definition invalid_msg (inst : Z) : string :=
  "invalid instruction (0x" +:+ py_format_x 8 inst +:+ ")".

Definition unknown_msg (inst : Z) : string :=
  "unknown instruction (0x" +:+ py_format_x 8 inst +:+ ")".

Definition disassemble (isa : isa_tables) (inst : Z) : string * string :=
  if inst =? 19 then ("NOP", "nop (addi x0, x0, 0)")
  else if inst =? 115 then ("ECALL", "ecall")
  else if inst =? 807403635 then ("MRET", "mret")
  else if negb (Z.land inst 3 =? 3) then ("INVALID", invalid_msg inst)
  else
    match try_block isa inst with
    | Some r => r
    | None => ("UNKNOWN", unknown_msg inst)
    end.

(** The disassembler finds a mnemonic for the word: it answers neither
    ["UNKNOWN"] nor ["INVALID"]. *)
Definition recognized (isa : isa_tables) (inst : Z) : bool :=
  negb (String.eqb (fst (disassemble isa inst)) "UNKNOWN")
  && negb (String.eqb (fst (disassemble isa inst)) "INVALID").

(** *** The immediate layouts of the encoding table, bit by bit

    These follow the table of the design ("fields composed", "sign
    source"); bit [i] of the immediate is given as a bit of the
    instruction word. *)

(** I: [inst[31:20]], [inst[31]] copied into the upper 20 bits. *)
Definition imm_I_bit (inst i : Z) : bool :=
  if i <? 12 then Z.testbit inst (i + 20) else Z.testbit inst 31.

(** S: [{inst[31:25], inst[11:7]}], [inst[31]] into the upper 20 bits. *)
Definition imm_S_bit (inst i : Z) : bool :=
  if i <? 5 then Z.testbit inst (i + 7)
  else if i <? 12 then Z.testbit inst (i + 20)
  else Z.testbit inst 31.

(** B: [{inst[31], inst[7], inst[30:25], inst[11:8], 0}], [inst[31]] into
    the upper 19 bits. *)
Definition imm_B_bit (inst i : Z) : bool :=
  if i <? 1 then false
  else if i <? 5 then Z.testbit inst (i + 7)
  else if i <? 11 then Z.testbit inst (i + 20)
  else if i <? 12 then Z.testbit inst 7
  else if i <? 13 then Z.testbit inst 31
  else Z.testbit inst 31.

(** U: [{inst[31:12], 12'b0}], no sign extension. *)
Definition imm_U_bit (inst i : Z) : bool :=
  if i <? 12 then false else Z.testbit inst i.

(** J: [{inst[31], inst[19:12], inst[20], inst[30:21], 0}], [inst[31]]
    into the upper 11 bits. *)
Definition imm_J_bit (inst i : Z) : bool :=
  if i <? 1 then false
  else if i <? 11 then Z.testbit inst (i + 20)
  else if i <? 12 then Z.testbit inst 20
  else if i <? 20 then Z.testbit inst i
  else if i <? 21 then Z.testbit inst 31
  else Z.testbit inst 31.

(** The instruction-class lists are pairwise disjoint, as the R/I/S/B/U/J
    classes of an ISA are. *)
Definition classes_disjoint (isa : isa_tables) : Prop :=
  NoDup (INST_I isa ++ INST_S isa ++ INST_B isa ++ INST_U isa ++ INST_J isa).

End Disassembler.

(** ** The instruction table of the disassembler, by encoding fields *)
Module InstructionTable.

(** A row of the table: the name of the opcode, the admitted values of
    [funct3] and the admitted values of [funct7]; [None] admits every
    value of the field. *)
Definition row : Type := string * option (list Z) * option (list Z).

Definition admits (vals : option (list Z)) (v : Z) : bool :=
  match vals with
  | None => true
  | Some l => py_in v l
  end.

(** The rows that have a mnemonic: ADD .. AND and SUB, SRA; the
    immediate operations, SLLI on [funct3] alone, SRLI and SRAI; the five
    loads, three stores and six branches; JAL, JALR, LUI and AUIPC on the
    opcode alone; the six CSR operations. *)
Definition rows (isa : isa_tables) : list row :=
  [ ("OP", None, Some [0]);
    ("OP", Some [0; 5], Some [32]);
    ("OP-IMM", Some [0; 1; 2; 3; 4; 6; 7], None);
    ("OP-IMM", Some [5], Some [0; 32]);
    ("LOAD", Some [0; 1; 2; 4; 5], None);
    ("STORE", Some [0; 1; 2], None);
    ("BRANCH", Some [0; 1; 4; 5; 6; 7], None);
    ("JAL", None, None);
    ("JALR", None, None);
    ("LUI", None, None);
    ("AUIPC", None, None);
    ("SYSTEM",
     Some [CSR_F3 isa "CSRRW"; CSR_F3 isa "CSRRS"; CSR_F3 isa "CSRRC";
           CSR_F3 isa "CSRRWI"; CSR_F3 isa "CSRRSI"; CSR_F3 isa "CSRRCI"],
     None) ].

(** A word matches a row on its fields [inst[6:2]], [inst[14:12]] and
    [inst[31:25]]. *)
Definition matches (isa : isa_tables) (inst : Z) (r : row) : bool :=
  let '(name, funct3s, funct7s) := r in
  (get_bits inst 6 2 =? OPCODES isa name)
  && admits funct3s (get_bits inst 14 12)
  && admits funct7s (get_bits inst 31 25).

(** A word encodes a recognized instruction: it is the NOP, ECALL or MRET
    word, or its low two bits are [11] and it matches a row of the table.
    This is stated on the bits of the word alone. *)
Definition encodes_instruction (isa : isa_tables) (inst : Z) : bool :=
  py_in inst [19; 115; 807403635]
  || ((Z.land inst 3 =? 3) && existsb (matches isa inst) (rows isa)).

(** The ten opcodes of the table are pairwise different, as the opcodes
    of an ISA are. *)
Definition opcodes_distinct (isa : isa_tables) : Prop :=
  NoDup (OPCODES isa <$> ["OP"; "OP-IMM"; "LOAD"; "STORE"; "BRANCH"; "JAL";
                          "JALR"; "LUI"; "AUIPC"; "SYSTEM"]).

End InstructionTable.

(** ** Python lists as arrays *)

(** [l[k]] for an integer [k]: negative indices count from the end, and an
    index out of range raises [IndexError] ([None]). *)
Definition py_getitem {A : Type} (l : list A) (k : Z) : option A :=
  let n := Z.of_nat (length l) in
  if (0 <=? k) && (k <? n) then l !! Z.to_nat k
  else if (- n <=? k) && (k <? 0) then l !! Z.to_nat (n + k)
  else None.

(** [l[:len(src)] = src]: the slice [l[:len(src)]] is replaced by [src].
    When [src] is longer than [l] the slice is all of [l] and the list
    grows to the length of [src]. *)
Definition py_set_prefix {A : Type} (l src : list A) : list A :=
  src ++ drop (length src) l.

(** ** Memory ([pyv.mem.Memory]) *)
Module Memory.

(** The array [Memory.mem]: a Python list of byte values, the only shape
    that both [mem[:len(inst)] = inst] and [hex(mem[addr + i])] of the
    wrapper fit. *)
Abbreviation t := (list Z).

(** Modelled from the spec: the constructor [Memory(size)] of [pyv/mem.py]
    (a file that is not embedded here); a "flat byte array of configurable
    size", zero-filled. *)
Definition init (size : Z) : t := replicate (Z.to_nat size) 0.

(** Modelled from the spec: a read port of [pyv/mem.py]; little-endian
    read of [width] bytes at [addr], and an address outside the allocated
    memory is a simulator error ([None]). *)
Fixpoint read (mem : t) (addr : Z) (width : nat) : option Z :=
  match width with
  | O => Some 0
  | S w =>
      if addr <? 0 then None
      else
        b ← mem !! Z.to_nat addr;
        rest ← read mem (addr + 1) w;
        Some (Z.lor b (Z.shiftl rest 8))
  end.

(** Modelled from the spec: the write port of [pyv/mem.py]; little-endian
    write of the low [width] bytes of [val] at [addr], and an address
    outside the allocated memory is a simulator error ([None]). *)
Fixpoint write (mem : t) (addr : Z) (width : nat) (val : Z) : option t :=
  match width with
  | O => Some mem
  | S w =>
      if (addr <? 0) || (Z.of_nat (length mem) <=? addr) then None
      else write (<[Z.to_nat addr := Z.land val 255]> mem) (addr + 1) w
             (Z.shiftr val 8)
  end.
End Memory.

(** ** Register file ([pyv.reg.Regfile]) *)
Module Regfile.
Abbreviation t := (list Z).

(** Modelled from the spec: the register file of [pyv/reg.py] (a file that
    is not embedded here) after reset; 32 words, all zero. *)
Definition init : t := replicate 32 0.

(** Modelled from the spec: [Regfile.read]; reads of index 0 yield 0. *)
Definition read (regf : t) (idx : Z) : Z :=
  if idx =? 0 then 0 else default 0 (regf !! Z.to_nat idx).

(** Modelled from the spec: the register-file write; "writes to index 0
    are silently discarded". *)
Definition write (regf : t) (idx val : Z) : t :=
  if idx =? 0 then regf else <[Z.to_nat idx := val]> regf.
End Regfile.

(** ** 32-bit arithmetic of the datapath *)

(** The unsigned and the signed reading of a word. *)
Definition u32 (x : Z) : Z := x mod 2 ^ 32.
Definition s32 (x : Z) : Z := if u32 x <? 2 ^ 31 then u32 x else u32 x - 2 ^ 32.

(** ** Stage logic ([pyv.stages])

    The stage modules live in [pyv/stages.py], which is not embedded here;
    the definitions of this part follow the component design, for the
    RV32I integer instructions.  The CSR unit and the exception unit are
    left out: SYSTEM instructions decode to a record without write-back,
    and the exception inputs of the branch unit are tied low. *)

Module IFStage.
(** Modelled from the spec: the registers of [IFStage] in [pyv/stages.py].
    The stage is fed from the next-PC wire ([if_stg.npc_i << npc]) and
    holds its own PC and "raw instruction register" ([if_stg.pc_reg],
    [if_stg.ir_reg], both read by the loggers). *)
Record t := mk { pc_reg : Z; ir_reg : Z }.

(** Modelled from the spec: the reset values of the two registers; PC at
    [-4] and the canonical NOP, as in the IF/ID bubble. *)
Definition reset : t := mk (-4) 19.

(** Modelled from the spec: the output [IFID_o] of [IFStage]; "the
    instruction word fetched from memory at PC, and PC itself". *)
Definition IFID_o (s : t) : IFID.t := IFID.mk (ir_reg s) (pc_reg s).

(** Modelled from the spec: the fetch of [IFStage]; four bytes read
    little-endian at the next PC and latched together with it. *)
Definition process (mem : Memory.t) (npc_i : Z) : option t :=
  inst ← Memory.read mem npc_i 4;
  Some (mk npc_i inst).
End IFStage.

Module IDStage.
(** Modelled from the spec: [IDStage] of [pyv/stages.py]; register
    indices, immediate of the encoding table, control signals [we],
    [wb_sel] (0 ALU, 1 PC+4, 2 MEM), [mem] (1 LOAD, 2 STORE), [is_branch],
    and the register read.  A word that is not a 32-bit encoding decodes
    to a record without architectural effect. *)
Definition process (isa : isa_tables) (regf : Regfile.t) (ifid : IFID.t)
    : IDEX.t :=
  let inst := IFID.inst ifid in
  let opcode := get_bits inst 6 2 in
  let rd := get_bits inst 11 7 in
  let funct3 := get_bits inst 14 12 in
  let rs1_idx := get_bits inst 19 15 in
  let rs2_idx := get_bits inst 24 20 in
  let funct7 := get_bits inst 31 25 in
  let imm := Disassembler.decode_imm isa opcode inst in
  let op o := opcode =? OPCODES isa o in
  let valid := Z.land inst 3 =? 3 in
  let we := valid && (op "OP" || op "OP-IMM" || op "LOAD" || op "JAL"
                      || op "JALR" || op "LUI" || op "AUIPC") in
  let wb_sel := if op "JAL" || op "JALR" then 1
                else if op "LOAD" then 2 else 0 in
  let mem := if negb valid then 0
             else if op "LOAD" then 1 else if op "STORE" then 2 else 0 in
  let is_branch := valid && (op "BRANCH" || op "JAL" || op "JALR") in
  if valid then
    IDEX.mk (IFID.pc ifid) (Regfile.read regf rs1_idx)
      (Regfile.read regf rs2_idx) imm rd rs1_idx rs2_idx opcode funct3
      funct7 we wb_sel mem is_branch 0 0 false
  else
    IDEX.mk (IFID.pc ifid) 0 0 0 0 0 0 0 0 0 false 0 0 false 0 0 false.
End IDStage.

Module EXStage.
(** Modelled from the spec: the ALU of [EXStage]; ADD, SUB, SLL, SLT, SLTU,
    XOR, SRL, SRA, OR, AND selected by [funct3] and the SUB/SRA bit, shift
    amount in the low five bits. *)
Definition alu (funct3 : Z) (alt : bool) (a b : Z) : Z :=
  if funct3 =? 0 then (if alt then u32 (a - b) else u32 (a + b))
  else if funct3 =? 1 then u32 (Z.shiftl (u32 a) (Z.land b 31))
  else if funct3 =? 2 then (if s32 a <? s32 b then 1 else 0)
  else if funct3 =? 3 then (if u32 a <? u32 b then 1 else 0)
  else if funct3 =? 4 then Z.lxor (u32 a) (u32 b)
  else if funct3 =? 5 then
    (if alt then u32 (Z.shiftr (s32 a) (Z.land b 31))
     else Z.shiftr (u32 a) (Z.land b 31))
  else if funct3 =? 6 then Z.lor (u32 a) (u32 b)
  else Z.land (u32 a) (u32 b).

(** Modelled from the spec: the branch condition of [EXStage];
    BEQ/BNE/BLT/BGE/BLTU/BGEU by [funct3]. *)
Definition branch_cond (funct3 a b : Z) : bool :=
  if funct3 =? 0 then u32 a =? u32 b
  else if funct3 =? 1 then negb (u32 a =? u32 b)
  else if funct3 =? 4 then s32 a <? s32 b
  else if funct3 =? 5 then negb (s32 a <? s32 b)
  else if funct3 =? 6 then u32 a <? u32 b
  else if funct3 =? 7 then negb (u32 a <? u32 b)
  else false.

(** Modelled from the spec: [EXStage] of [pyv/stages.py]; ALU result,
    effective address for loads and stores, target address in [alu_res]
    for branches and jumps (JALR clears the low bit), [take_branch] true
    for JAL/JALR and by the condition for BRANCH, [pc4 = pc + 4]. *)
Definition process (isa : isa_tables) (idex : IDEX.t) : EXMEM.t :=
  let op o := IDEX.opcode idex =? OPCODES isa o in
  let pc := IDEX.pc idex in
  let rs1 := IDEX.rs1 idex in
  let rs2 := IDEX.rs2 idex in
  let imm := IDEX.imm idex in
  let f3 := IDEX.funct3 idex in
  let alt := Z.testbit (IDEX.funct7 idex) 5 in
  let alu_res :=
    if op "OP" then alu f3 alt rs1 rs2
    else if op "OP-IMM" then alu f3 (alt && (f3 =? 5)) rs1 imm
    else if op "LOAD" || op "STORE" then u32 (rs1 + imm)
    else if op "BRANCH" || op "JAL" || op "AUIPC" then u32 (pc + imm)
    else if op "JALR" then Z.land (u32 (rs1 + imm)) 4294967294
    else if op "LUI" then u32 imm
    else 0 in
  let take_branch :=
    IDEX.is_branch idex
    && (if op "BRANCH" then branch_cond f3 rs1 rs2 else true) in
  EXMEM.mk (u32 (pc + 4)) alu_res rs2 (IDEX.rd idex) (IDEX.we idex)
    (IDEX.wb_sel idex) (IDEX.mem idex) f3 take_branch 0 0 false 0.
End EXStage.

Module MEMStage.
(** Modelled from the spec: the access width of [MEMStage]; byte, halfword
    or word by the low two bits of [funct3]. *)
Definition width (funct3 : Z) : nat :=
  if Z.land funct3 3 =? 0 then 1%nat
  else if Z.land funct3 3 =? 1 then 2%nat else 4%nat.

(** Modelled from the spec: the extension of a loaded value in
    [MEMStage]; sign-extended, or zero-extended for LBU/LHU. *)
Definition extend (funct3 : Z) (v : Z) : Z :=
  let bits := 8 * Z.of_nat (width funct3) in
  if Z.testbit funct3 2 then v
  else if Z.testbit v (bits - 1) then u32 (v - 2 ^ bits) else v.

(** Modelled from the spec: [MEMStage] of [pyv/stages.py]; a read at
    [alu_res] when [mem] is LOAD, a write of [rs2] at [alu_res] when [mem]
    is STORE, pass-through otherwise. *)
Definition process (mem : Memory.t) (exmem : EXMEM.t)
    : option (MEMWB.t * Memory.t) :=
  let out rdata :=
    MEMWB.mk (EXMEM.pc4 exmem) (EXMEM.alu_res exmem) rdata (EXMEM.rd exmem)
      (EXMEM.we exmem) (EXMEM.wb_sel exmem) 0 0 false 0 in
  if EXMEM.mem exmem =? 1 then
    v ← Memory.read mem (EXMEM.alu_res exmem) (width (EXMEM.funct3 exmem));
    Some (out (extend (EXMEM.funct3 exmem) v), mem)
  else if EXMEM.mem exmem =? 2 then
    mem' ← Memory.write mem (EXMEM.alu_res exmem)
              (width (EXMEM.funct3 exmem)) (EXMEM.rs2 exmem);
    Some (out 0, mem')
  else Some (out 0, mem).
End MEMStage.

Module WBStage.
(** Modelled from the spec: the write-back value of [WBStage]; selected by
    [wb_sel]: 0 [alu_res], 1 [pc4], 2 [mem_rdata], 3 [csr_read_val]. *)
Definition value (memwb : MEMWB.t) : Z :=
  if MEMWB.wb_sel memwb =? 0 then MEMWB.alu_res memwb
  else if MEMWB.wb_sel memwb =? 1 then MEMWB.pc4 memwb
  else if MEMWB.wb_sel memwb =? 2 then MEMWB.mem_rdata memwb
  else MEMWB.csr_read_val memwb.

(** Modelled from the spec: the register-file write command of [WBStage];
    "writes with rd=0 or we=false are no-ops". *)
Definition writes (memwb : MEMWB.t) : option (Z * Z) :=
  if MEMWB.we memwb && negb (MEMWB.rd memwb =? 0)
  then Some (MEMWB.rd memwb, value memwb) else None.

(** Modelled from the spec: [WBStage] of [pyv/stages.py] applied to the
    register file. *)
Definition process (regf : Regfile.t) (memwb : MEMWB.t) : Regfile.t :=
  match writes memwb with
  | Some (rd, v) => Regfile.write regf rd v
  | None => regf
  end.
End WBStage.

Module BranchUnit.
(** Modelled from the spec: [BranchUnit] of [pyv/stages.py]; next PC from
    trap entry, trap return, taken branch, or the sequential PC, in that
    priority. *)
Definition process (pc_i : Z) (take_branch_i : bool) (target_i : Z)
    (raise_exception_i : bool) (mtvec_i : Z)
    (trap_return_i : bool) (mepc_i : Z) : Z :=
  if raise_exception_i then mtvec_i
  else if trap_return_i then mepc_i
  else if take_branch_i then target_i
  else pc_i + 4.
End BranchUnit.

(** ** The pipelined core ([Pipelined] in [pyv/models/pipelined.py]) *)
Module Pipelined.

(** The state held across cycles: register file, memory, the IF stage's
    registers, the four pipeline registers and the PC register. *)
Record t := mk {
  regf : Regfile.t;
  mem : Memory.t;
  if_stg : IFStage.t;
  ifid_reg : IFID.t;
  idex_reg : IDEX.t;
  exmem_reg : EXMEM.t;
  memwb_reg : MEMWB.t;
  pc_reg : Z
}.

(** [__init__]: [Memory(8 * 1024)], [Reg(int, -4)] for the PC, every
    register at its reset value. *)
Definition init : t :=
  mk Regfile.init (Memory.init (8 * 1024)) IFStage.reset IFIDReg.reset
    IDEXReg.reset EXMEMReg.reset MEMWBReg.reset (-4).

(** The hazard unit's outputs in the current cycle.  Its [take_branch_i]
    is the wire [take_branch], which [connects] drives with
    [exmem_reg.EXMEM_o.read().take_branch]. *)
Definition hazard (isa : isa_tables) (c : t) : HazardUnit.out :=
  HazardUnit.process isa (ifid_reg c) (idex_reg c) (exmem_reg c)
    (EXMEM.take_branch (exmem_reg c)).

(** The next-PC wire: the branch unit on [pc_reg.cur] and on the wires
    [take_branch] and [alu_res] that [connects] drives from EX/MEM. *)
Definition npc (c : t) : Z :=
  BranchUnit.process (pc_reg c) (EXMEM.take_branch (exmem_reg c))
    (EXMEM.alu_res (exmem_reg c)) false 0 false 0.

(** Modelled from the spec: one [step] of the simulator kernel (which is
    not embedded here) on the core; the combinational logic is settled on
    the current register values, then every register commits.  The
    connections are those of [Pipelined.__init__]: the stall and flush
    inputs of the pipeline registers come from the hazard unit, the flush
    of MEM/WB from [Constant(False)], and the register file is written
    before it is read within the cycle.  The fetch follows the PC register
    ("IF reads instruction from memory at PC"): while [stall_pc] holds the
    PC, the IF stage makes no new fetch and keeps the instruction that
    waits behind the held IF/ID, so that a stall delays the instruction
    stream without dropping any of it. *)
Definition cycle (isa : isa_tables) (c : t) : option t :=
  let hz := hazard isa c in
  let cn := Connects.connects (HazardUnit.stall_pc_o hz) (npc c) (exmem_reg c) in
  if_stg' ← (if HazardUnit.stall_pc_o hz then Some (if_stg c)
             else IFStage.process (mem c) (npc c));
  mw ← MEMStage.process (mem c) (exmem_reg c);
  let regf' := WBStage.process (regf c) (memwb_reg c) in
  Some {|
    regf := regf';
    mem := snd mw;
    if_stg := if_stg';
    ifid_reg :=
      Reg_tick (ifid_reg c)
        (IFIDReg.process (IFStage.IFID_o (if_stg c))
           (HazardUnit.stall_ifid_o hz) (HazardUnit.flush_ifid_o hz));
    idex_reg :=
      Reg_tick (idex_reg c)
        (IDEXReg.process (IDStage.process isa regf' (ifid_reg c))
           (HazardUnit.stall_idex_o hz) (HazardUnit.flush_idex_o hz));
    exmem_reg :=
      Reg_tick (exmem_reg c)
        (EXMEMReg.process (EXStage.process isa (idex_reg c))
           (HazardUnit.stall_exmem_o hz) (HazardUnit.flush_exmem_o hz));
    memwb_reg :=
      Reg_tick (memwb_reg c)
        (MEMWBReg.process (fst mw) (HazardUnit.stall_memwb_o hz) false);
    pc_reg := Reg_tick (pc_reg c) (Connects.pc_next_w cn)
  |}.

(** Modelled from the spec: [run(n)] of the simulator kernel; [n] steps,
    stopping at the first simulator error. *)
Fixpoint run (isa : isa_tables) (n : nat) (c : t) : option t :=
  match n with
  | O => Some c
  | S n' => c' ← cycle isa c; run isa n' c'
  end.

(** The register-file write performed in this cycle by the instruction in
    write-back: the architectural effect of that instruction. *)
Definition regfile_write (c : t) : option (Z * Z) :=
  WBStage.writes (memwb_reg c).

End Pipelined.

(** ** The model wrapper ([PipelinedModel]) *)

(** The exceptions that the wrapper's methods let escape. *)
Inductive exception := FileNotFoundError | IndexError.

Inductive result (A : Type) :=
  | Return (a : A)
  | Raise (e : exception).
Arguments Return {A} a.
Arguments Raise {A} e.

(** Python values that the read-out methods put in their result lists. *)
Inductive pyval := PyInt (z : Z) | PyStr (s : string).

Module PipelinedModel.

Definition set_mem (core : Pipelined.t) (m : Memory.t) : Pipelined.t :=
  Pipelined.mk (Pipelined.regf core) m (Pipelined.if_stg core)
    (Pipelined.ifid_reg core) (Pipelined.idex_reg core)
    (Pipelined.exmem_reg core) (Pipelined.memwb_reg core)
    (Pipelined.pc_reg core).

Definition load_instructions (instructions : list Z) (core : Pipelined.t)
    : Pipelined.t :=
  set_mem core (py_set_prefix (Pipelined.mem core) instructions).

(** [load_binary]; the file system maps a path to the bytes of the file,
    and [open] raises [FileNotFoundError] on a missing path. *)
Definition load_binary (fs : gmap string (list Z)) (file : string)
    (core : Pipelined.t) : result Pipelined.t :=
  match fs !! file with
  | None => Raise FileNotFoundError
  | Some ba =>
      let inst := ba in
      Return (set_mem core (py_set_prefix (Pipelined.mem core) inst))
  end.

Definition readReg (core : Pipelined.t) (reg : Z) : Z :=
  Regfile.read (Pipelined.regf core) reg.

Definition readPC (core : Pipelined.t) : Z := Pipelined.pc_reg core.

Definition readDataMem (core : Pipelined.t) (addr nbytes : Z)
    : result (list pyval) :=
  match mapM (fun i => py_getitem (Pipelined.mem core) (addr + i))
             (seqZ 0 nbytes) with
  | Some bs => Return ((fun b => PyStr (py_hex b)) <$> bs)
  | None => Raise IndexError
  end.

Definition readInstMem (core : Pipelined.t) (addr nbytes : Z)
    : result (list pyval) :=
  match mapM (fun i => py_getitem (Pipelined.mem core) (addr + i))
             (seqZ 0 nbytes) with
  | Some bs => Return ((fun b => PyStr (py_hex b)) <$> bs)
  | None => Raise IndexError
  end.

End PipelinedModel.

(** ** Test programs *)

(** Little-endian bytes of a list of instruction words. *)
Definition le_bytes (words : list Z) : list Z :=
  w ← words;
  [Z.land w 255; Z.land (Z.shiftr w 8) 255;
   Z.land (Z.shiftr w 16) 255; Z.land (Z.shiftr w 24) 255].

(** [beq x0, x0, 16] at address 0, then four [addi] that tag x2 .. x5:
<<
   0:  beq  x0, x0, 16
   4:  addi x2, x0, 42
   8:  addi x3, x0, 99
  12:  addi x4, x0, 7
  16:  addi x5, x0, 1
>> *)
Definition branch_program : list Z :=
  le_bytes [2147; 44040467; 103809427; 7340563; 1049235].

(** The same with [jal x1, 16] at address 0. *)
Definition jump_program : list Z :=
  le_bytes [16777455; 44040467; 103809427; 7340563; 1049235].

(** A read-after-write chain two instructions apart:
<<
   0:  addi x6, x0, 1
   4:  addi x5, x0, 1
   8:  add  x7, x6, x0
>> *)
Definition raw_program : list Z :=
  le_bytes [1049363; 1049235; 197555].

(** The chain of dependent additions:
<<
   0:  addi x1, x0, 5
   4:  addi x2, x1, 7
   8:  addi x3, x2, 3
>> *)
Definition addi_chain_program : list Z :=
  le_bytes [5243027; 7373075; 3211667].

(** A store, a load of the stored word and its use:
<<
   0:  addi x10, x0, 100
   4:  sw   x10, 0(x0)
   8:  lw   x11, 0(x0)
  12:  add  x12, x11, x10
>> *)
Definition load_use_program : list Z :=
  le_bytes [104858899; 10493987; 9603; 10847795].

(** ** Pipeline registers over several cycles *)

(** A pipeline register driven for several cycles: each cycle presents an
    input with the [stall] and [flush] signals, [process] writes (or not)
    the register's [next], and the clock edge commits it. *)
Definition run_reg {T : Type} (process : T -> bool -> bool -> option T)
    (c : T) (cycles : list (T * bool * bool)) : T :=
  foldl (fun cur '(i, stall, flush) => Reg_tick cur (process i stall flush))
    c cycles.

(** The most recent cycle that was not a pure stall, if any. *)
Definition last_unstalled {T : Type} (cycles : list (T * bool * bool))
    : option (T * bool * bool) :=
  find (fun '(_, stall, flush) => flush || negb stall) (rev cycles).

(** ** Reading aids for the disassembler's output *)

(** The signed reading of a [k]-bit field [f]: two's complement. *)
Definition sext (k f : Z) : Z := if f <? 2 ^ (k - 1) then f else f - 2 ^ k.

(** [str.lower()] on ASCII text. *)
Definition ascii_lower (c : ascii) : ascii :=
  let n := nat_of_ascii c in
  if (65 <=? n)%nat && (n <=? 90)%nat then ascii_of_nat (n + 32) else c.

Fixpoint string_lower (s : string) : string :=
  match s with
  | EmptyString => EmptyString
  | String c s' => String (ascii_lower c) (string_lower s')
  end.

(** [str.upper()] on ASCII text. *)
Definition ascii_upper (c : ascii) : ascii :=
  let n := nat_of_ascii c in
  if (97 <=? n)%nat && (n <=? 122)%nat then ascii_of_nat (n - 32) else c.

Fixpoint string_upper (s : string) : string :=
  match s with
  | EmptyString => EmptyString
  | String c s' => String (ascii_upper c) (string_upper s')
  end.

(** The f-string field [{z:0NX}]: as [{z:0Nx}] with upper-case digits. *)
Definition py_format_X (width : nat) (z : Z) : string :=
  string_upper (py_format_x width z).

(** The f-string field [{z:#0Nx}]: sign, then ["0x"], then the digits
    padded with zeros to [width] characters in all. *)
Definition py_format_alt_x (width : nat) (z : Z) : string :=
  if z <? 0 then "-0x" +:+ zero_pad (width - 3) (hex_digits (- z))
  else "0x" +:+ zero_pad (width - 2) (hex_digits z).

(** [str(b)] of a Python [bool]. *)
Definition py_bool_str (b : bool) : string := if b then "True" else "False".

(** [sep.join(l)]. *)
Fixpoint py_join (sep : string) (l : list string) : string :=
  match l with
  | [] => EmptyString
  | [s] => s
  | s :: l' => s +:+ sep +:+ py_join sep l'
  end.

(** [needle in hay] on strings. *)
Fixpoint py_contains (needle hay : string) : bool :=
  String.prefix needle hay
  || match hay with
     | EmptyString => false
     | String _ hay' => py_contains needle hay'
     end.

(** [s.endswith(suffix)]. *)
Fixpoint py_endswith (suffix s : string) : bool :=
  String.eqb s suffix
  || match s with
     | EmptyString => false
     | String _ s' => py_endswith suffix s'
     end.

(** ** The educational logger ([pyv/edu_logger.py]) *)
Module EducationalLogger.

(** The status text [hazard_str] that [_log_pipelined_cycle] builds from
    the four hazard outputs it reads. *)
Definition hazard_str (stall_pc stall_ifid flush_ifid flush_idex : bool)
    : string :=
  let hazard_str := EmptyString in
  let hazard_str :=
    if stall_pc || stall_ifid then " [STALL]" else hazard_str in
  let hazard_str :=
    if flush_ifid || flush_idex then hazard_str +:+ " [FLUSH]"
    else hazard_str in
  hazard_str.

(** The lines printed under the hazard status. *)
Definition hazard_lines (stall_pc stall_ifid flush_ifid flush_idex : bool)
    : list string :=
  let hazard_str := hazard_str stall_pc stall_ifid flush_ifid flush_idex in
  if negb (String.eqb hazard_str EmptyString) then
    ([String "010" "Hazard Status:" +:+ hazard_str]
     ++ (if stall_pc then ["  - PC stalled"] else [])
     ++ (if flush_ifid then ["  - IF/ID flushed (bubble inserted)"] else [])
     ++ (if flush_idex then ["  - ID/EX flushed (bubble inserted)"] else []))%list
  else [].

(** What the logger reports for the outputs of the hazard unit. *)
Definition hazard_report (o : HazardUnit.out) : list string :=
  hazard_lines (HazardUnit.stall_pc_o o) (HazardUnit.stall_ifid_o o)
    (HazardUnit.flush_ifid_o o) (HazardUnit.flush_idex_o o).

End EducationalLogger.

(** ** The graphical front end ([gui.py]) *)
Module GUI.

(** The dictionary built by [_snapshot_state] for the pipelined core,
    where every read succeeds and every entry is an integer (a [bool] for
    [ex_take_branch]).  The inner dictionary [regs], with the keys [0],
    [1], ... in order, is the list of its values, so that [regs.get(i)] is
    the lookup [regs !! i]. *)
Record snapshot := mk_snapshot {
  pc : Z;
  regs : list Z;
  ifid_inst : Z;
  ifid_pc : Z;
  ex_alu : Z;
  ex_take_branch : bool;
  mem_rdata : Z
}.

Definition _snapshot_state (core : Pipelined.t) : snapshot :=
  {| pc := PipelinedModel.readPC core;
     regs := (fun i => PipelinedModel.readReg core i) <$> seqZ 0 16;
     ifid_inst := IFID.inst (Pipelined.ifid_reg core);
     ifid_pc := IFID.pc (Pipelined.ifid_reg core);
     ex_alu := EXMEM.alu_res (Pipelined.exmem_reg core);
     ex_take_branch := EXMEM.take_branch (Pipelined.exmem_reg core);
     mem_rdata := MEMWB.mem_rdata (Pipelined.memwb_reg core) |}.

(** [f"0x{v:08X}" if v is not None else 'N/A']. *)
Definition reg_text (v : option Z) : string :=
  match v with
  | Some v => "0x" +:+ py_format_X 8 v
  | None => "N/A"
  end.

(** The loop [for i in range(16)] of [_format_diff]. *)
Definition reg_lines (regs_prev regs_cur : list Z) : list string :=
  flat_map
    (fun i =>
       let pv := regs_prev !! Z.to_nat i in
       let cv := regs_cur !! Z.to_nat i in
       if bool_decide (pv <> cv) then
         ["x" +:+ py_str i +:+ ": " +:+ reg_text pv +:+ " -> " +:+ reg_text cv]
       else [])
    (seqZ 0 16).

Definition _format_diff (prev : option snapshot) (cur : snapshot)
    : list string :=
  match prev with
  | None =>
      let lines := ["PC: " +:+ py_format_alt_x 10 (pc cur)] in
      let changed :=
        imap (fun i v => "x" +:+ py_str (Z.of_nat i) +:+ "=0x"
                           +:+ py_format_X 8 v) (regs cur) in
      match changed with
      | [] => lines
      | _ => (lines ++ ["Regs: " +:+ py_join " " changed])%list
      end
  | Some prev =>
      let lines := [] in
      let lines :=
        if negb (pc prev =? pc cur) then
          (lines ++ ["PC: " +:+ py_format_alt_x 10 (pc prev) +:+ " -> "
                       +:+ py_format_alt_x 10 (pc cur)])%list
        else lines in
      let reg_lines := reg_lines (regs prev) (regs cur) in
      let lines :=
        match reg_lines with
        | [] => lines
        | _ => (lines ++ reg_lines)%list
        end in
      let lines :=
        if negb (ifid_inst prev =? ifid_inst cur)
           || negb (ifid_pc prev =? ifid_pc cur) then
          (lines ++ ["IF/ID: inst " +:+ py_str (ifid_inst prev) +:+ " -> "
                       +:+ py_str (ifid_inst cur) +:+ " pc "
                       +:+ py_str (ifid_pc prev) +:+ " -> "
                       +:+ py_str (ifid_pc cur)])%list
        else lines in
      let lines :=
        if negb (ex_alu prev =? ex_alu cur) then
          (lines ++ ["EX: alu_res " +:+ py_str (ex_alu prev) +:+ " -> "
                       +:+ py_str (ex_alu cur)])%list
        else lines in
      let lines :=
        if negb (Bool.eqb (ex_take_branch prev) (ex_take_branch cur)) then
          (lines ++ ["EX: take_branch " +:+ py_bool_str (ex_take_branch prev)
                       +:+ " -> " +:+ py_bool_str (ex_take_branch cur)])%list
        else lines in
      let lines :=
        if negb (mem_rdata prev =? mem_rdata cur) then
          (lines ++ ["MEM: mem_rdata " +:+ py_str (mem_rdata prev) +:+ " -> "
                       +:+ py_str (mem_rdata cur)])%list
        else lines in
      lines
  end.

(** The test of [_handle_post_step] that ends a run: "pipeline appears
    empty".  The EX/MEM test [rd != 0 or alu_res != None] always holds on
    the integer [alu_res], which leaves its inner test on [rd]. *)
Definition pipeline_empty (core : Pipelined.t) : bool :=
  let pipeline_empty := true in
  let pipeline_empty :=
    if negb (IFID.inst (Pipelined.ifid_reg core) =? 0) then false
    else pipeline_empty in
  let idex := Pipelined.idex_reg core in
  let pipeline_empty :=
    if negb (IDEX.opcode idex =? 0) || negb (IDEX.rd idex =? 0) then false
    else pipeline_empty in
  let exm := Pipelined.exmem_reg core in
  let pipeline_empty :=
    if negb (EXMEM.rd exm =? 0) || true then
      if negb (EXMEM.rd exm =? 0) then false else pipeline_empty
    else pipeline_empty in
  let mw := Pipelined.memwb_reg core in
  let pipeline_empty :=
    if negb (MEMWB.rd mw =? 0) then false else pipeline_empty in
  pipeline_empty.

End GUI.

(** ** Toolchain set-up ([setup_toolchain.py]) *)
Module SetupToolchain.

Definition TOOLCHAIN_VERSION : string := "12.2.0-3".

(** A call that returns or raises [Exception(msg)]. *)
Inductive outcome (A : Type) : Type :=
| Returns (a : A)
| Raises (msg : string).
Arguments Returns {A} a.
Arguments Raises {A} msg.

(** [get_platform_info], as a function of what [platform.system()] and
    [platform.machine()] answer. *)
Definition get_platform_info (platform_system platform_machine : string)
    : outcome (string * string) :=
  let system := string_lower platform_system in
  let machine := string_lower platform_machine in
  if String.eqb system "windows" then Returns ("win32-x64", "zip")
  else if String.eqb system "linux" then
    if py_contains "aarch64" machine || py_contains "arm64" machine then
      Returns ("linux-arm64", "tar.gz")
    else Returns ("linux-x64", "tar.gz")
  else if String.eqb system "darwin" then
    if py_contains "arm" machine || py_contains "aarch64" machine then
      Returns ("darwin-arm64", "tar.gz")
    else Returns ("darwin-x64", "tar.gz")
  else Raises ("Unsupported platform: " +:+ system).

(** The extractor that [extract_archive] hands the archive to. *)
Inductive extractor := ZipFile | TarGz.

Definition extract_archive (archive_path : string) : outcome extractor :=
  if py_endswith ".zip" archive_path then Returns ZipFile
  else if py_endswith ".tar.gz" archive_path || py_endswith ".tgz" archive_path
  then Returns TarGz
  else Raises ("Unknown archive format: " +:+ archive_path).

(** [archive_name] of [setup_toolchain]. *)
Definition archive_name (platform_name archive_ext : string) : string :=
  "xpack-riscv-none-elf-gcc-" +:+ TOOLCHAIN_VERSION +:+ "-" +:+ platform_name
    +:+ "." +:+ archive_ext.

End SetupToolchain.

(* ===================================================================== *)
(** * Part II: theorems *)
(* ===================================================================== *)

Lemma py_in_true (x : Z) (l : list Z) : py_in x l = true <-> In x l.
Proof.
  unfold py_in. rewrite existsb_exists. split.
  - intros (y & Hy & E). apply Z.eqb_eq in E. now subst.
  - intros H. exists x. split; [assumption | apply Z.eqb_refl].
Qed.

(** ** Hazard unit *)

Section Hazard.
Context (isa : isa_tables).
Import HazardUnit.

Lemma reads_cases (inst r : Z) :
  reads isa inst r = true ->
  (Z.land inst 3 =? 3) = true /\
  (_needs_rs1 isa (Z.land (Z.shiftr inst 2) 31)
     && (Z.land (Z.shiftr inst 15) 31 =? r)
   || _needs_rs2 isa (Z.land (Z.shiftr inst 2) 31)
     && (Z.land (Z.shiftr inst 20) 31 =? r)) = true.
Proof. unfold reads. intros H. apply andb_true_iff in H. exact H. Qed.

(** The data-hazard block only ever raises the three stall signals. *)
Lemma data_hazards_stall_or_not ifid idex exmem :
  data_hazards isa ifid idex exmem no_hazard = stall no_hazard \/
  data_hazards isa ifid idex exmem no_hazard = no_hazard.
Proof.
  unfold data_hazards.
  repeat match goal with
         | |- context [if ?b then _ else _] => destruct b
         end; auto.
Qed.

(** A taken branch never clears a stall and always flushes IF/ID and
    ID/EX; EX/MEM is never flushed. *)
Lemma process_take_branch ifid idex exmem :
  let o := process isa ifid idex exmem true in
  flush_ifid_o o = true /\ flush_idex_o o = true /\ flush_exmem_o o = false.
Proof.
  cbn. destruct (data_hazards_stall_or_not ifid idex exmem) as [-> | ->];
    cbn; auto.
Qed.

Lemma process_flush_exmem_never ifid idex exmem tb :
  flush_exmem_o (process isa ifid idex exmem tb) = false.
Proof.
  unfold process.
  destruct (data_hazards_stall_or_not ifid idex exmem) as [-> | ->];
    destruct tb; reflexivity.
Qed.

(** The opcode lists of [_needs_rs1] and [_needs_rs2] are those of the
    design, and the shifts and masks of [process] select the fields
    [inst[6:2]], [inst[19:15]] and [inst[24:20]]. *)
Lemma needs_rs1_as_designed (opcode : Z) :
  _needs_rs1 isa opcode = HazardRules.needs_rs1 isa opcode.
Proof. reflexivity. Qed.

Lemma needs_rs2_as_designed (opcode : Z) :
  _needs_rs2 isa opcode = HazardRules.needs_rs2 isa opcode.
Proof. reflexivity. Qed.

Lemma reads_register_fields (inst r : Z) :
  HazardRules.reads_register isa inst r
  = (_needs_rs1 isa (Z.land (Z.shiftr inst 2) 31)
       && (Z.land (Z.shiftr inst 15) 31 =? r))
    || (_needs_rs2 isa (Z.land (Z.shiftr inst 2) 31)
          && (Z.land (Z.shiftr inst 20) 31 =? r)).
Proof.
  unfold HazardRules.reads_register.
  rewrite <- needs_rs1_as_designed, <- needs_rs2_as_designed.
  reflexivity.
Qed.

(** C3 (as the code has it). Load-use hazard: when the word in IF/ID is a
    32-bit encoding (low two bits [11], the guard of [process]), ID/EX
    holds a LOAD ([mem = 1]) whose destination [rd] is not x0, and the
    IF/ID instruction reads that register in the design's sense (as rs1
    when its opcode is one of OP, OP-IMM, LOAD, STORE, BRANCH, JALR, or as
    rs2 when its opcode is one of OP, STORE, BRANCH), [process] drives
    [stall_pc_o], [stall_ifid_o] and [flush_idex_o] to true, whatever
    EX/MEM holds and whether or not a branch is taken. *)
Theorem load_use_hazard_stalls ifid idex exmem take_branch :
  Z.land (IFID.inst ifid) 3 = 3 ->
  IDEX.mem idex = 1 ->
  IDEX.rd idex <> 0 ->
  HazardRules.reads_register isa (IFID.inst ifid) (IDEX.rd idex) = true ->
  let o := process isa ifid idex exmem take_branch in
  stall_pc_o o = true /\ stall_ifid_o o = true /\ flush_idex_o o = true.
Proof.
  intros Hvalid Hmem Hrd Huse.
  rewrite reads_register_fields in Huse.
  apply Z.eqb_eq in Hvalid. apply Z.eqb_neq in Hrd.
  unfold process, data_hazards.
  rewrite Hvalid, Hmem, Hrd. cbn [negb Z.eqb].
  rewrite !andb_true_r.
  apply orb_true_iff in Huse. destruct Huse as [H1 | H2].
  - rewrite H1. destruct take_branch; cbn; auto.
  - rewrite H2.
    destruct (_needs_rs1 isa _ && _); destruct take_branch; cbn; auto.
Qed.

(** X21. A word whose low two bits are not [11] never raises a data
    hazard: the whole detection sits under the "valid instruction" guard,
    so only a taken branch can flush ID/EX. *)
Lemma no_data_hazard_without_encoding ifid idex exmem take_branch :
  Z.land (IFID.inst ifid) 3 <> 3 ->
  let o := process isa ifid idex exmem take_branch in
  stall_pc_o o = false /\ stall_ifid_o o = false /\
  flush_idex_o o = take_branch.
Proof.
  intros Hlow. apply Z.eqb_neq in Hlow.
  unfold process, data_hazards. rewrite Hlow.
  destruct take_branch; cbn; auto.
Qed.

(** X22. What the code does guarantee for the EX/MEM check: it is
    consulted only when ID/EX is neither a LOAD nor a writer of a non-zero
    register; then a source register written by EX/MEM stalls the PC and
    IF/ID and flushes ID/EX. *)
Lemma raw_exmem_hazard_when_idex_idle ifid idex exmem take_branch :
  IDEX.mem idex <> 1 ->
  IDEX.we idex && negb (IDEX.rd idex =? 0) = false ->
  EXMEM.we exmem = true ->
  EXMEM.rd exmem <> 0 ->
  reads isa (IFID.inst ifid) (EXMEM.rd exmem) = true ->
  let o := process isa ifid idex exmem take_branch in
  stall_pc_o o = true /\ stall_ifid_o o = true /\ flush_idex_o o = true.
Proof.
  intros Hmem Hidle Hwe Hrd Hreads.
  apply reads_cases in Hreads. destruct Hreads as [Hvalid Huse].
  apply Z.eqb_neq in Hrd. apply Z.eqb_neq in Hmem.
  unfold process, data_hazards.
  rewrite Hvalid, Hmem, Hidle, Hwe, Hrd, Huse.
  destruct take_branch; cbn; auto.
Qed.

End Hazard.

Lemma no_data_hazard_without_encoding_witness :
  let o := HazardUnit.process rv32i (IFID.mk 7504688 4)
             (IDEX.mk 0 0 0 0 5 10 0 0 2 0 true 2 1 false 0 0 false)
             EXMEM.default false in
  HazardUnit.stall_pc_o o = false /\ HazardUnit.stall_ifid_o o = false /\
  HazardUnit.flush_idex_o o = false.
Proof.
  apply (no_data_hazard_without_encoding rv32i (IFID.mk 7504688 4)
           (IDEX.mk 0 0 0 0 5 10 0 0 2 0 true 2 1 false 0 0 false)
           EXMEM.default false).
  vm_compute. discriminate.
Defined.

(** Witness for the amended C3: behind [lw x5, 0(x10)] in EX, the
    instruction [add x6, x5, x7] reads x5 as rs1, and the instruction
    [sw x5, 0(x10)] reads it as rs2 only. *)
Lemma load_use_hazard_stalls_witness :
  let idex := IDEX.mk 0 0 0 0 5 10 0 0 2 0 true 2 1 false 0 0 false in
  let stalls (o : HazardUnit.out) :=
    HazardUnit.stall_pc_o o = true /\ HazardUnit.stall_ifid_o o = true
    /\ HazardUnit.flush_idex_o o = true in
  stalls (HazardUnit.process rv32i (IFID.mk 7504691 4) idex EXMEM.default false)
  /\ stalls (HazardUnit.process rv32i (IFID.mk 5578787 4) idex EXMEM.default
              false).
Proof.
  split.
  - apply (load_use_hazard_stalls rv32i (IFID.mk 7504691 4)
             (IDEX.mk 0 0 0 0 5 10 0 0 2 0 true 2 1 false 0 0 false)
             EXMEM.default false).
    + reflexivity.
    + reflexivity.
    + cbn. lia.
    + vm_compute. reflexivity.
  - apply (load_use_hazard_stalls rv32i (IFID.mk 5578787 4)
             (IDEX.mk 0 0 0 0 5 10 0 0 2 0 true 2 1 false 0 0 false)
             EXMEM.default false).
    + reflexivity.
    + reflexivity.
    + cbn. lia.
    + vm_compute. reflexivity.
Defined.

(** C3, counterexample. The word 0x00728330 has the fields of
    [add x6, x5, x7] (opcode field OP, rs1 field 5) but low two bits [00].
    With [lw x5, 0(x10)] in ID/EX it reads x5 in the design's sense, and
    yet [process] asserts nothing: the load-use rule is applied only under
    the guard [(inst & 0x3) == 0x3]. *)
Lemma load_use_hazard_needs_encoding :
  let ifid := IFID.mk 7504688 4 in
  let idex := IDEX.mk 0 0 0 0 5 10 0 0 2 0 true 2 1 false 0 0 false in
  IDEX.mem idex = 1 /\ IDEX.rd idex <> 0 /\
  HazardRules.reads_register rv32i (IFID.inst ifid) (IDEX.rd idex) = true /\
  Z.land (IFID.inst ifid) 3 <> 3 /\
  HazardUnit.process rv32i ifid idex EXMEM.default false
    = HazardUnit.mk false false false false false false false false.
Proof.
  cbv zeta. repeat split; try (vm_compute; reflexivity).
  - cbn. lia.
  - vm_compute. discriminate.
Qed.

Lemma raw_exmem_hazard_when_idex_idle_witness :
  let ifid := IFID.mk 197555 8 in
  let exmem := EXMEM.mk 4 1 0 6 true 0 0 0 false 0 0 false 0 in
  let o := HazardUnit.process rv32i ifid IDEX.default exmem false in
  HazardUnit.stall_pc_o o = true /\ HazardUnit.stall_ifid_o o = true
  /\ HazardUnit.flush_idex_o o = true.
Proof.
  apply (raw_exmem_hazard_when_idex_idle rv32i (IFID.mk 197555 8) IDEX.default
           (EXMEM.mk 4 1 0 6 true 0 0 0 false 0 0 false 0) false).
  - cbn. lia.
  - reflexivity.
  - reflexivity.
  - cbn. lia.
  - vm_compute. reflexivity.
Defined.

(** C2. The EX/MEM check is skipped when ID/EX writes some other register.
    With [add x7, x6, x0] (0x000303B3) in IF/ID, an instruction writing x5
    in ID/EX and an instruction writing x6 in EX/MEM, the IF/ID instruction
    reads x6 as rs1, EX/MEM has [we] set and [rd = 6], and yet no output of
    the hazard unit is asserted.  The same happens when ID/EX holds a LOAD
    to x5. *)
Theorem raw_exmem_hazard_missed :
  let ifid := IFID.mk 197555 8 in
  let exmem := EXMEM.mk 4 1 0 6 true 0 0 0 false 0 0 false 0 in
  let idex_alu := IDEX.mk 4 0 0 1 5 0 1 4 0 0 true 0 0 false 0 0 false in
  let idex_load := IDEX.mk 4 0 0 0 5 0 0 0 2 0 true 2 1 false 0 0 false in
  HazardUnit.reads rv32i (IFID.inst ifid) (EXMEM.rd exmem) = true /\
  EXMEM.we exmem = true /\ EXMEM.rd exmem <> 0 /\
  HazardUnit.process rv32i ifid idex_alu exmem false
    = HazardUnit.mk false false false false false false false false /\
  HazardUnit.process rv32i ifid idex_load exmem false
    = HazardUnit.mk false false false false false false false false.
Proof.
  cbn zeta. repeat split; try (vm_compute; reflexivity).
  cbn. lia.
Qed.

(** The consequence in the core, on [raw_program]: [add x7, x6, x0] is
    decoded while [addi x6, x0, 1] is still in the memory stage, is not
    stalled, and adds the stale x6; x7 ends as 0 although x6 is 1. *)
Example stale_source_read_in_core :
  let at_cycle {A} n (f : Pipelined.t -> A) :=
    f <$> Pipelined.run rv32i n
            (PipelinedModel.load_instructions raw_program Pipelined.init) in
  at_cycle 4%nat (fun c => IFID.inst (Pipelined.ifid_reg c)) = Some 197555 /\
  at_cycle 4%nat (fun c => EXMEM.rd (Pipelined.exmem_reg c)) = Some 6 /\
  at_cycle 4%nat (fun c => HazardUnit.stall_pc_o (Pipelined.hazard rv32i c))
    = Some false /\
  at_cycle 12%nat (fun c => PipelinedModel.readReg c 6) = Some 1 /\
  at_cycle 12%nat (fun c => PipelinedModel.readReg c 7) = Some 0.
Proof. cbv zeta. repeat split; vm_compute; reflexivity. Qed.

(** ** Pipeline registers *)

(** C4. For each of the four pipeline registers, with current value [c],
    input [i] and the register's hold-by-default clock edge: a flush gives
    the bubble of its type at the next cycle, whatever [stall] is (IF/ID:
    [inst = 0x00000013], [pc = -4]; the others the all-zero record); a stall
    without flush keeps [c]; with neither, the next value is [i]. *)
Theorem pipeline_regs_flush_stall_latch :
  (forall (c i : IFID.t) (stall : bool),
      Reg_tick c (IFIDReg.process i stall true) = IFID.mk 19 (-4) /\
      Reg_tick c (IFIDReg.process i true false) = c /\
      Reg_tick c (IFIDReg.process i false false) = i) /\
  (forall (c i : IDEX.t) (stall : bool),
      Reg_tick c (IDEXReg.process i stall true)
        = IDEX.mk 0 0 0 0 0 0 0 0 0 0 false 0 0 false 0 0 false /\
      Reg_tick c (IDEXReg.process i true false) = c /\
      Reg_tick c (IDEXReg.process i false false) = i) /\
  (forall (c i : EXMEM.t) (stall : bool),
      Reg_tick c (EXMEMReg.process i stall true)
        = EXMEM.mk 0 0 0 0 false 0 0 0 false 0 0 false 0 /\
      Reg_tick c (EXMEMReg.process i true false) = c /\
      Reg_tick c (EXMEMReg.process i false false) = i) /\
  (forall (c i : MEMWB.t) (stall : bool),
      Reg_tick c (MEMWBReg.process i stall true)
        = MEMWB.mk 0 0 0 0 false 0 0 0 false 0 /\
      Reg_tick c (MEMWBReg.process i true false) = c /\
      Reg_tick c (MEMWBReg.process i false false) = i).
Proof.
  repeat split; destruct stall; reflexivity.
Qed.

(** ** Bit fields *)

Lemma testbit_get_bits (v msb lsb i : Z) :
  0 <= lsb <= msb ->
  Z.testbit (get_bits v msb lsb) i
  = (0 <=? i) && (i <? msb - lsb + 1) && Z.testbit v (i + lsb).
Proof.
  intros Hb. unfold get_bits.
  replace (Z.shiftl 1 (msb - lsb + 1) - 1) with (Z.ones (msb - lsb + 1))
    by (rewrite Z.ones_equiv, Z.shiftl_1_l; lia).
  destruct (Z.leb_spec 0 i) as [Hi | Hi].
  - rewrite Z.land_spec, Z.shiftr_spec, Z.testbit_ones by lia.
    destruct (Z.leb_spec 0 i); [| lia].
    cbn [andb]. apply andb_comm.
  - rewrite Z.testbit_neg_r by lia. reflexivity.
Qed.

Lemma testbit_get_bit (v n i : Z) :
  0 <= n ->
  Z.testbit (get_bit v n) i = (i =? 0) && Z.testbit v n.
Proof.
  intros Hn. unfold get_bit.
  destruct (Z.leb_spec 0 i) as [Hi | Hi].
  - rewrite Z.land_spec, Z.shiftr_spec by lia.
    change 1 with (Z.ones 1). rewrite Z.testbit_ones_nonneg by lia.
    destruct (Z.eqb_spec i 0) as [-> | Hne].
    + cbn. apply andb_true_r.
    + destruct (Z.ltb_spec i 1); [lia |]. apply andb_false_r.
  - rewrite Z.testbit_neg_r by lia.
    destruct (Z.eqb_spec i 0); [lia | reflexivity].
Qed.

Lemma get_bit_b2z (v n : Z) : 0 <= n -> get_bit v n = Z.b2z (Z.testbit v n).
Proof.
  intros Hn. apply Z.bits_inj'. intros i Hi.
  rewrite testbit_get_bit by assumption.
  destruct (Z.eqb_spec i 0) as [-> | Hne].
  - rewrite Z.b2z_bit0. reflexivity.
  - destruct (Z.testbit v n); cbn [Z.b2z andb].
    + symmetry. change 1 with (Z.ones 1).
      rewrite Z.testbit_ones_nonneg by lia.
      destruct (Z.ltb_spec i 1); [lia | reflexivity].
    + symmetry. apply Z.testbit_0_l.
Qed.

Lemma get_bits_nonneg (v msb lsb : Z) : 0 <= lsb <= msb -> 0 <= get_bits v msb lsb.
Proof.
  intros Hb. unfold get_bits. apply Z.land_nonneg. right.
  rewrite Z.shiftl_1_l.
  assert (0 < 2 ^ (msb - lsb + 1)) by (apply Z.pow_pos_nonneg; lia). lia.
Qed.

Lemma get_bit_nonneg (v n : Z) : 0 <= get_bit v n.
Proof. unfold get_bit. apply Z.land_nonneg. right. lia. Qed.

(** The sign-extension masks as shifted runs of ones. *)
Lemma testbit_ones_shifted (w s i : Z) :
  0 <= w -> 0 <= i ->
  Z.testbit (Z.shiftl (Z.ones w) s) i = (s <=? i) && (i <? s + w).
Proof.
  intros Hw Hi. rewrite Z.shiftl_spec, Z.testbit_ones by lia.
  destruct (Z.leb_spec 0 (i - s)), (Z.leb_spec s i); try lia;
    destruct (Z.ltb_spec (i - s) w), (Z.ltb_spec i (s + w)); try lia;
    reflexivity.
Qed.

(** Splits every comparison on the bit index, then closes the goal either
    by contradiction on the index or by matching the two bit positions. *)
Ltac split_index :=
  repeat match goal with
         | |- context [?a <? ?b] => destruct (Z.ltb_spec a b); try lia
         | |- context [?a <=? ?b] => destruct (Z.leb_spec a b); try lia
         | |- context [?a =? ?b] => destruct (Z.eqb_spec a b); try lia
         end.

Ltac same_bit :=
  cbn [andb orb negb];
  rewrite ?andb_true_r, ?andb_false_r, ?orb_false_r, ?orb_true_r;
  try reflexivity;
  try (f_equal; lia).

Ltac field_bits :=
  rewrite ?Z.lor_spec;
  rewrite ?Z.shiftl_spec by lia;
  rewrite ?testbit_get_bits by lia;
  rewrite ?testbit_get_bit by lia.

Section DecodeImm.
Context (isa : isa_tables).
Import Disassembler.

Lemma sign_mask_20 : Z.shiftl 1048575 12 = Z.shiftl (Z.ones 20) 12.
Proof. reflexivity. Qed.
Lemma sign_mask_19 : Z.shiftl 524287 13 = Z.shiftl (Z.ones 19) 13.
Proof. reflexivity. Qed.
Lemma sign_mask_11 : Z.shiftl 2047 21 = Z.shiftl (Z.ones 11) 21.
Proof. reflexivity. Qed.

(** The sign-extension word chosen by [if sign:]. *)
Lemma testbit_sign_ext (inst w s i : Z) :
  0 <= w -> 0 <= i ->
  Z.testbit (if get_bit inst 31 =? 0 then 0 else Z.shiftl (Z.ones w) s) i
  = Z.testbit inst 31 && (s <=? i) && (i <? s + w).
Proof.
  intros Hw Hi. rewrite get_bit_b2z by lia.
  destruct (Z.testbit inst 31); cbn [Z.b2z Z.eqb andb].
  - apply testbit_ones_shifted; assumption.
  - apply Z.testbit_0_l.
Qed.

Lemma imm_I_bits (inst i : Z) :
  0 <= i < 32 ->
  Z.testbit (Z.lor (if get_bit inst 31 =? 0 then 0 else Z.shiftl 1048575 12)
               (get_bits inst 31 20)) i = imm_I_bit inst i.
Proof.
  intros Hi. rewrite sign_mask_20, Z.lor_spec, testbit_sign_ext by lia.
  field_bits. unfold imm_I_bit.
  destruct (Z.testbit inst 31) eqn:S31; split_index; same_bit.
Qed.

Lemma imm_S_bits (inst i : Z) :
  0 <= i < 32 ->
  Z.testbit (Z.lor (if get_bit inst 31 =? 0 then 0 else Z.shiftl 1048575 12)
               (Z.lor (Z.shiftl (get_bits inst 31 25) 5) (get_bits inst 11 7))) i
  = imm_S_bit inst i.
Proof.
  intros Hi. rewrite sign_mask_20, Z.lor_spec, testbit_sign_ext by lia.
  field_bits. unfold imm_S_bit.
  destruct (Z.testbit inst 31) eqn:S31; split_index; same_bit.
Qed.

Lemma imm_B_bits (inst i : Z) :
  0 <= i < 32 ->
  Z.testbit
    (Z.lor (if get_bit inst 31 =? 0 then 0 else Z.shiftl 524287 13)
       (Z.lor (Z.lor (Z.lor (Z.shiftl (get_bit inst 31) 12)
                        (Z.shiftl (get_bits inst 7 7) 11))
                 (Z.shiftl (get_bits inst 30 25) 5))
          (Z.shiftl (get_bits inst 11 8) 1))) i
  = imm_B_bit inst i.
Proof.
  intros Hi. rewrite sign_mask_19, Z.lor_spec, testbit_sign_ext by lia.
  field_bits. unfold imm_B_bit.
  destruct (Z.testbit inst 31) eqn:S31; split_index; same_bit.
Qed.

Lemma imm_U_bits (inst i : Z) :
  0 <= i < 32 ->
  Z.testbit (Z.lor 0 (Z.shiftl (get_bits inst 31 12) 12)) i = imm_U_bit inst i.
Proof.
  intros Hi. rewrite Z.lor_0_l. field_bits. unfold imm_U_bit.
  split_index; same_bit.
Qed.

Lemma imm_J_bits (inst i : Z) :
  0 <= i < 32 ->
  Z.testbit
    (Z.lor (if get_bit inst 31 =? 0 then 0 else Z.shiftl 2047 21)
       (Z.lor (Z.lor (Z.lor (Z.shiftl (get_bit inst 31) 20)
                        (Z.shiftl (get_bits inst 19 12) 12))
                 (Z.shiftl (get_bits inst 20 20) 11))
          (Z.shiftl (get_bits inst 30 21) 1))) i
  = imm_J_bit inst i.
Proof.
  intros Hi. rewrite sign_mask_11, Z.lor_spec, testbit_sign_ext by lia.
  field_bits. unfold imm_J_bit.
  destruct (Z.testbit inst 31) eqn:S31; split_index; same_bit.
Qed.

(** Every immediate is a 32-bit word: no bit at or above position 32. *)
Lemma decode_imm_high_bits (opcode inst i : Z) :
  32 <= i -> Z.testbit (decode_imm isa opcode inst) i = false.
Proof.
  intros Hi. unfold decode_imm.
  repeat match goal with
         | |- context [if py_in ?x ?l then _ else _] => destruct (py_in x l)
         end;
    rewrite ?sign_mask_20, ?sign_mask_19, ?sign_mask_11;
    rewrite ?Z.lor_spec; rewrite ?testbit_sign_ext by lia;
    field_bits; rewrite ?Z.testbit_0_l;
    split_index; same_bit.
Qed.

Lemma decode_imm_nonneg (opcode inst : Z) : 0 <= decode_imm isa opcode inst.
Proof.
  unfold decode_imm.
  assert (Hs : forall m, 0 <= m -> 0 <= (if get_bit inst 31 =? 0 then 0 else m))
    by (intros m Hm; destruct (get_bit inst 31 =? 0); lia).
  pose proof (get_bit_nonneg inst 31).
  repeat match goal with
         | |- context [if py_in ?x ?l then _ else _] => destruct (py_in x l)
         end;
    repeat first
      [ apply Z.lor_nonneg; split
      | apply Z.shiftl_nonneg
      | apply get_bits_nonneg; lia
      | apply Hs; vm_compute; discriminate
      | assumption
      | lia ].
Qed.

Lemma class_tests (opcode : Z) :
  classes_disjoint isa ->
  (In opcode (INST_I isa) -> py_in opcode (INST_I isa) = true) /\
  (In opcode (INST_S isa) ->
     py_in opcode (INST_I isa) = false /\ py_in opcode (INST_S isa) = true) /\
  (In opcode (INST_B isa) ->
     py_in opcode (INST_I isa) = false /\ py_in opcode (INST_S isa) = false /\
     py_in opcode (INST_B isa) = true) /\
  (In opcode (INST_U isa) ->
     py_in opcode (INST_I isa) = false /\ py_in opcode (INST_S isa) = false /\
     py_in opcode (INST_B isa) = false /\ py_in opcode (INST_U isa) = true) /\
  (In opcode (INST_J isa) ->
     py_in opcode (INST_I isa) = false /\ py_in opcode (INST_S isa) = false /\
     py_in opcode (INST_B isa) = false /\ py_in opcode (INST_U isa) = false /\
     py_in opcode (INST_J isa) = true).
Proof.
  unfold classes_disjoint. intros Hd.
  apply NoDup_app in Hd. destruct Hd as (_ & HI & Hd).
  apply NoDup_app in Hd. destruct Hd as (_ & HS & Hd).
  apply NoDup_app in Hd. destruct Hd as (_ & HB & Hd).
  apply NoDup_app in Hd. destruct Hd as (_ & HU & _).
  assert (no : forall l, ~ In opcode l -> py_in opcode l = false).
  { intros l Hl. destruct (py_in opcode l) eqn:E; [| reflexivity].
    apply py_in_true in E. contradiction. }
  assert (yes : forall l, In opcode l -> py_in opcode l = true)
    by (intros l; apply py_in_true).
  assert (excl : forall l k : list Z,
             (forall x, x ∈ l -> x ∉ k) -> In opcode k -> ~ In opcode l).
  { intros l k H Hk Hl. apply (H opcode).
    - apply list_elem_of_In; assumption.
    - apply list_elem_of_In; assumption. }
  split; [| split; [| split; [| split]]]; intros Hin; repeat split;
    try (apply yes; assumption);
    apply no;
    match goal with
    | |- ~ In _ (INST_I isa) => apply (excl _ _ HI)
    | |- ~ In _ (INST_S isa) => apply (excl _ _ HS)
    | |- ~ In _ (INST_B isa) => apply (excl _ _ HB)
    | |- ~ In _ (INST_U isa) => apply (excl _ _ HU)
    end;
    repeat first [assumption | apply in_or_app; first [left; assumption | right]].
Qed.

(** C6. For every instruction word and every opcode, the decoded
    immediate is a 32-bit word, and its bits follow the layout of the
    opcode's class: I [inst[31:20]] and S [{inst[31:25], inst[11:7]}] with
    [inst[31]] in the upper 20 bits; B [{inst[31], inst[7], inst[30:25],
    inst[11:8], 0}] with [inst[31]] in the upper 19 bits; U [{inst[31:12],
    12'b0}] with no sign extension; J [{inst[31], inst[19:12], inst[20],
    inst[30:21], 0}] with [inst[31]] in the upper 11 bits. *)
Theorem decode_imm_layout (opcode inst : Z) :
  classes_disjoint isa ->
  0 <= decode_imm isa opcode inst < 2 ^ 32 /\
  (In opcode (INST_I isa) -> forall i, 0 <= i < 32 ->
     Z.testbit (decode_imm isa opcode inst) i = imm_I_bit inst i) /\
  (In opcode (INST_S isa) -> forall i, 0 <= i < 32 ->
     Z.testbit (decode_imm isa opcode inst) i = imm_S_bit inst i) /\
  (In opcode (INST_B isa) -> forall i, 0 <= i < 32 ->
     Z.testbit (decode_imm isa opcode inst) i = imm_B_bit inst i) /\
  (In opcode (INST_U isa) -> forall i, 0 <= i < 32 ->
     Z.testbit (decode_imm isa opcode inst) i = imm_U_bit inst i) /\
  (In opcode (INST_J isa) -> forall i, 0 <= i < 32 ->
     Z.testbit (decode_imm isa opcode inst) i = imm_J_bit inst i).
Proof.
  intros Hd.
  destruct (class_tests opcode Hd) as (cI & cS & cB & cU & cJ).
  split; [| repeat split].
  - apply Z.bounded_iff_bits_nonneg'; [lia | apply decode_imm_nonneg |].
    intros l Hl. apply decode_imm_high_bits. assumption.
  - intros Hin i Hi. unfold decode_imm. rewrite (cI Hin).
    apply imm_I_bits; assumption.
  - intros Hin i Hi. unfold decode_imm.
    destruct (cS Hin) as (-> & ->). apply imm_S_bits; assumption.
  - intros Hin i Hi. unfold decode_imm.
    destruct (cB Hin) as (-> & -> & ->). apply imm_B_bits; assumption.
  - intros Hin i Hi. unfold decode_imm.
    destruct (cU Hin) as (-> & -> & -> & ->). apply imm_U_bits; assumption.
  - intros Hin i Hi. unfold decode_imm.
    destruct (cJ Hin) as (-> & -> & -> & -> & ->). apply imm_J_bits; assumption.
Qed.

End DecodeImm.

(** Witness for C6: the RV32I class lists, [beq x0, x0, -4] (0xFE000EE3). *)
Lemma decode_imm_layout_witness :
  0 <= Disassembler.decode_imm rv32i 24 4261416675 < 2 ^ 32 /\
  (In 24 (INST_I rv32i) -> forall i, 0 <= i < 32 ->
     Z.testbit (Disassembler.decode_imm rv32i 24 4261416675) i
     = Disassembler.imm_I_bit 4261416675 i) /\
  (In 24 (INST_S rv32i) -> forall i, 0 <= i < 32 ->
     Z.testbit (Disassembler.decode_imm rv32i 24 4261416675) i
     = Disassembler.imm_S_bit 4261416675 i) /\
  (In 24 (INST_B rv32i) -> forall i, 0 <= i < 32 ->
     Z.testbit (Disassembler.decode_imm rv32i 24 4261416675) i
     = Disassembler.imm_B_bit 4261416675 i) /\
  (In 24 (INST_U rv32i) -> forall i, 0 <= i < 32 ->
     Z.testbit (Disassembler.decode_imm rv32i 24 4261416675) i
     = Disassembler.imm_U_bit 4261416675 i) /\
  (In 24 (INST_J rv32i) -> forall i, 0 <= i < 32 ->
     Z.testbit (Disassembler.decode_imm rv32i 24 4261416675) i
     = Disassembler.imm_J_bit 4261416675 i).
Proof.
  apply (decode_imm_layout rv32i 24 4261416675).
  unfold Disassembler.classes_disjoint.
  refine (bool_decide_unpack _ _). vm_compute. exact I.
Defined.

(** Sample immediates, one per class. *)
Example decode_imm_samples :
  Disassembler.decode_imm rv32i 4 4293918995 = 4294967295 /\
  Disassembler.decode_imm rv32i 8 4271910435 = 4294967292 /\
  Disassembler.decode_imm rv32i 24 4261416675 = 4294967292 /\
  Disassembler.decode_imm rv32i 13 305418935 = 305418240 /\
  Disassembler.decode_imm rv32i 27 4292866159 = 4294967292.
Proof. repeat split; vm_compute; reflexivity. Qed.

(** ** Disassembler *)

Lemma get_bits_range (v msb lsb : Z) :
  0 <= lsb <= msb -> 0 <= get_bits v msb lsb < 2 ^ (msb - lsb + 1).
Proof.
  intros Hb. unfold get_bits.
  replace (Z.shiftl 1 (msb - lsb + 1) - 1) with (Z.ones (msb - lsb + 1))
    by (rewrite Z.ones_equiv, Z.shiftl_1_l; lia).
  rewrite Z.land_ones by lia. apply Z.mod_pos_bound.
  apply Z.pow_pos_nonneg; lia.
Qed.

Lemma abi_name_defined (r : Z) :
  0 <= r < 32 -> is_Some (Disassembler.REG_ABI_NAMES !! r).
Proof.
  intros Hr.
  assert (Hall : Forall (fun k => is_Some (Disassembler.REG_ABI_NAMES !! k))
                   (seqZ 0 32)).
  { refine (bool_decide_unpack _ _). vm_compute. exact I. }
  rewrite Forall_forall in Hall. apply Hall. apply elem_of_seqZ. lia.
Qed.

Lemma abi_name_undefined (r : Z) :
  r < 0 \/ 31 < r -> Disassembler.REG_ABI_NAMES !! r = None.
Proof.
  intros Hr. unfold Disassembler.REG_ABI_NAMES.
  apply not_elem_of_list_to_map_1. cbn [fmap list_fmap fst].
  intros Hin.
  repeat (apply elem_of_cons in Hin; destruct Hin as [-> | Hin]; [lia |]).
  apply elem_of_nil in Hin. exact Hin.
Qed.

Lemma reg_name_defined (r : Z) :
  0 <= r < 32 -> is_Some (Disassembler.reg_name r).
Proof.
  intros Hr. unfold Disassembler.reg_name.
  destruct (abi_name_defined r Hr) as [abi ->]. cbn. eauto.
Qed.

(** The three register names of a word. *)
Lemma field_names (inst : Z) :
  exists rd rs1 rs2,
    Disassembler.reg_name (get_bits inst 11 7) = Some rd /\
    Disassembler.reg_name (get_bits inst 19 15) = Some rs1 /\
    Disassembler.reg_name (get_bits inst 24 20) = Some rs2.
Proof.
  assert (H : forall m l, 0 <= l <= m -> m - l + 1 = 5 ->
                is_Some (Disassembler.reg_name (get_bits inst m l))).
  { intros m l Hb Hw. apply reg_name_defined.
    pose proof (get_bits_range inst m l Hb) as Hr. rewrite Hw in Hr.
    exact Hr. }
  destruct (H 11 7) as [rd Hrd]; [lia | lia |].
  destruct (H 19 15) as [rs1 Hrs1]; [lia | lia |].
  destruct (H 24 20) as [rs2 Hrs2]; [lia | lia |].
  exists rd, rs1, rs2. auto.
Qed.

Section Disassemble.
Context (isa : isa_tables).
Import Disassembler.

(** Every [return] inside the [try:] block carries a mnemonic of the
    instruction set, never ["UNKNOWN"] or ["INVALID"]. *)
Lemma try_block_mnemonic (inst : Z) (r : string * string) :
  try_block isa inst = Some r ->
  String.eqb (fst r) "UNKNOWN" = false /\ String.eqb (fst r) "INVALID" = false.
Proof.
  unfold try_block.
  repeat match goal with
         | |- context [reg_name ?x] =>
             destruct (reg_name x); cbn [mbind option_bind]
         | |- context [if ?b then _ else _] => destruct b
         end;
    intros E; try discriminate E;
    injection E as <-; split; reflexivity.
Qed.

(** X23. A word with low bits [11] whose opcode field is none of the ten
    opcodes that the disassembler tests, and which is not one of the three
    words tested first, is reported as unknown. *)
Lemma disassemble_unknown_opcode (inst : Z) :
  inst <> 19 -> inst <> 115 -> inst <> 807403635 ->
  Z.land inst 3 = 3 ->
  Forall (fun name => get_bits inst 6 2 <> OPCODES isa name)
    ["OP"; "OP-IMM"; "LOAD"; "STORE"; "BRANCH"; "JAL"; "JALR"; "LUI";
     "AUIPC"; "SYSTEM"] ->
  disassemble isa inst = ("UNKNOWN", unknown_msg inst).
Proof.
  intros H1 H2 H3 Hlow Hop.
  unfold disassemble.
  apply Z.eqb_neq in H1, H2, H3. rewrite H1, H2, H3.
  apply Z.eqb_eq in Hlow. rewrite Hlow. cbn [negb].
  unfold try_block.
  repeat match goal with
         | H : Forall _ (_ :: _) |- _ =>
             apply Forall_cons in H; destruct H as [?%Z.eqb_neq H]
         end.
  repeat match goal with
         | E : (_ =? _) = false |- _ => rewrite E; clear E
         end.
  reflexivity.
Qed.

(** Ten different opcodes: two different names have different codes. *)
Lemma opcodes_distinct_eqb (a b : string) :
  InstructionTable.opcodes_distinct isa ->
  In a ["OP"; "OP-IMM"; "LOAD"; "STORE"; "BRANCH"; "JAL"; "JALR"; "LUI";
        "AUIPC"; "SYSTEM"] ->
  In b ["OP"; "OP-IMM"; "LOAD"; "STORE"; "BRANCH"; "JAL"; "JALR"; "LUI";
        "AUIPC"; "SYSTEM"] ->
  a <> b ->
  (OPCODES isa a =? OPCODES isa b) = false.
Proof.
  unfold InstructionTable.opcodes_distinct. intros Hd Ha Hb Hne.
  apply Z.eqb_neq. intros E. apply Hne.
  apply list_elem_of_In, list_elem_of_lookup in Ha, Hb.
  destruct Ha as [i Hi], Hb as [j Hj].
  assert (Hi' := f_equal (fmap (OPCODES isa)) Hi).
  assert (Hj' := f_equal (fmap (OPCODES isa)) Hj).
  rewrite <- list_lookup_fmap in Hi', Hj'.
  cbn [fmap option_fmap option_map] in Hi', Hj'.
  rewrite <- E in Hj'.
  pose proof (NoDup_lookup _ _ _ _ Hd Hi' Hj') as <-.
  congruence.
Qed.

Ltac in_names := cbn [In]; repeat first [left; reflexivity | right].

(** Rewrites the outcome of every field test of the path into [H]. *)
Ltac use_tests H :=
  repeat match goal with
         | T : (_ =? _) = _ |- _ => rewrite ?T in H; clear T
         end.

Ltac simpl_bool H :=
  repeat (progress (rewrite ?orb_true_r, ?andb_true_r, ?orb_false_r,
                      ?andb_false_r in H;
                    cbn [andb orb] in H)).

(** A word that matches no row of the table reaches no [return] of the
    [try:] block. *)
Lemma rows_false_try_block (inst : Z) :
  existsb (InstructionTable.matches isa inst) (InstructionTable.rows isa)
  = false ->
  try_block isa inst = None.
Proof.
  intros H.
  destruct (field_names inst) as (rd & rs1 & rs2 & Hrd & Hrs1 & Hrs2).
  destruct (try_block isa inst) as [r |] eqn:E; [exfalso | reflexivity].
  unfold try_block in E. rewrite Hrd, Hrs1, Hrs2 in E.
  cbn [mbind option_bind] in E. clear Hrd Hrs1 Hrs2.
  cbn [existsb InstructionTable.rows InstructionTable.matches
         InstructionTable.admits py_in] in H.
  revert H E.
  generalize (get_bits inst 6 2) (get_bits inst 14 12) (get_bits inst 31 25).
  intros op f3 f7 H E.
  repeat match type of E with
         | context [if ?b then _ else _] => destruct b eqn:?
         end;
    try discriminate E;
    clear E; use_tests H; simpl_bool H; discriminate H.
Qed.

(** With ten different opcodes, a word that matches a row of the table
    reaches a [return] of the [try:] block: all eight values of the
    three-bit [funct3] are decoded for OP with [funct7 = 0]. *)
Lemma rows_true_try_block (inst : Z) :
  InstructionTable.opcodes_distinct isa ->
  existsb (InstructionTable.matches isa inst) (InstructionTable.rows isa)
  = true ->
  is_Some (try_block isa inst).
Proof.
  intros Hd H.
  destruct (field_names inst) as (rd & rs1 & rs2 & Hrd & Hrs1 & Hrs2).
  pose proof (get_bits_range inst 14 12 ltac:(lia)) as Hf3.
  change (2 ^ (14 - 12 + 1)) with 8 in Hf3.
  destruct (try_block isa inst) as [r |] eqn:E; [eauto | exfalso].
  unfold try_block in E. rewrite Hrd, Hrs1, Hrs2 in E.
  cbn [mbind option_bind] in E. clear Hrd Hrs1 Hrs2.
  cbn [existsb InstructionTable.rows InstructionTable.matches
         InstructionTable.admits py_in] in H.
  revert Hf3 H E.
  generalize (get_bits inst 6 2) (get_bits inst 14 12) (get_bits inst 31 25).
  intros op f3 f7 Hf3 H E.
  repeat match type of E with
         | context [if ?b then _ else _] => destruct b eqn:?
         end;
    try discriminate E; clear E;
    first
      [ solve [ repeat match goal with
                       | T : (_ =? _) = false |- _ => apply Z.eqb_neq in T
                       end; lia ]
      | try match goal with
            | T : (op =? _) = true |- _ => apply Z.eqb_eq in T; subst op
            end;
        repeat match type of H with
               | context [OPCODES isa ?a =? OPCODES isa ?b] =>
                   first
                     [ constr_eq a b; rewrite (Z.eqb_refl (OPCODES isa a)) in H
                     | rewrite (opcodes_distinct_eqb a b Hd ltac:(in_names)
                                  ltac:(in_names) ltac:(discriminate)) in H ]
               end;
        use_tests H; simpl_bool H; discriminate H ].
Qed.

(** C7 (as the code has it). Which words are unrecognized is read off the
    bits of the word: a word encodes a recognized instruction when it is
    the NOP, ECALL or MRET word, or has low two bits [11] and matches a row
    of the instruction table on its opcode, [funct3] and [funct7] fields.
    Every word that does not is reported as [("UNKNOWN", "unknown
    instruction (0x…)")] when its low two bits are [11], and as
    [("INVALID", "invalid instruction (0x…)")] otherwise, the word being
    rendered as eight lower-case hexadecimal digits.  The table is exact:
    with ten different opcodes, every word that does encode a recognized
    instruction gets a mnemonic. *)
Theorem disassemble_unrecognized (inst : Z) :
  (InstructionTable.encodes_instruction isa inst = false ->
   disassemble isa inst
   = if Z.land inst 3 =? 3
     then ("UNKNOWN", "unknown instruction (0x" +:+ py_format_x 8 inst +:+ ")")
     else ("INVALID", "invalid instruction (0x" +:+ py_format_x 8 inst +:+ ")"))
  /\
  (InstructionTable.opcodes_distinct isa ->
   InstructionTable.encodes_instruction isa inst = true ->
   recognized isa inst = true).
Proof.
  unfold InstructionTable.encodes_instruction. cbn [py_in existsb].
  split.
  - intros H. apply orb_false_elim in H. destruct H as [Hw Hrows].
    apply orb_false_elim in Hw. destruct Hw as [H19 Hw].
    apply orb_false_elim in Hw. destruct Hw as [H115 Hw].
    apply orb_false_elim in Hw. destruct Hw as [Hmret _].
    unfold disassemble. rewrite H19, H115, Hmret.
    destruct (Z.land inst 3 =? 3); cbn [negb andb] in *; [| reflexivity].
    rewrite (rows_false_try_block inst Hrows). reflexivity.
  - intros Hd H. unfold recognized, disassemble.
    destruct (inst =? 19); [reflexivity |].
    destruct (inst =? 115); [reflexivity |].
    destruct (inst =? 807403635); [reflexivity |].
    cbn [orb] in H. apply andb_true_iff in H. destruct H as [Hlow Hrows].
    rewrite Hlow. cbn [negb].
    destruct (rows_true_try_block inst Hd Hrows) as [r Hr]. rewrite Hr.
    destruct (try_block_mnemonic inst r Hr) as [-> ->]. reflexivity.
Qed.

End Disassemble.

Lemma disassemble_unknown_opcode_witness :
  Disassembler.disassemble rv32i 15
  = ("UNKNOWN", "unknown instruction (0x0000000f)").
Proof.
  refine (eq_trans (disassemble_unknown_opcode rv32i 15 _ _ _ _ _) _).
  - lia.
  - lia.
  - lia.
  - reflexivity.
  - repeat (apply Forall_cons; split); try (vm_compute; congruence).
    apply Forall_nil. exact I.
  - vm_compute. reflexivity.
Defined.

(** Witness for the amended C7: the all-ones word matches no row and is
    unknown; with the RV32I opcodes, [sub x6, x1, x2] matches the second
    row and has a mnemonic. *)
Lemma disassemble_unrecognized_witness :
  Disassembler.disassemble rv32i 4294967295
  = ("UNKNOWN", "unknown instruction (0xffffffff)") /\
  Disassembler.recognized rv32i 1075872563 = true.
Proof.
  split.
  - refine (eq_trans (proj1 (disassemble_unrecognized rv32i 4294967295) _) _).
    + vm_compute. reflexivity.
    + vm_compute. reflexivity.
  - apply (proj2 (disassemble_unrecognized rv32i 1075872563)).
    + unfold InstructionTable.opcodes_distinct.
      refine (bool_decide_unpack _ _). vm_compute. exact I.
    + vm_compute. reflexivity.
Defined.

(** C7, counterexample. The word 0 encodes no recognized instruction (it
    is none of the three literal words and its low two bits are [00]), and
    [disassemble] answers ["INVALID"], not ["UNKNOWN"]: the claim fails for
    words whose low two bits are not [11]. *)
Lemma disassemble_zero_is_invalid :
  InstructionTable.encodes_instruction rv32i 0 = false /\
  Disassembler.recognized rv32i 0 = false /\
  Disassembler.disassemble rv32i 0
    = ("INVALID", "invalid instruction (0x00000000)") /\
  Disassembler.disassemble rv32i 0
    <> ("UNKNOWN", "unknown instruction (0x00000000)").
Proof.
  repeat split; try (vm_compute; reflexivity).
  vm_compute. discriminate.
Qed.

(** ** Python list indexing *)

Lemma py_getitem_in_range {A : Type} (l : list A) (k : Z) :
  0 <= k < Z.of_nat (length l) -> py_getitem l k = l !! Z.to_nat k.
Proof.
  intros Hk. unfold py_getitem.
  destruct (Z.leb_spec 0 k); [| lia].
  destruct (Z.ltb_spec k (Z.of_nat (length l))); [| lia].
  reflexivity.
Qed.

(** The comprehension [[mem[addr + i] for i in range(0, nbytes)]] on an
    in-bounds range is the slice [mem[addr : addr + nbytes]]. *)
Lemma comprehension_in_bounds (mem : list Z) (addr nbytes : Z) :
  0 <= addr -> 0 <= nbytes -> addr + nbytes <= Z.of_nat (length mem) ->
  mapM (fun i => py_getitem mem (addr + i)) (seqZ 0 nbytes)
  = Some (take (Z.to_nat nbytes) (drop (Z.to_nat addr) mem)).
Proof.
  intros Ha Hn Hb. apply mapM_Some.
  apply Forall2_same_length_lookup_2.
  - rewrite length_seqZ, length_take, length_drop. lia.
  - intros i x y Hx Hy.
    apply lookup_seqZ in Hx. destruct Hx as [-> Hi].
    rewrite lookup_take in Hy.
    destruct (decide (i < Z.to_nat nbytes)%nat); [| discriminate].
    rewrite lookup_drop in Hy.
    rewrite py_getitem_in_range by lia.
    replace (Z.to_nat (addr + (0 + Z.of_nat i))) with (Z.to_nat addr + i)%nat
      by lia.
    exact Hy.
Qed.

(** ** The model wrapper *)

Section Model.
Import PipelinedModel.

(** C8 (as the code has it). [load_binary] fails synchronously, with the
    [FileNotFoundError] of [open], when the named file does not exist.
    Otherwise it succeeds without any size check and replaces the first
    [len] bytes of memory by the [len] bytes of the file; a file that
    fits leaves the memory size and every byte past the file unchanged. *)
Theorem load_binary_behaviour (fs : gmap string (list Z)) (file : string)
    (core : Pipelined.t) :
  (fs !! file = None -> load_binary fs file core = Raise FileNotFoundError) /\
  (forall ba, fs !! file = Some ba ->
     exists core',
       load_binary fs file core = Return core' /\
       take (length ba) (Pipelined.mem core') = ba /\
       drop (length ba) (Pipelined.mem core')
         = drop (length ba) (Pipelined.mem core) /\
       ((length ba <= length (Pipelined.mem core))%nat ->
          length (Pipelined.mem core') = length (Pipelined.mem core))).
Proof.
  unfold load_binary. split.
  - intros ->. reflexivity.
  - intros ba ->. eexists. split; [reflexivity |].
    cbn. unfold py_set_prefix. repeat split.
    + apply take_app_length.
    + rewrite drop_app_length. reflexivity.
    + intros Hfit. rewrite length_app, length_drop. lia.
Qed.

(** *** Memory write port *)

Lemma write_length (w : nat) : forall (mem : Memory.t) (a v : Z) (mem' : Memory.t),
  Memory.write mem a w v = Some mem' -> length mem' = length mem.
Proof.
  induction w as [| w IH]; intros mem a v mem' H; cbn in H.
  - congruence.
  - destruct ((a <? 0) || (Z.of_nat (length mem) <=? a)); [discriminate |].
    apply IH in H. rewrite length_insert in H. exact H.
Qed.

Lemma write_in_bounds (w : nat) : forall (mem : Memory.t) (a v : Z) (mem' : Memory.t),
  Memory.write mem a (S w) v = Some mem' ->
  0 <= a /\ a + Z.of_nat (S w) <= Z.of_nat (length mem).
Proof.
  induction w as [| w IH]; intros mem a v mem' H; cbn [Memory.write] in H;
    destruct (Z.ltb_spec a 0); cbn [orb] in H; try discriminate;
    destruct (Z.leb_spec (Z.of_nat (length mem)) a); try discriminate.
  - lia.
  - apply IH in H. rewrite length_insert in H. lia.
Qed.

(** A write leaves the bytes below its address alone. *)
Lemma write_below (w : nat) : forall (mem : Memory.t) (a v : Z) (mem' : Memory.t) (j : nat),
  Memory.write mem a w v = Some mem' -> 0 <= a -> (j < Z.to_nat a)%nat ->
  mem' !! j = mem !! j.
Proof.
  induction w as [| w IH]; intros mem a v mem' j H Ha Hj; cbn in H.
  - congruence.
  - destruct ((a <? 0) || (Z.of_nat (length mem) <=? a)); [discriminate |].
    rewrite (IH _ _ _ _ j H) by lia.
    apply list_lookup_insert_ne. lia.
Qed.

(** Byte [k] of a [w]-byte write is byte [k] of the value. *)
Lemma write_byte (w : nat) : forall (mem : Memory.t) (a v : Z) (mem' : Memory.t) (k : nat),
  Memory.write mem a w v = Some mem' -> (k < w)%nat ->
  mem' !! (Z.to_nat a + k)%nat
  = Some (Z.land (Z.shiftr v (8 * Z.of_nat k)) 255).
Proof.
  induction w as [| w IH]; intros mem a v mem' k H Hk; [lia |].
  pose proof (write_in_bounds _ _ _ _ _ H) as [Ha Hlen].
  cbn [Memory.write] in H.
  destruct ((a <? 0) || (Z.of_nat (length mem) <=? a)); [discriminate |].
  destruct k as [| k].
  - rewrite Nat.add_0_r.
    rewrite (write_below _ _ _ _ _ (Z.to_nat a) H) by lia.
    rewrite list_lookup_insert_eq by lia. reflexivity.
  - replace (Z.to_nat a + S k)%nat with (Z.to_nat (a + 1) + k)%nat by lia.
    rewrite (IH _ _ _ _ k H) by lia.
    rewrite Z.shiftr_shiftr by lia.
    do 3 f_equal. lia.
Qed.

Lemma read_written (core : Pipelined.t) (a v : Z) (w : nat) (mem' : Memory.t) :
  Memory.write (Pipelined.mem core) a w v = Some mem' ->
  readDataMem (set_mem core mem') a (Z.of_nat w)
  = Return ((fun k => PyStr (py_hex (Z.land (Z.shiftr v (8 * k)) 255)))
              <$> seqZ 0 (Z.of_nat w)).
Proof.
  intros H. destruct w as [| w]; [reflexivity |].
  pose proof (write_in_bounds _ _ _ _ _ H) as [Ha Hlen].
  pose proof (write_length _ _ _ _ _ H) as Hl.
  unfold readDataMem. cbn [set_mem Pipelined.mem].
  rewrite comprehension_in_bounds by lia.
  f_equal. apply list_eq. intros i. rewrite !list_lookup_fmap.
  rewrite lookup_take, lookup_drop.
  destruct (decide (i < Z.to_nat (Z.of_nat (S w)))%nat) as [Hi | Hi].
  - rewrite (write_byte _ _ _ _ _ i H) by lia.
    assert (Hs : seqZ 0 (Z.of_nat (S w)) !! i = Some (Z.of_nat i))
      by (apply lookup_seqZ; lia).
    rewrite Hs. reflexivity.
  - assert (Hs : seqZ 0 (Z.of_nat (S w)) !! i = None).
    { apply lookup_ge_None. rewrite length_seqZ. lia. }
    rewrite Hs. reflexivity.
Qed.

(** C9 (as the code has it). For an in-bounds address and count,
    [readDataMem] returns the list of the [hex()] strings of the bytes
    [mem[addr]] .. [mem[addr + n - 1]], not the numbers themselves; in
    particular after the word 55 is stored at address 2048,
    [readDataMem(2048, 4)] is [['0x37', '0x0', '0x0', '0x0']]. *)
Theorem readDataMem_hex_strings (core : Pipelined.t) :
  (forall addr nbytes : Z,
      0 <= addr -> 0 <= nbytes ->
      addr + nbytes <= Z.of_nat (length (Pipelined.mem core)) ->
      readDataMem core addr nbytes
      = Return ((fun b => PyStr (py_hex b))
                  <$> take (Z.to_nat nbytes)
                        (drop (Z.to_nat addr) (Pipelined.mem core)))) /\
  (forall mem' : Memory.t,
      Memory.write (Pipelined.mem core) 2048 4 55 = Some mem' ->
      readDataMem (set_mem core mem') 2048 4
      = Return [PyStr "0x37"; PyStr "0x0"; PyStr "0x0"; PyStr "0x0"]).
Proof.
  split.
  - intros addr nbytes Ha Hn Hb. unfold readDataMem.
    rewrite comprehension_in_bounds by assumption. reflexivity.
  - intros mem' H.
    change (readDataMem (set_mem core mem') 2048 4)
      with (readDataMem (set_mem core mem') 2048 (Z.of_nat 4)).
    rewrite (read_written core 2048 55 4 mem' H). reflexivity.
Qed.

(** C10. The two read-out methods give the same answer for every state,
    address and count (errors included), because both index the one
    array [core.mem.mem]; hence a byte stored through the memory's write
    port at [a] is what [readInstMem] reports at [a] afterwards. *)
Theorem readInstMem_shares_data_memory (core : Pipelined.t) :
  (forall addr nbytes : Z,
      readInstMem core addr nbytes = readDataMem core addr nbytes) /\
  (forall (a v : Z) (mem' : Memory.t),
      Memory.write (Pipelined.mem core) a 1 v = Some mem' ->
      readInstMem (set_mem core mem') a 1
      = Return [PyStr (py_hex (Z.land v 255))]).
Proof.
  split.
  - reflexivity.
  - intros a v mem' H.
    change (readInstMem (set_mem core mem') a 1)
      with (readDataMem (set_mem core mem') a (Z.of_nat 1)).
    rewrite (read_written core a v 1 mem' H). reflexivity.
Qed.

End Model.

(** Witness for the amended C8: a missing file, and a four-byte file. *)
Lemma load_binary_behaviour_witness :
  PipelinedModel.load_binary ∅ "prog.bin" Pipelined.init = Raise FileNotFoundError /\
  exists core',
    PipelinedModel.load_binary {[ "prog.bin" := [19; 0; 0; 0] ]} "prog.bin"
      Pipelined.init = Return core' /\
    take 4 (Pipelined.mem core') = [19; 0; 0; 0] /\
    drop 4 (Pipelined.mem core') = drop 4 (Pipelined.mem Pipelined.init) /\
    ((4 <= length (Pipelined.mem Pipelined.init))%nat ->
       length (Pipelined.mem core') = length (Pipelined.mem Pipelined.init)).
Proof.
  split.
  - apply (proj1 (load_binary_behaviour ∅ "prog.bin" Pipelined.init)).
    apply lookup_empty.
  - apply (proj2 (load_binary_behaviour {[ "prog.bin" := [19; 0; 0; 0] ]}
                    "prog.bin" Pipelined.init) [19; 0; 0; 0]).
    apply lookup_singleton_eq.
Defined.

(** C8, counterexample. A file of 8193 bytes is one byte larger than the
    8 KiB memory; [load_binary] raises nothing, the memory list grows to
    8193 entries, and the byte past the memory size is loaded. *)
Lemma load_binary_oversized_file :
  exists core',
    PipelinedModel.load_binary
      {[ "big.bin" := replicate (Z.to_nat 8193) 255 ]} "big.bin" Pipelined.init
    = Return core' /\
    Z.of_nat (length (Pipelined.mem Pipelined.init)) = 8192 /\
    Z.of_nat (length (Pipelined.mem core')) = 8193 /\
    py_getitem (Pipelined.mem core') 8192 = Some 255.
Proof.
  unfold PipelinedModel.load_binary. rewrite lookup_singleton_eq.
  eexists. split; [reflexivity |].
  repeat split; vm_compute; reflexivity.
Qed.

(** Witness for the amended C9: the reset memory, and the word 55 stored
    at 2048. *)
Lemma readDataMem_hex_strings_witness :
  PipelinedModel.readDataMem Pipelined.init 0 2
    = Return [PyStr "0x0"; PyStr "0x0"] /\
  exists mem',
    Memory.write (Pipelined.mem Pipelined.init) 2048 4 55 = Some mem' /\
    PipelinedModel.readDataMem (PipelinedModel.set_mem Pipelined.init mem') 2048 4
    = Return [PyStr "0x37"; PyStr "0x0"; PyStr "0x0"; PyStr "0x0"].
Proof.
  destruct (readDataMem_hex_strings Pipelined.init) as [Hread Hfib].
  split.
  - rewrite (Hread 0 2); [reflexivity | lia | lia |].
    vm_compute. discriminate.
  - destruct (Memory.write (Pipelined.mem Pipelined.init) 2048 4 55)
      as [mem' |] eqn:E.
    + exists mem'. split; [reflexivity |]. apply Hfib. reflexivity.
    + vm_compute in E. discriminate E.
Defined.

(** C9, counterexample. With the word 55 stored at 2048 in the reset
    memory, [readDataMem(2048, 4)] is the list of strings
    [['0x37', '0x0', '0x0', '0x0']], which is not the list of numbers
    [[55, 0, 0, 0]]. *)
Lemma readDataMem_returns_strings_not_numbers :
  exists mem',
    Memory.write (Pipelined.mem Pipelined.init) 2048 4 55 = Some mem' /\
    PipelinedModel.readDataMem (PipelinedModel.set_mem Pipelined.init mem') 2048 4
    = Return [PyStr "0x37"; PyStr "0x0"; PyStr "0x0"; PyStr "0x0"] /\
    PipelinedModel.readDataMem (PipelinedModel.set_mem Pipelined.init mem') 2048 4
    <> Return [PyInt 55; PyInt 0; PyInt 0; PyInt 0].
Proof.
  eexists. split; [vm_compute; reflexivity |].
  split.
  - vm_compute. reflexivity.
  - vm_compute. discriminate.
Qed.

(** Witness for C10: a byte stored at address 8 of the reset memory. *)
Lemma readInstMem_shares_data_memory_witness :
  PipelinedModel.readInstMem Pipelined.init 0 4
    = PipelinedModel.readDataMem Pipelined.init 0 4 /\
  exists mem',
    Memory.write (Pipelined.mem Pipelined.init) 8 1 171 = Some mem' /\
    PipelinedModel.readInstMem (PipelinedModel.set_mem Pipelined.init mem') 8 1
    = Return [PyStr "0xab"].
Proof.
  destruct (readInstMem_shares_data_memory Pipelined.init) as [Hsame Hstore].
  split.
  - apply Hsame.
  - destruct (Memory.write (Pipelined.mem Pipelined.init) 8 1 171)
      as [mem' |] eqn:E.
    + exists mem'. split; [reflexivity |]. apply (Hstore 8 171 mem' E).
    + vm_compute in E. discriminate E.
Defined.

(** ** The pipeline *)

Section Pipeline.
Context (isa : isa_tables).
Import Pipelined.

(** The PC register over one cycle of the core: held under [stall_pc],
    the branch unit's next PC otherwise. *)
Lemma cycle_pc_update (c c' : t) :
  cycle isa c = Some c' ->
  pc_reg c' = (if HazardUnit.stall_pc_o (hazard isa c) then pc_reg c else npc c).
Proof.
  intros H. unfold cycle in H. cbv zeta in H.
  remember (HazardUnit.stall_pc_o (hazard isa c)) as st eqn:Est.
  remember (npc c) as n eqn:En.
  destruct (if st then Some (if_stg c) else IFStage.process (mem c) n);
    [| discriminate H].
  destruct (MEMStage.process (mem c) (exmem_reg c)); [| discriminate H].
  cbn [mbind option_bind] in H. injection H as <-.
  destruct st; reflexivity.
Qed.

(** A stalled cycle delays the instruction stream without dropping any of
    it: the PC and the IF stage hold, and so does IF/ID unless a taken
    branch flushes it. *)
Lemma cycle_holds_fetch_on_stall (c c' : t) :
  cycle isa c = Some c' ->
  HazardUnit.stall_pc_o (hazard isa c) = true ->
  pc_reg c' = pc_reg c /\ if_stg c' = if_stg c /\
  (EXMEM.take_branch (exmem_reg c) = false -> ifid_reg c' = ifid_reg c).
Proof.
  intros H Hst. unfold cycle in H. cbv zeta in H.
  rewrite Hst in H. cbn [mbind option_bind] in H.
  destruct (MEMStage.process (mem c) (exmem_reg c)); [| discriminate H].
  cbn [mbind option_bind] in H. injection H as <-.
  cbn [pc_reg if_stg ifid_reg Connects.connects Connects.pc_next_w negb
         Reg_tick].
  repeat split. intros Htb.
  unfold hazard in Hst |- *. rewrite Htb in Hst |- *.
  unfold HazardUnit.process in Hst |- *.
  destruct (data_hazards_stall_or_not isa (ifid_reg c) (idex_reg c)
              (exmem_reg c)) as [E | E]; rewrite E in Hst |- *.
  - reflexivity.
  - discriminate Hst.
Qed.

(** C5. With [stall] wired to the hazard unit's [stall_pc_o], [connects]
    writes [pc_reg.next] exactly when the stall is deasserted, and then
    writes [npc]; over the clock edge the PC register holds under a stall
    and takes [npc] otherwise; and the two other writes of [connects] (the
    [take_branch] and [alu_res] wires feeding the branch unit) come from
    EX/MEM and are the same whatever the stall is. *)
Theorem pc_holds_on_stall (ifid : IFID.t) (idex : IDEX.t) (exmem : EXMEM.t)
    (take_branch : bool) (pc next_pc : Z) :
  let stall :=
    HazardUnit.stall_pc_o (HazardUnit.process isa ifid idex exmem take_branch) in
  let w := Connects.connects stall next_pc exmem in
  Connects.pc_next_w w = (if stall then None else Some next_pc) /\
  Reg_tick pc (Connects.pc_next_w w) = (if stall then pc else next_pc) /\
  Connects.take_branch_w w = EXMEM.take_branch exmem /\
  Connects.alu_res_w w = EXMEM.alu_res exmem /\
  (forall stall' : bool,
      Connects.take_branch_w (Connects.connects stall' next_pc exmem)
        = Connects.take_branch_w w /\
      Connects.alu_res_w (Connects.connects stall' next_pc exmem)
        = Connects.alu_res_w w).
Proof.
  cbv zeta.
  destruct (HazardUnit.stall_pc_o (HazardUnit.process isa ifid idex exmem take_branch));
    repeat split.
Qed.

(** When the branch in EX/MEM is taken, the next cycle has bubbles in
    IF/ID and ID/EX, but EX/MEM receives the executed ID/EX instruction:
    the instruction that entered the pipeline right behind the branch is
    not squashed. *)
Lemma taken_branch_flush_scope (c c' : t) :
  cycle isa c = Some c' ->
  EXMEM.take_branch (exmem_reg c) = true ->
  ifid_reg c' = IFID.mk 19 (-4) /\
  idex_reg c' = IDEX.default /\
  exmem_reg c' = EXStage.process isa (idex_reg c).
Proof.
  intros H Htb. unfold cycle in H. cbv zeta in H.
  pose proof (process_take_branch isa (ifid_reg c) (idex_reg c) (exmem_reg c))
    as (H1 & H2 & H3).
  unfold hazard in H. rewrite Htb, H1, H2, H3 in H.
  destruct (if HazardUnit.stall_pc_o _ then Some (if_stg c)
            else IFStage.process (mem c) (npc c)); [| discriminate H].
  destruct (MEMStage.process (mem c) (exmem_reg c)); [| discriminate H].
  cbn [mbind option_bind] in H. injection H as <-.
  repeat split.
Qed.

(** The memory stage passes [rd] and [we] on to MEM/WB. *)
Lemma MEMStage_passes_writeback (m : Memory.t) (exmem : EXMEM.t)
    (mw : MEMWB.t * Memory.t) :
  MEMStage.process m exmem = Some mw ->
  MEMWB.rd (fst mw) = EXMEM.rd exmem /\ MEMWB.we (fst mw) = EXMEM.we exmem.
Proof.
  unfold MEMStage.process. intros H.
  destruct (EXMEM.mem exmem =? 1).
  - destruct (Memory.read m _ _); [| discriminate H].
    cbn [mbind option_bind] in H. injection H as <-. split; reflexivity.
  - destruct (EXMEM.mem exmem =? 2).
    + destruct (Memory.write m _ _ _); [| discriminate H].
      cbn [mbind option_bind] in H. injection H as <-. split; reflexivity.
    + injection H as <-. split; reflexivity.
Qed.

(** MEM/WB is never stalled nor flushed: it always latches the memory
    stage's output. *)
Lemma cycle_memwb (c c' : t) :
  cycle isa c = Some c' ->
  exists mw, MEMStage.process (mem c) (exmem_reg c) = Some mw /\
             memwb_reg c' = fst mw.
Proof.
  intros H. unfold cycle in H. cbv zeta in H.
  destruct (if HazardUnit.stall_pc_o _ then Some (if_stg c)
            else IFStage.process (mem c) (npc c)); [| discriminate H].
  destruct (MEMStage.process (mem c) (exmem_reg c)) as [mw |];
    [| discriminate H].
  cbn [mbind option_bind] in H. injection H as <-.
  exists mw. split; reflexivity.
Qed.

(** Hence, in every state: a register-writing instruction that sits in
    ID/EX when the taken branch is seen performs its write-back two cycles
    later. *)
Lemma shadow_slot_writes_back (c c1 c2 : t) :
  cycle isa c = Some c1 ->
  cycle isa c1 = Some c2 ->
  EXMEM.take_branch (exmem_reg c) = true ->
  IDEX.we (idex_reg c) = true ->
  IDEX.rd (idex_reg c) <> 0 ->
  exists v, regfile_write c2 = Some (IDEX.rd (idex_reg c), v).
Proof.
  intros Hc Hc1 Htb Hwe Hrd.
  destruct (taken_branch_flush_scope c c1 Hc Htb) as (_ & _ & Hex).
  destruct (cycle_memwb c1 c2 Hc1) as (mw & Hmw & Hreg).
  destruct (MEMStage_passes_writeback _ _ _ Hmw) as [Hrd' Hwe'].
  rewrite Hex in Hrd', Hwe'. cbn [EXStage.process EXMEM.rd EXMEM.we] in Hrd', Hwe'.
  unfold regfile_write, WBStage.writes. rewrite Hreg, Hwe', Hrd', Hwe.
  apply Z.eqb_neq in Hrd. rewrite Hrd. cbn [negb andb].
  eexists. reflexivity.
Qed.

End Pipeline.

(** A stalled cycle: [lw x5, 0(x10)] in EX and [add x6, x5, x7] in ID hold
    the PC at 8 although the next PC is 12. *)
Example pc_holds_on_load_use :
  let ifid := IFID.mk 7504691 4 in
  let idex := IDEX.mk 0 0 0 0 5 10 0 0 2 0 true 2 1 false 0 0 false in
  let stall :=
    HazardUnit.stall_pc_o
      (HazardUnit.process rv32i ifid idex EXMEM.default false) in
  stall = true /\
  Reg_tick 8 (Connects.pc_next_w (Connects.connects stall 12 EXMEM.default)) = 8.
Proof. split; vm_compute; reflexivity. Qed.

Lemma cycle_pc_update_witness :
  exists c',
    Pipelined.cycle rv32i
      (PipelinedModel.load_instructions branch_program Pipelined.init) = Some c' /\
    Pipelined.pc_reg c' = 0.
Proof.
  destruct (Pipelined.cycle rv32i
              (PipelinedModel.load_instructions branch_program Pipelined.init))
    as [c' |] eqn:E.
  - exists c'. split; [reflexivity |].
    rewrite (cycle_pc_update rv32i _ c' E).
    vm_compute. reflexivity.
  - vm_compute in E. discriminate E.
Defined.

(** C1. On the branch test program ([beq x0, x0, 16] at address 0, always
    taken) the instruction at pc+4, [addi x2, x0, 42], writes the register
    file.  After four cycles the branch is in EX/MEM with [take_branch]
    set, the instruction of address 4 is in ID/EX and that of address 8 in
    IF/ID; the hazard unit flushes IF/ID and ID/EX only; in cycle 6 the
    write-back stage writes 42 to x2, and x2 reads 42 from then on, while
    x3 (address 8) stays 0.  The same holds with [jal x1, 16] as the first
    instruction, whose own write-back of PC+4 to x1 occurs as well. *)
Theorem taken_branch_shadow_slot_executes :
  let start p := PipelinedModel.load_instructions p Pipelined.init in
  let at_cycle {A} p n (f : Pipelined.t -> A) := f <$> Pipelined.run rv32i n (start p) in
  Forall (fun p =>
     at_cycle p 4%nat (fun c => EXMEM.take_branch (Pipelined.exmem_reg c)) = Some true /\
     at_cycle p 4%nat (fun c => EXMEM.pc4 (Pipelined.exmem_reg c)) = Some 4 /\
     at_cycle p 4%nat (fun c => IDEX.pc (Pipelined.idex_reg c)) = Some 4 /\
     at_cycle p 4%nat (fun c => IFID.pc (Pipelined.ifid_reg c)) = Some 8 /\
     at_cycle p 4%nat (fun c => HazardUnit.flush_ifid_o (Pipelined.hazard rv32i c)) = Some true /\
     at_cycle p 4%nat (fun c => HazardUnit.flush_idex_o (Pipelined.hazard rv32i c)) = Some true /\
     at_cycle p 4%nat (fun c => HazardUnit.flush_exmem_o (Pipelined.hazard rv32i c)) = Some false /\
     at_cycle p 6%nat Pipelined.regfile_write = Some (Some (2, 42)) /\
     at_cycle p 7%nat (fun c => PipelinedModel.readReg c 2) = Some 42 /\
     at_cycle p 12%nat (fun c => PipelinedModel.readReg c 2) = Some 42 /\
     at_cycle p 12%nat (fun c => PipelinedModel.readReg c 3) = Some 0 /\
     at_cycle p 12%nat (fun c => PipelinedModel.readReg c 5) = Some 1)
    [branch_program; jump_program] /\
  at_cycle jump_program 12%nat (fun c => PipelinedModel.readReg c 1) = Some 4.
Proof.
  intros start at_cycle. split.
  - repeat (apply Forall_cons; split);
      [repeat split; vm_compute; reflexivity ..| apply Forall_nil; exact I].
  - vm_compute. reflexivity.
Qed.

(* ===================================================================== *)
(** The chain of dependent additions runs to x1 = 5, x2 = 12, x3 = 15:
    each dependent [addi] waits in IF/ID (PC held at 8, then at 12) until
    its source has been written, and no instruction is lost. *)
Example addi_chain_scenario :
  let at_cycle {A} n (f : Pipelined.t -> A) :=
    f <$> Pipelined.run rv32i n
            (PipelinedModel.load_instructions addi_chain_program
               Pipelined.init) in
  at_cycle 3%nat (fun c => (HazardUnit.stall_pc_o (Pipelined.hazard rv32i c),
                            Pipelined.pc_reg c, IFID.pc (Pipelined.ifid_reg c)))
    = Some (true, 8, 4) /\
  at_cycle 5%nat (fun c => (HazardUnit.stall_pc_o (Pipelined.hazard rv32i c),
                            Pipelined.pc_reg c, IFID.pc (Pipelined.ifid_reg c)))
    = Some (false, 8, 4) /\
  at_cycle 16%nat (fun c => PipelinedModel.readReg c <$> [1; 2; 3])
    = Some [5; 12; 15].
Proof. cbv zeta. repeat split; vm_compute; reflexivity. Qed.

(** The load-use sequence: [add x12, x11, x10] waits for the loaded x11
    and adds the stored 100 to itself. *)
Example load_use_scenario :
  let at_cycle {A} n (f : Pipelined.t -> A) :=
    f <$> Pipelined.run rv32i n
            (PipelinedModel.load_instructions load_use_program
               Pipelined.init) in
  at_cycle 7%nat (fun c => (HazardUnit.stall_pc_o (Pipelined.hazard rv32i c),
                            IFID.pc (Pipelined.ifid_reg c)))
    = Some (true, 12) /\
  at_cycle 20%nat (fun c => PipelinedModel.readReg c <$> [10; 11; 12])
    = Some [100; 100; 200] /\
  at_cycle 20%nat (fun c => PipelinedModel.readDataMem c 0 4)
    = Some (Return [PyStr "0x64"; PyStr "0x0"; PyStr "0x0"; PyStr "0x0"]).
Proof. cbv zeta. repeat split; vm_compute; reflexivity. Qed.

(** * Part III: further properties of the code *)
(* ===================================================================== *)

(** ** Hazard unit: invariants of the outputs *)

Section HazardOutputs.
Context (isa : isa_tables).
Import HazardUnit.

(** Every opcode that uses rs2 also uses rs1. *)
Lemma needs_rs2_needs_rs1 (opcode : Z) :
  _needs_rs2 isa opcode = true -> _needs_rs1 isa opcode = true.
Proof.
  unfold _needs_rs1, _needs_rs2. rewrite !py_in_true. cbn [In].
  intuition.
Qed.

(** A stall needs a source field that names a non-zero destination: with
    both source fields at x0 there is none. *)
Lemma no_stall_when_sources_x0 ifid idex exmem take_branch :
  Z.land (Z.shiftr (IFID.inst ifid) 15) 31 = 0 ->
  Z.land (Z.shiftr (IFID.inst ifid) 20) 31 = 0 ->
  stall_pc_o (process isa ifid idex exmem take_branch) = false.
Proof.
  intros H1 H2. unfold process, data_hazards. rewrite H1, H2.
  assert (Hz : forall r, (0 =? r) && negb (r =? 0) = false).
  { intros r. destruct (Z.eqb_spec 0 r) as [<- | Hr]; [reflexivity |].
    reflexivity. }
  assert (Hy : forall (b : bool) r, b && (0 =? r) && negb (r =? 0) = false).
  { intros b r. rewrite <- andb_assoc, Hz. apply andb_false_r. }
  assert (Hx : forall (b : bool) r, negb (r =? 0) = true -> b && (0 =? r) = false).
  { intros b r Hr. destruct (Z.eqb_spec 0 r) as [<- | ?]; [discriminate Hr |].
    apply andb_false_r. }
  rewrite !Hy.
  destruct (Z.land (IFID.inst ifid) 3 =? 3); [| destruct take_branch; reflexivity].
  destruct (IDEX.mem idex =? 1); [destruct take_branch; reflexivity |].
  destruct (IDEX.we idex); cbn [andb].
  - destruct (negb (IDEX.rd idex =? 0)) eqn:Hr.
    + rewrite !(Hx _ _ Hr). destruct take_branch; reflexivity.
    + destruct (EXMEM.we exmem); cbn [andb].
      * destruct (negb (EXMEM.rd exmem =? 0)) eqn:Hr'.
        -- rewrite !(Hx _ _ Hr'). destruct take_branch; reflexivity.
        -- destruct take_branch; reflexivity.
      * destruct take_branch; reflexivity.
  - destruct (EXMEM.we exmem); cbn [andb].
    + destruct (negb (EXMEM.rd exmem =? 0)) eqn:Hr'.
      * rewrite !(Hx _ _ Hr'). destruct take_branch; reflexivity.
      * destruct take_branch; reflexivity.
    + destruct take_branch; reflexivity.
Qed.

(** X1. Whatever the inputs, the outputs of the hazard unit are tied
    together: [stall_ifid_o] equals [stall_pc_o]; the stalls of ID/EX,
    EX/MEM and MEM/WB and the flush of EX/MEM are never asserted;
    [flush_ifid_o] is exactly [take_branch]; and [flush_idex_o] is asserted
    exactly on a stall or a taken branch. *)
Theorem hazard_outputs_tied ifid idex exmem take_branch :
  let o := process isa ifid idex exmem take_branch in
  stall_ifid_o o = stall_pc_o o /\
  stall_idex_o o = false /\ stall_exmem_o o = false /\
  stall_memwb_o o = false /\ flush_exmem_o o = false /\
  flush_ifid_o o = take_branch /\
  flush_idex_o o = stall_pc_o o || take_branch.
Proof.
  cbv zeta. unfold process.
  destruct (data_hazards_stall_or_not isa ifid idex exmem) as [-> | ->];
    destruct take_branch; repeat split.
Qed.

(** X2. The unit never stalls without a producer: when [stall_pc_o] is
    asserted, the instruction in IF/ID reads a non-zero register that is
    either the destination of ID/EX, which is a LOAD or has [we] set, or
    the destination of EX/MEM, which has [we] set. *)
Theorem stall_has_a_producer ifid idex exmem take_branch :
  stall_pc_o (process isa ifid idex exmem take_branch) = true ->
  (reads isa (IFID.inst ifid) (IDEX.rd idex) = true /\ IDEX.rd idex <> 0 /\
   (IDEX.mem idex = 1 \/ IDEX.we idex = true)) \/
  (reads isa (IFID.inst ifid) (EXMEM.rd exmem) = true /\ EXMEM.rd exmem <> 0 /\
   EXMEM.we exmem = true).
Proof.
  unfold process, data_hazards, reads.
  destruct (Z.land (IFID.inst ifid) 3 =? 3);
    [| destruct take_branch; intros H; discriminate H].
  cbn [andb].
  set (n1 := _needs_rs1 isa _). set (n2 := _needs_rs2 isa _).
  set (r1 := Z.land (Z.shiftr (IFID.inst ifid) 15) 31).
  set (r2 := Z.land (Z.shiftr (IFID.inst ifid) 20) 31).
  destruct (Z.eqb_spec (IDEX.mem idex) 1) as [Hm | Hm].
  - destruct (Z.eqb_spec (IDEX.rd idex) 0) as [Hr | Hr]; cbn [negb].
    + rewrite !andb_false_r. destruct take_branch; intros H; discriminate H.
    + rewrite !andb_true_r. intros H. left.
      destruct (n1 && (r1 =? IDEX.rd idex)) eqn:E1.
      * auto.
      * destruct (n2 && (r2 =? IDEX.rd idex)) eqn:E2.
        -- auto.
        -- destruct take_branch; discriminate H.
  - destruct (IDEX.we idex) eqn:Hwe; cbn [andb].
    + destruct (Z.eqb_spec (IDEX.rd idex) 0) as [Hr | Hr]; cbn [negb].
      * destruct (EXMEM.we exmem) eqn:Hwe'; cbn [andb];
          [| destruct take_branch; intros H; discriminate H].
        destruct (Z.eqb_spec (EXMEM.rd exmem) 0) as [Hr' | Hr']; cbn [negb];
          [destruct take_branch; intros H; discriminate H |].
        destruct (_ || _) eqn:E;
          [| destruct take_branch; intros H; discriminate H].
        intros _. right. auto.
      * destruct (_ || _) eqn:E;
          [| destruct take_branch; intros H; discriminate H].
        intros _. left. auto.
    + destruct (EXMEM.we exmem) eqn:Hwe'; cbn [andb];
        [| destruct take_branch; intros H; discriminate H].
      destruct (Z.eqb_spec (EXMEM.rd exmem) 0) as [Hr' | Hr']; cbn [negb];
        [destruct take_branch; intros H; discriminate H |].
      destruct (_ || _) eqn:E;
        [| destruct take_branch; intros H; discriminate H].
      intros _. right. auto.
Qed.

(** X3. Register x0 never causes a stall: there is none when the
    destinations of ID/EX and EX/MEM are both x0, and none when both source
    fields of the IF/ID instruction name x0. *)
Theorem x0_never_stalls ifid idex exmem take_branch :
  (IDEX.rd idex = 0 -> EXMEM.rd exmem = 0 ->
   stall_pc_o (process isa ifid idex exmem take_branch) = false) /\
  (Z.land (Z.shiftr (IFID.inst ifid) 15) 31 = 0 ->
   Z.land (Z.shiftr (IFID.inst ifid) 20) 31 = 0 ->
   stall_pc_o (process isa ifid idex exmem take_branch) = false).
Proof.
  split.
  - intros Hd He.
    destruct (stall_pc_o (process isa ifid idex exmem take_branch)) eqn:E;
      [| reflexivity].
    unfold process, data_hazards in E. rewrite Hd, He in E.
    cbn [Z.eqb negb] in E. rewrite !andb_false_r in E.
    repeat match type of E with
           | context [if ?b then _ else _] => destruct b
           end; destruct take_branch; discriminate E.
  - apply no_stall_when_sources_x0.
Qed.

(** X4. An instruction whose opcode is not in the [_needs_rs1] list (LUI,
    AUIPC, JAL, SYSTEM, ...) never stalls, whatever its rs1 and rs2 bit
    fields happen to hold: every opcode of [_needs_rs2] is in [_needs_rs1]
    too. *)
Theorem opcode_without_sources_never_stalls ifid idex exmem take_branch :
  _needs_rs1 isa (Z.land (Z.shiftr (IFID.inst ifid) 2) 31) = false ->
  stall_pc_o (process isa ifid idex exmem take_branch) = false.
Proof.
  intros H1.
  assert (H2 : _needs_rs2 isa (Z.land (Z.shiftr (IFID.inst ifid) 2) 31) = false).
  { destruct (_needs_rs2 isa _) eqn:E; [| reflexivity].
    apply needs_rs2_needs_rs1 in E. congruence. }
  unfold process, data_hazards. rewrite H1, H2. cbn [andb orb].
  repeat match goal with
         | |- context [if ?b then _ else _] => destruct b
         end; destruct take_branch; reflexivity.
Qed.

(** X5. Bubbles never stall.  The IF/ID value left by a flush raises no
    stall against any ID/EX and EX/MEM contents, and the ID/EX and EX/MEM
    values left by a flush raise no stall against any IF/ID instruction. *)
Theorem bubbles_never_stall :
  (forall (c i : IFID.t) (stall : bool) idex exmem take_branch,
      stall_pc_o
        (process isa (Reg_tick c (IFIDReg.process i stall true))
           idex exmem take_branch) = false) /\
  (forall ifid (c1 i1 : IDEX.t) (s1 : bool) (c2 i2 : EXMEM.t) (s2 : bool)
          take_branch,
      stall_pc_o
        (process isa ifid
           (Reg_tick c1 (IDEXReg.process i1 s1 true))
           (Reg_tick c2 (EXMEMReg.process i2 s2 true)) take_branch) = false).
Proof.
  split.
  - intros c i stall idex exmem tb.
    apply no_stall_when_sources_x0; reflexivity.
  - intros ifid c1 i1 s1 c2 i2 s2 tb.
    cbn [IDEXReg.process EXMEMReg.process Reg_tick].
    unfold process, data_hazards. cbn.
    destruct (Z.land (IFID.inst ifid) 3 =? 3); destruct tb; reflexivity.
Qed.

(** X6. A data hazard that coincides with a taken branch: the stall is
    asserted as without the branch, so [connects] does not write the PC
    and the redirect to the branch target is not taken at this clock edge,
    while IF/ID, where flush has priority over stall, loses the stalled
    instruction to a bubble. *)
Theorem stall_with_taken_branch ifid idex exmem :
  stall_pc_o (process isa ifid idex exmem false) = true ->
  let o := process isa ifid idex exmem true in
  stall_pc_o o = true /\
  (forall pc target : Z,
      Reg_tick pc (Connects.pc_next_w
                     (Connects.connects (stall_pc_o o) target exmem)) = pc) /\
  (forall c i : IFID.t,
      Reg_tick c (IFIDReg.process i (stall_ifid_o o) (flush_ifid_o o))
      = IFID.mk 19 (-4)).
Proof.
  unfold process.
  destruct (data_hazards_stall_or_not isa ifid idex exmem) as [-> | ->];
    cbn; intros H; [| discriminate H].
  repeat split.
Qed.

End HazardOutputs.

Lemma stall_has_a_producer_witness :
  HazardUnit.reads rv32i 7504691 5 = true /\ (5 : Z) <> 0.
Proof.
  destruct (stall_has_a_producer rv32i (IFID.mk 7504691 4)
              (IDEX.mk 0 0 0 0 5 10 0 0 2 0 true 2 1 false 0 0 false)
              EXMEM.default false) as [(H1 & H2 & _) | (_ & H2 & _)].
  - vm_compute. reflexivity.
  - split; assumption.
  - exfalso. apply H2. reflexivity.
Defined.

Lemma x0_never_stalls_witness :
  HazardUnit.stall_pc_o
    (HazardUnit.process rv32i (IFID.mk 7504691 4)
       (IDEX.mk 0 0 0 0 0 10 0 0 2 0 true 2 1 false 0 0 false)
       EXMEM.default false) = false /\
  HazardUnit.stall_pc_o
    (HazardUnit.process rv32i (IFID.mk 819 4)
       (IDEX.mk 0 0 0 0 5 10 0 0 2 0 true 2 1 false 0 0 false)
       EXMEM.default false) = false.
Proof.
  split.
  - apply (proj1 (x0_never_stalls rv32i (IFID.mk 7504691 4)
             (IDEX.mk 0 0 0 0 0 10 0 0 2 0 true 2 1 false 0 0 false)
             EXMEM.default false)); reflexivity.
  - apply (proj2 (x0_never_stalls rv32i (IFID.mk 819 4)
             (IDEX.mk 0 0 0 0 5 10 0 0 2 0 true 2 1 false 0 0 false)
             EXMEM.default false)); reflexivity.
Defined.

(** [lui x5, 0x12345] (0x123452B7) behind a LOAD to x5: its bit fields
    "rs1" and "rs2" are immediate bits, and it does not stall. *)
Lemma opcode_without_sources_never_stalls_witness :
  HazardUnit.stall_pc_o
    (HazardUnit.process rv32i (IFID.mk 305418935 4)
       (IDEX.mk 0 0 0 0 5 10 0 0 2 0 true 2 1 false 0 0 false)
       EXMEM.default false) = false.
Proof.
  apply (opcode_without_sources_never_stalls rv32i (IFID.mk 305418935 4)).
  vm_compute. reflexivity.
Defined.

(** [add x6, x5, x7] behind [lw x5] while the branch in EX/MEM is taken. *)
Lemma stall_with_taken_branch_witness :
  let exmem := EXMEM.mk 4 64 0 0 false 0 0 0 true 0 0 false 0 in
  let o := HazardUnit.process rv32i (IFID.mk 7504691 4)
             (IDEX.mk 0 0 0 0 5 10 0 0 2 0 true 2 1 false 0 0 false)
             exmem true in
  HazardUnit.stall_pc_o o = true /\
  (forall pc target : Z,
      Reg_tick pc (Connects.pc_next_w
                     (Connects.connects (HazardUnit.stall_pc_o o) target exmem))
      = pc) /\
  (forall c i : IFID.t,
      Reg_tick c (IFIDReg.process i (HazardUnit.stall_ifid_o o)
                    (HazardUnit.flush_ifid_o o))
      = IFID.mk 19 (-4)).
Proof.
  apply (stall_with_taken_branch rv32i (IFID.mk 7504691 4)
           (IDEX.mk 0 0 0 0 5 10 0 0 2 0 true 2 1 false 0 0 false)
           (EXMEM.mk 4 64 0 0 false 0 0 0 true 0 0 false 0)).
  vm_compute. reflexivity.
Defined.

(** ** Pipeline registers over several cycles *)

Section RegTrace.
Context {T : Type} (process : T -> bool -> bool -> option T) (bubble : T).
Hypothesis on_flush : forall i stall, process i stall true = Some bubble.
Hypothesis on_latch : forall i, process i false false = Some i.
Hypothesis on_stall : forall i, process i true false = None.

(** A register whose [process] flushes, latches and stalls as the four
    pipeline registers do holds the outcome of its most recent cycle that
    was not a pure stall. *)
Lemma run_reg_last_unstalled (c : T) (cycles : list (T * bool * bool)) :
  run_reg process c cycles
  = match last_unstalled cycles with
    | Some (i, _, flush) => if flush then bubble else i
    | None => c
    end.
Proof.
  induction cycles as [| [[i stall] flush] cycles IH] using rev_ind.
  - reflexivity.
  - unfold run_reg, last_unstalled in *.
    rewrite foldl_app, rev_app_distr. cbn [foldl rev app find].
    destruct flush; cbn [orb].
    + rewrite on_flush. reflexivity.
    + destruct stall; cbn [negb].
      * rewrite on_stall. cbn [Reg_tick]. exact IH.
      * rewrite on_latch. reflexivity.
Qed.

End RegTrace.

(** X7. Over any sequence of cycles, each of the four pipeline registers
    ends with the outcome of the most recent cycle that was not a pure
    stall: the bubble if that cycle flushed, its input otherwise; and with
    its starting value if every cycle was a pure stall. *)
Theorem pipeline_regs_hold_last_unstalled :
  (forall c cycles,
      run_reg IFIDReg.process c cycles
      = match last_unstalled cycles with
        | Some (i, _, flush) => if flush then IFID.mk 19 (-4) else i
        | None => c
        end) /\
  (forall c cycles,
      run_reg IDEXReg.process c cycles
      = match last_unstalled cycles with
        | Some (i, _, flush) => if flush then IDEX.default else i
        | None => c
        end) /\
  (forall c cycles,
      run_reg EXMEMReg.process c cycles
      = match last_unstalled cycles with
        | Some (i, _, flush) => if flush then EXMEM.default else i
        | None => c
        end) /\
  (forall c cycles,
      run_reg MEMWBReg.process c cycles
      = match last_unstalled cycles with
        | Some (i, _, flush) => if flush then MEMWB.default else i
        | None => c
        end).
Proof.
  repeat split; intros c cycles; apply run_reg_last_unstalled;
    try (intros i []; reflexivity); intros i; reflexivity.
Qed.

(** Three cycles on IF/ID: latch, flush, stall. *)
Example run_reg_ifid_sample :
  run_reg IFIDReg.process (IFID.mk 19 (-4))
    [(IFID.mk 2147 0, false, false); (IFID.mk 44040467 4, true, true);
     (IFID.mk 103809427 8, true, false)]
  = IFID.mk 19 (-4) /\
  run_reg IFIDReg.process (IFID.mk 19 (-4))
    [(IFID.mk 2147 0, false, false); (IFID.mk 44040467 4, true, false);
     (IFID.mk 103809427 8, true, false)]
  = IFID.mk 2147 0.
Proof. split; reflexivity. Qed.

(** ** Disassembler: register names *)

(** X8. [reg_name] fails with a missing key exactly on the numbers outside
    0 .. 31; inside, the name is ["x<n>(<abi>)"] with the decimal number
    and the ABI name of the table. *)
Theorem reg_name_domain (r : Z) :
  (Disassembler.reg_name r = None <-> r < 0 \/ 31 < r) /\
  (0 <= r < 32 ->
   exists abi, Disassembler.REG_ABI_NAMES !! r = Some abi /\
     Disassembler.reg_name r = Some ("x" +:+ py_str r +:+ "(" +:+ abi +:+ ")")).
Proof.
  split.
  - split.
    + intros Hn. destruct (Z_lt_dec r 0); [auto |].
      destruct (Z_lt_dec 31 r); [auto |].
      destruct (reg_name_defined r) as [s Hs]; [lia | congruence].
    + intros Hr. unfold Disassembler.reg_name.
      rewrite (abi_name_undefined r Hr). reflexivity.
  - intros Hr. destruct (abi_name_defined r Hr) as [abi Habi].
    exists abi. split; [exact Habi |].
    unfold Disassembler.reg_name. rewrite Habi. reflexivity.
Qed.

(** X9. The three register fields that [disassemble] names are five bits
    wide, so [reg_name] succeeds on each of them for every word: no
    exception is ever raised inside the [try:] block by a register name. *)
Theorem disassemble_register_names_defined (inst : Z) :
  is_Some (Disassembler.reg_name (get_bits inst 11 7)) /\
  is_Some (Disassembler.reg_name (get_bits inst 19 15)) /\
  is_Some (Disassembler.reg_name (get_bits inst 24 20)).
Proof.
  repeat split; apply reg_name_defined;
    match goal with
    | |- _ <= get_bits ?v ?m ?l < _ =>
        pose proof (get_bits_range v m l ltac:(lia)) as H;
        change (2 ^ (m - l + 1)) with 32 in H; exact H
    end.
Qed.

Lemma reg_name_domain_witness :
  exists abi, Disassembler.REG_ABI_NAMES !! 10 = Some abi /\
    Disassembler.reg_name 10 = Some ("x" +:+ py_str 10 +:+ "(" +:+ abi +:+ ")").
Proof.
  apply (proj2 (reg_name_domain 10)). lia.
Defined.

(** ** Disassembler: signed immediates *)

Lemma testbit_above (f k i : Z) :
  0 <= k -> 0 <= f < 2 ^ k -> k <= i -> Z.testbit f i = false.
Proof.
  intros Hk Hf Hi.
  apply (proj1 (Z.bounded_iff_bits_nonneg k f Hk (proj1 Hf)) (proj2 Hf) i Hi).
Qed.

(** The test [val & (1 << 31)] of [to_signed] reads bit 31. *)
Lemma to_signed_test (x : Z) :
  (Z.land x (Z.shiftl 1 31) =? 0) = negb (Z.testbit x 31).
Proof.
  rewrite Z.shiftl_1_l.
  destruct (Z.testbit x 31) eqn:B; cbn [negb].
  - apply Z.eqb_neq. intros E.
    assert (Hb : Z.testbit (Z.land x (2 ^ 31)) 31 = true).
    { rewrite Z.land_spec, B, Z.pow2_bits_eqb by lia. reflexivity. }
    rewrite E, Z.testbit_0_l in Hb. discriminate Hb.
  - apply Z.eqb_eq. apply Z.bits_inj'. intros i Hi.
    rewrite Z.land_spec, Z.pow2_bits_eqb, Z.testbit_0_l by lia.
    destruct (Z.eqb_spec 31 i) as [<- | ?].
    + rewrite B. reflexivity.
    + apply andb_false_r.
Qed.

(** X10. On a 32-bit word [to_signed] is the two's-complement reading: the
    result lies in [-2^31, 2^31), is congruent to the word modulo 2^32, and
    is negative exactly when the word is at least 2^31. *)
Theorem to_signed_twos_complement (v : Z) :
  0 <= v < 2 ^ 32 ->
  - 2 ^ 31 <= Disassembler.to_signed v < 2 ^ 31 /\
  Disassembler.to_signed v mod 2 ^ 32 = v /\
  (Disassembler.to_signed v < 0 <-> 2 ^ 31 <= v).
Proof.
  intros Hv. unfold Disassembler.to_signed. rewrite to_signed_test.
  rewrite Z.shiftl_1_l.
  destruct (Z.testbit v 31) eqn:B; cbn [negb].
  - assert (Hge : 2 ^ 31 <= v).
    { destruct (Z_lt_dec v (2 ^ 31)) as [Hlt |]; [| lia].
      rewrite (testbit_above v 31 31) in B by lia. discriminate B. }
    repeat split; try lia.
    replace (v - 2 ^ 32) with (v + (-1) * 2 ^ 32) by lia.
    rewrite Z.mod_add by lia. apply Z.mod_small. lia.
  - assert (Hlt : v < 2 ^ 31).
    { destruct (Z_lt_dec v (2 ^ 31)) as [| Hge]; [assumption |].
      assert (Hb : Z.testbit v 31 = true).
      { apply Z.testbit_true; [lia |].
        assert (Hq : v / 2 ^ 31 = 1)
          by (symmetry; apply Z.div_unique with (r := v - 2 ^ 31); lia).
        rewrite Hq. reflexivity. }
      congruence. }
    repeat split; try lia.
    apply Z.mod_small. lia.
Qed.

Lemma to_signed_twos_complement_witness :
  - 2 ^ 31 <= Disassembler.to_signed 4294967292 < 2 ^ 31 /\
  Disassembler.to_signed 4294967292 mod 2 ^ 32 = 4294967292 /\
  (Disassembler.to_signed 4294967292 < 0 <-> 2 ^ 31 <= 4294967292).
Proof.
  apply (to_signed_twos_complement 4294967292). lia.
Defined.

Lemma sext_range (k f : Z) :
  0 < k -> 0 <= f < 2 ^ k -> - 2 ^ (k - 1) <= sext k f < 2 ^ (k - 1).
Proof.
  intros Hk Hf. unfold sext.
  assert (Hp : 2 ^ k = 2 * 2 ^ (k - 1)).
  { replace k with (Z.succ (k - 1)) at 1 by lia. apply Z.pow_succ_r. lia. }
  destruct (Z.ltb_spec f (2 ^ (k - 1))); lia.
Qed.

(** A word whose low [k] bits are the field [f] and whose bits [k .. 31]
    all copy the field's top bit is read by [to_signed] as the [k]-bit
    two's-complement value of [f]. *)
Lemma to_signed_sign_extended (x f k : Z) :
  0 < k <= 32 -> 0 <= f ->
  (forall i, k <= i -> Z.testbit f i = false) ->
  (forall i, 0 <= i ->
     Z.testbit x i
     = if i <? k then Z.testbit f i else (i <? 32) && Z.testbit f (k - 1)) ->
  Disassembler.to_signed x = sext k f /\ 0 <= f < 2 ^ k.
Proof.
  intros Hk Hf Hhigh Hx.
  assert (Hp : 2 ^ k = 2 * 2 ^ (k - 1)).
  { replace k with (Z.succ (k - 1)) at 1 by lia. apply Z.pow_succ_r. lia. }
  assert (Hq : 0 < 2 ^ (k - 1)) by (apply Z.pow_pos_nonneg; lia).
  assert (Hfk : f < 2 ^ k).
  { apply Z.bounded_iff_bits_nonneg'; [lia | lia | exact Hhigh]. }
  assert (Hle : 2 ^ k <= 2 ^ 32) by (apply Z.pow_le_mono_r; lia).
  split; [| lia].
  assert (H31 : Z.testbit x 31 = Z.testbit f (k - 1)).
  { rewrite Hx by lia. destruct (Z.ltb_spec 31 k).
    - f_equal. lia.
    - reflexivity. }
  unfold Disassembler.to_signed, sext.
  rewrite to_signed_test, H31, Z.shiftl_1_l.
  destruct (Z.testbit f (k - 1)) eqn:B; cbn [negb].
  - assert (Hge : 2 ^ (k - 1) <= f).
    { destruct (Z_lt_dec f (2 ^ (k - 1))) as [Hlt |]; [| lia].
      rewrite (testbit_above f (k - 1) (k - 1)) in B by lia. discriminate B. }
    destruct (Z.ltb_spec f (2 ^ (k - 1))); [lia |].
    assert (Hor : x = Z.lor f (Z.shiftl (Z.ones (32 - k)) k)).
    { apply Z.bits_inj'. intros i Hi.
      rewrite Hx, Z.lor_spec, testbit_ones_shifted by lia.
      destruct (Z.ltb_spec i k).
      - destruct (Z.leb_spec k i); [lia |]. cbn [andb]. symmetry.
        apply orb_false_r.
      - rewrite (Hhigh i) by lia. destruct (Z.leb_spec k i); [| lia].
        replace (k + (32 - k)) with 32 by lia.
        cbn [orb andb]. apply andb_true_r. }
    assert (Hand : Z.land f (Z.shiftl (Z.ones (32 - k)) k) = 0).
    { apply Z.bits_inj'. intros i Hi.
      rewrite Z.land_spec, testbit_ones_shifted, Z.testbit_0_l by lia.
      destruct (Z.leb_spec k i).
      - rewrite (Hhigh i) by lia. reflexivity.
      - apply andb_false_r. }
    rewrite <- (Z.add_nocarry_lor _ _ Hand) in Hor.
    rewrite Z.shiftl_mul_pow2, Z.ones_equiv in Hor by lia.
    assert (Hmul : 2 ^ (32 - k) * 2 ^ k = 2 ^ 32).
    { rewrite <- Z.pow_add_r by lia. f_equal. lia. }
    nia.
  - assert (Hlt : f < 2 ^ (k - 1)).
    { apply Z.bounded_iff_bits_nonneg'; [lia | lia |].
      intros i Hi. destruct (Z.eq_dec i (k - 1)) as [-> | Hne];
        [exact B | apply Hhigh; lia]. }
    destruct (Z.ltb_spec f (2 ^ (k - 1))); [| lia].
    apply Z.bits_inj'. intros i Hi. rewrite Hx by lia.
    destruct (Z.ltb_spec i k).
    + reflexivity.
    + rewrite (Hhigh i) by lia. apply andb_false_r.
Qed.

Section SignedImmediates.
Context (isa : isa_tables).
Import Disassembler.

Ltac field_nonneg :=
  repeat first
    [ apply Z.lor_nonneg; split
    | apply Z.shiftl_nonneg
    | apply get_bits_nonneg; lia
    | apply get_bit_nonneg ].

Lemma imm_signed_I (inst : Z) :
  to_signed (Z.lor (if get_bit inst 31 =? 0 then 0 else Z.shiftl 1048575 12)
               (get_bits inst 31 20))
  = sext 12 (get_bits inst 31 20)
  /\ 0 <= get_bits inst 31 20 < 2 ^ 12.
Proof.
  apply to_signed_sign_extended; [lia | field_nonneg | |].
  - intros i Hi. field_bits. split_index; same_bit.
  - intros i Hi. rewrite sign_mask_20, Z.lor_spec, testbit_sign_ext by lia.
    field_bits. change (12 - 1 + 20) with 31.
    destruct (Z.testbit inst 31) eqn:S31; split_index; same_bit.
Qed.

Lemma imm_signed_S (inst : Z) :
  to_signed (Z.lor (if get_bit inst 31 =? 0 then 0 else Z.shiftl 1048575 12)
               (Z.lor (Z.shiftl (get_bits inst 31 25) 5) (get_bits inst 11 7)))
  = sext 12 (Z.lor (Z.shiftl (get_bits inst 31 25) 5) (get_bits inst 11 7))
  /\ 0 <= Z.lor (Z.shiftl (get_bits inst 31 25) 5) (get_bits inst 11 7) < 2 ^ 12.
Proof.
  apply to_signed_sign_extended; [lia | field_nonneg | |].
  - intros i Hi. field_bits. split_index; same_bit.
  - intros i Hi. rewrite sign_mask_20, Z.lor_spec, testbit_sign_ext by lia.
    field_bits. change (12 - 1 - 5 + 25) with 31.
    destruct (Z.testbit inst 31) eqn:S31; split_index; same_bit.
Qed.

Lemma imm_signed_B (inst : Z) :
  to_signed
    (Z.lor (if get_bit inst 31 =? 0 then 0 else Z.shiftl 524287 13)
       (Z.lor (Z.lor (Z.lor (Z.shiftl (get_bit inst 31) 12)
                        (Z.shiftl (get_bits inst 7 7) 11))
                 (Z.shiftl (get_bits inst 30 25) 5))
          (Z.shiftl (get_bits inst 11 8) 1)))
  = sext 13
      (Z.lor (Z.lor (Z.lor (Z.shiftl (get_bit inst 31) 12)
                       (Z.shiftl (get_bits inst 7 7) 11))
                (Z.shiftl (get_bits inst 30 25) 5))
         (Z.shiftl (get_bits inst 11 8) 1))
  /\ 0 <= Z.lor (Z.lor (Z.lor (Z.shiftl (get_bit inst 31) 12)
                          (Z.shiftl (get_bits inst 7 7) 11))
                   (Z.shiftl (get_bits inst 30 25) 5))
            (Z.shiftl (get_bits inst 11 8) 1) < 2 ^ 13.
Proof.
  apply to_signed_sign_extended; [lia | field_nonneg | |].
  - intros i Hi. field_bits. split_index; same_bit.
  - intros i Hi. rewrite sign_mask_19, Z.lor_spec, testbit_sign_ext by lia.
    field_bits.
    destruct (Z.testbit inst 31) eqn:S31; split_index; same_bit.
Qed.

Lemma imm_signed_J (inst : Z) :
  to_signed
    (Z.lor (if get_bit inst 31 =? 0 then 0 else Z.shiftl 2047 21)
       (Z.lor (Z.lor (Z.lor (Z.shiftl (get_bit inst 31) 20)
                        (Z.shiftl (get_bits inst 19 12) 12))
                 (Z.shiftl (get_bits inst 20 20) 11))
          (Z.shiftl (get_bits inst 30 21) 1)))
  = sext 21
      (Z.lor (Z.lor (Z.lor (Z.shiftl (get_bit inst 31) 20)
                       (Z.shiftl (get_bits inst 19 12) 12))
                (Z.shiftl (get_bits inst 20 20) 11))
         (Z.shiftl (get_bits inst 30 21) 1))
  /\ 0 <= Z.lor (Z.lor (Z.lor (Z.shiftl (get_bit inst 31) 20)
                          (Z.shiftl (get_bits inst 19 12) 12))
                   (Z.shiftl (get_bits inst 20 20) 11))
            (Z.shiftl (get_bits inst 30 21) 1) < 2 ^ 21.
Proof.
  apply to_signed_sign_extended; [lia | field_nonneg | |].
  - intros i Hi. field_bits. split_index; same_bit.
  - intros i Hi. rewrite sign_mask_11, Z.lor_spec, testbit_sign_ext by lia.
    field_bits.
    destruct (Z.testbit inst 31) eqn:S31; split_index; same_bit.
Qed.

Lemma to_signed_even (x : Z) :
  Z.testbit x 0 = false -> Z.even (to_signed x) = true.
Proof.
  intros Hb. rewrite Z.bit0_odd, <- Z.negb_even in Hb.
  apply negb_false_iff in Hb.
  unfold to_signed. destruct (Z.land x (Z.shiftl 1 31) =? 0); [exact Hb |].
  rewrite Z.even_sub, Hb. reflexivity.
Qed.

Lemma even_below (n b : Z) :
  Z.even n = true -> Z.even b = true -> n < b -> n <= b - 2.
Proof.
  intros Hn Hb Hlt. apply Z.even_spec in Hn, Hb.
  destruct Hn as [m ->], Hb as [c ->]. lia.
Qed.

(** X11. What the disassembler prints as the signed immediate:
    for an I- or S-class opcode a value in [-2048, 2047]; for a B-class
    opcode an even value in [-4096, 4094]; for a J-class opcode an even
    value in [-1048576, 1048574].  For a U-class opcode the printed operand
    [imm >> 12] is the unsigned field [inst[31:12]], below [2^20]. *)
Theorem displayed_immediate_ranges (opcode inst : Z) :
  classes_disjoint isa ->
  (In opcode (INST_I isa) \/ In opcode (INST_S isa) ->
     -2048 <= to_signed (decode_imm isa opcode inst) <= 2047) /\
  (In opcode (INST_B isa) ->
     -4096 <= to_signed (decode_imm isa opcode inst) <= 4094 /\
     Z.even (to_signed (decode_imm isa opcode inst)) = true) /\
  (In opcode (INST_J isa) ->
     -1048576 <= to_signed (decode_imm isa opcode inst) <= 1048574 /\
     Z.even (to_signed (decode_imm isa opcode inst)) = true) /\
  (In opcode (INST_U isa) ->
     Z.shiftr (decode_imm isa opcode inst) 12 = get_bits inst 31 12 /\
     0 <= Z.shiftr (decode_imm isa opcode inst) 12 < 1048576).
Proof.
  intros Hd.
  destruct (class_tests isa opcode Hd) as (cI & cS & cB & cU & cJ).
  split; [| split; [| split]].
  - intros [Hin | Hin]; unfold decode_imm.
    + rewrite (cI Hin). cbv zeta.
      destruct (imm_signed_I inst) as [-> Hf].
      pose proof (sext_range 12 _ ltac:(lia) Hf) as Hr.
      change (2 ^ (12 - 1)) with 2048 in Hr. lia.
    + destruct (cS Hin) as (-> & ->). cbv zeta.
      destruct (imm_signed_S inst) as [-> Hf].
      pose proof (sext_range 12 _ ltac:(lia) Hf) as Hr.
      change (2 ^ (12 - 1)) with 2048 in Hr. lia.
  - intros Hin.
    assert (He : Z.even (to_signed (decode_imm isa opcode inst)) = true).
    { apply to_signed_even. unfold decode_imm.
      destruct (cB Hin) as (-> & -> & ->). cbv zeta.
      rewrite imm_B_bits by lia. reflexivity. }
    split; [| exact He].
    assert (Hr : - 4096 <= to_signed (decode_imm isa opcode inst) < 4096).
    { unfold decode_imm. destruct (cB Hin) as (-> & -> & ->). cbv zeta.
      destruct (imm_signed_B inst) as [-> Hf].
      apply (sext_range 13 _ ltac:(lia) Hf). }
    pose proof (even_below _ 4096 He eq_refl (proj2 Hr)). lia.
  - intros Hin.
    assert (He : Z.even (to_signed (decode_imm isa opcode inst)) = true).
    { apply to_signed_even. unfold decode_imm.
      destruct (cJ Hin) as (-> & -> & -> & -> & ->). cbv zeta.
      rewrite imm_J_bits by lia. reflexivity. }
    split; [| exact He].
    assert (Hr : - 1048576 <= to_signed (decode_imm isa opcode inst) < 1048576).
    { unfold decode_imm. destruct (cJ Hin) as (-> & -> & -> & -> & ->).
      cbv zeta. destruct (imm_signed_J inst) as [-> Hf].
      apply (sext_range 21 _ ltac:(lia) Hf). }
    pose proof (even_below _ 1048576 He eq_refl (proj2 Hr)). lia.
  - intros Hin.
    assert (Hs : Z.shiftr (decode_imm isa opcode inst) 12 = get_bits inst 31 12).
    { unfold decode_imm. destruct (cU Hin) as (-> & -> & -> & ->). cbv zeta.
      rewrite Z.lor_0_l. apply Z.shiftr_shiftl_l. lia. }
    split; [exact Hs |]. rewrite Hs.
    pose proof (get_bits_range inst 31 12 ltac:(lia)) as Hr.
    change (2 ^ (31 - 12 + 1)) with 1048576 in Hr. exact Hr.
Qed.

(** X12. For an I-class opcode (such as OP-IMM, LOAD and JALR) the
    signed immediate shown is the 12-bit two's-complement reading of
    [inst[31:20]]: the masks of [decode_imm] followed by [to_signed] are a
    sign extension. *)
Theorem I_immediate_is_signed_field (opcode inst : Z) :
  In opcode (INST_I isa) ->
  to_signed (decode_imm isa opcode inst) = sext 12 (get_bits inst 31 20).
Proof.
  intros Hin. unfold decode_imm. rewrite (proj2 (py_in_true _ _) Hin). cbv zeta.
  apply imm_signed_I.
Qed.

End SignedImmediates.

Lemma displayed_immediate_ranges_witness :
  -4096 <= Disassembler.to_signed (Disassembler.decode_imm rv32i 24 4261416675)
    <= 4094 /\
  Z.even (Disassembler.to_signed (Disassembler.decode_imm rv32i 24 4261416675))
  = true.
Proof.
  refine (proj1 (proj2 (displayed_immediate_ranges rv32i 24 4261416675 _)) _).
  - unfold Disassembler.classes_disjoint.
    refine (bool_decide_unpack _ _). vm_compute. exact I.
  - vm_compute. repeat first [left; reflexivity | right].
Defined.

Lemma I_immediate_is_signed_field_witness :
  Disassembler.to_signed (Disassembler.decode_imm rv32i 4 4293918867) = -1.
Proof.
  rewrite (I_immediate_is_signed_field rv32i 4 4293918867).
  - reflexivity.
  - vm_compute. repeat first [left; reflexivity | right].
Defined.

(** ** Disassembler: mnemonics and operand text *)

Section DisassembleText.
Context (isa : isa_tables).
Import Disassembler.

Lemma try_block_text (inst : Z) (r : string * string) :
  try_block isa inst = Some r ->
  String.prefix (string_lower (fst r)) (snd r) = true.
Proof.
  unfold try_block.
  repeat match goal with
         | |- context [reg_name ?x] =>
             destruct (reg_name x); cbn [mbind option_bind]
         | |- context [if ?b then _ else _] => destruct b
         end;
    intros E; try discriminate E;
    injection E as <-; reflexivity.
Qed.

(** X13. For every word, the text returned by [disassemble] starts with
    the returned mnemonic in lower case: ["ADDI"] with ["addi ..."],
    ["NOP"] with ["nop (addi x0, x0, 0)"], and also ["INVALID"] and
    ["UNKNOWN"] with ["invalid instruction ..."] and ["unknown
    instruction ..."]. *)
Theorem disassemble_text_starts_with_mnemonic (inst : Z) :
  String.prefix (string_lower (fst (disassemble isa inst)))
    (snd (disassemble isa inst)) = true.
Proof.
  unfold disassemble.
  destruct (inst =? 19); [reflexivity |].
  destruct (inst =? 115); [reflexivity |].
  destruct (inst =? 807403635); [reflexivity |].
  destruct (negb (Z.land inst 3 =? 3)); [reflexivity |].
  destruct (try_block isa inst) as [r |] eqn:E.
  - apply (try_block_text inst r E).
  - reflexivity.
Qed.

(** X14. Shifts by an immediate (opcode OP-IMM): with [funct3 = 1] the
    word is disassembled as SLLI whatever its bits 31:25 are; with
    [funct3 = 5] it is SRLI only for [funct7 = 0], SRAI only for
    [funct7 = 32] and unknown for every other [funct7]. *)
Theorem shift_immediate_funct7 (inst : Z) :
  Z.land inst 3 = 3 ->
  get_bits inst 6 2 = OPCODES isa "OP-IMM" ->
  OPCODES isa "OP" <> OPCODES isa "OP-IMM" ->
  (get_bits inst 14 12 = 1 -> fst (disassemble isa inst) = "SLLI") /\
  (get_bits inst 14 12 = 5 ->
     fst (disassemble isa inst)
     = if get_bits inst 31 25 =? 0 then "SRLI"
       else if get_bits inst 31 25 =? 32 then "SRAI"
       else "UNKNOWN").
Proof.
  intros Hlow Hop Hne.
  assert (Hsp : get_bits inst 14 12 <> 0 ->
                (inst =? 19) = false /\ (inst =? 115) = false /\
                (inst =? 807403635) = false).
  { intros Hf. repeat split; apply Z.eqb_neq; intros ->; apply Hf;
      reflexivity. }
  destruct (field_names inst) as (rd & rs1 & rs2 & Hrd & Hrs1 & Hrs2).
  apply Z.eqb_eq in Hlow.
  assert (Hne' : (OPCODES isa "OP-IMM" =? OPCODES isa "OP") = false)
    by (apply Z.eqb_neq; congruence).
  split; intros Hf3;
    (destruct Hsp as (E1 & E2 & E3); [lia |]);
    unfold disassemble; rewrite E1, E2, E3, Hlow; cbn [negb];
    unfold try_block; rewrite Hop, Hne', Z.eqb_refl, Hrd, Hrs1, Hf3;
    cbn [mbind option_bind].
  - reflexivity.
  - cbn [Z.eqb Pos.eqb].
    destruct (get_bits inst 31 25 =? 0); [reflexivity |].
    destruct (get_bits inst 31 25 =? 32); reflexivity.
Qed.

(** X15. Register-register operations (opcode OP): a word is given a
    mnemonic exactly when [funct7] is 0 (all eight [funct3] values are
    then defined), or [funct7] is 32 with [funct3] 0 (SUB) or 5 (SRA). *)
Theorem register_op_recognized (inst : Z) :
  Z.land inst 3 = 3 ->
  get_bits inst 6 2 = OPCODES isa "OP" ->
  inst <> 807403635 ->
  recognized isa inst
  = (get_bits inst 31 25 =? 0)
    || ((get_bits inst 31 25 =? 32)
        && ((get_bits inst 14 12 =? 0) || (get_bits inst 14 12 =? 5))).
Proof.
  intros Hlow Hop Hmret.
  destruct (Z.eqb_spec inst 19) as [-> | H19]; [reflexivity |].
  destruct (Z.eqb_spec inst 115) as [-> | H115]; [reflexivity |].
  destruct (field_names inst) as (rd & rs1 & rs2 & Hrd & Hrs1 & Hrs2).
  pose proof (get_bits_range inst 14 12 ltac:(lia)) as Hf3.
  change (2 ^ (14 - 12 + 1)) with 8 in Hf3.
  apply Z.eqb_eq in Hlow. apply Z.eqb_neq in H19, H115, Hmret.
  unfold recognized, disassemble. rewrite H19, H115, Hmret, Hlow.
  cbn [negb]. unfold try_block.
  rewrite Hop, Z.eqb_refl, Hrd, Hrs1, Hrs2. cbn [mbind option_bind].
  generalize dependent (get_bits inst 14 12). intros f3 Hf3.
  generalize (get_bits inst 31 25). intros f7.
  repeat match goal with
         | |- context [?a =? ?b] => destruct (Z.eqb_spec a b)
         end;
    try reflexivity; exfalso; lia.
Qed.

End DisassembleText.

Lemma shift_immediate_funct7_witness :
  fst (Disassembler.disassemble rv32i 4261482643) = "SLLI".
Proof.
  refine (proj1 (shift_immediate_funct7 rv32i 4261482643 _ _ _) _);
    vm_compute; congruence.
Defined.

Lemma register_op_recognized_witness :
  Disassembler.recognized rv32i 1075872563
  = (get_bits 1075872563 31 25 =? 0)
    || ((get_bits 1075872563 31 25 =? 32)
        && ((get_bits 1075872563 14 12 =? 0)
            || (get_bits 1075872563 14 12 =? 5))).
Proof.
  apply (register_op_recognized rv32i 1075872563); vm_compute; congruence.
Defined.

(** ** The model wrapper: loading and reading back *)

Lemma py_getitem_is_Some {A : Type} (l : list A) (k : Z) :
  is_Some (py_getitem l k)
  <-> - Z.of_nat (length l) <= k < Z.of_nat (length l).
Proof.
  unfold py_getitem.
  destruct (Z.leb_spec 0 k), (Z.ltb_spec k (Z.of_nat (length l)));
    cbn [andb].
  - rewrite lookup_lt_is_Some. lia.
  - destruct (Z.leb_spec (- Z.of_nat (length l)) k), (Z.ltb_spec k 0);
      cbn [andb]; try lia; split; try lia; intros [? ?]; discriminate.
  - destruct (Z.leb_spec (- Z.of_nat (length l)) k), (Z.ltb_spec k 0);
      cbn [andb]; try lia.
    + rewrite lookup_lt_is_Some. lia.
    + split; [intros [? ?]; discriminate | lia].
  - lia.
Qed.

Lemma py_getitem_negative {A : Type} (l : list A) (k : Z) :
  - Z.of_nat (length l) <= k < 0 ->
  py_getitem l k = py_getitem l (k + Z.of_nat (length l)).
Proof.
  intros Hk. unfold py_getitem.
  destruct (Z.leb_spec 0 k); [lia |]. cbn [andb].
  destruct (Z.leb_spec (- Z.of_nat (length l)) k); [| lia].
  destruct (Z.ltb_spec k 0); [| lia]. cbn [andb].
  destruct (Z.leb_spec 0 (k + Z.of_nat (length l))); [| lia].
  destruct (Z.ltb_spec (k + Z.of_nat (length l)) (Z.of_nat (length l)));
    [| lia].
  cbn [andb]. f_equal. lia.
Qed.

Lemma mapM_ext_Forall {A B : Type} (f g : A -> option B) (l : list A) :
  Forall (fun x => f x = g x) l -> mapM f l = mapM g l.
Proof.
  induction 1 as [| x l Hx _ IH]; [reflexivity |].
  cbn. rewrite Hx, IH. reflexivity.
Qed.

Section ModelReadBack.
Import PipelinedModel.

(** X16. What [load_instructions] stores is read back by [readInstMem]
    from address 0, one list element per address: element [k] of the list
    is the content of address [k].  This holds for every list, also one
    longer than the memory. *)
Theorem load_instructions_read_back (core : Pipelined.t) (instructions : list Z) :
  readInstMem (load_instructions instructions core) 0
    (Z.of_nat (length instructions))
  = Return ((fun b => PyStr (py_hex b)) <$> instructions).
Proof.
  unfold readInstMem, load_instructions. cbn [set_mem Pipelined.mem].
  unfold py_set_prefix.
  rewrite comprehension_in_bounds.
  - rewrite Nat2Z.id. change (Z.to_nat 0) with 0%nat.
    rewrite drop_0, take_app_length. reflexivity.
  - lia.
  - lia.
  - rewrite length_app. lia.
Qed.

(** X17. A load replaces a whole earlier load that is not longer: loading
    [a] and then [b] with [len(a) <= len(b)] leaves the core as loading
    [b] alone does. *)
Theorem later_load_overwrites (core : Pipelined.t) (a b : list Z) :
  (length a <= length b)%nat ->
  load_instructions b (load_instructions a core) = load_instructions b core.
Proof.
  intros Hlen. unfold load_instructions, set_mem. cbn. f_equal.
  unfold py_set_prefix. f_equal.
  rewrite drop_app_ge by assumption. rewrite drop_drop. f_equal. lia.
Qed.

(** X18. [readDataMem] raises [IndexError] exactly when it is asked for at
    least one byte and the range leaves the list on either side: it starts
    below [-len(mem)] or ends above [len(mem)].  A count of zero or less
    gives the empty list at every address. *)
Theorem readDataMem_raises_iff (core : Pipelined.t) (addr nbytes : Z) :
  (readDataMem core addr nbytes = Raise IndexError
   <-> 0 < nbytes /\
       (addr < - Z.of_nat (length (Pipelined.mem core)) \/
        Z.of_nat (length (Pipelined.mem core)) < addr + nbytes)) /\
  (nbytes <= 0 -> readDataMem core addr nbytes = Return []).
Proof.
  set (len := Z.of_nat (length (Pipelined.mem core))).
  assert (Hsome : is_Some (mapM (fun i => py_getitem (Pipelined.mem core) (addr + i))
                             (seqZ 0 nbytes))
                  <-> ~ (0 < nbytes /\ (addr < - len \/ len < addr + nbytes))).
  { rewrite mapM_is_Some, Forall_forall. split.
    - intros Hall [Hn [Hlo | Hhi]].
      + specialize (Hall 0). cbn in Hall.
        rewrite py_getitem_is_Some in Hall. fold len in Hall.
        assert (0 ∈ seqZ 0 nbytes) as Hin by (apply elem_of_seqZ; lia).
        specialize (Hall Hin). lia.
      + specialize (Hall (nbytes - 1)). cbn in Hall.
        rewrite py_getitem_is_Some in Hall. fold len in Hall.
        assert (nbytes - 1 ∈ seqZ 0 nbytes) as Hin
          by (apply elem_of_seqZ; lia).
        specialize (Hall Hin). lia.
    - intros Hnot i Hi. apply elem_of_seqZ in Hi. cbn.
      apply py_getitem_is_Some. fold len. lia. }
  split.
  - unfold readDataMem.
    destruct (mapM _ (seqZ 0 nbytes)) as [bs |] eqn:E.
    + split; [discriminate |].
      intros H. exfalso. apply (proj1 Hsome); [eauto | exact H].
    + split; [| reflexivity]. intros _.
      destruct (decide (0 < nbytes /\ (addr < - len \/ len < addr + nbytes)))
        as [H | H]; [exact H |].
      apply Hsome in H. destruct H as [? H]. discriminate H.
  - intros Hn. unfold readDataMem.
    rewrite seqZ_nil by lia. reflexivity.
Qed.

(** X19. Negative addresses do not raise: Python indexes from the end of
    the list, so a range that lies in [-len(mem), 0) reads the bytes
    [len(mem)] higher.  (The reset value of the program counter is -4, so
    a read at the reset PC returns the last four bytes of the memory.) *)
Theorem readDataMem_negative_address (core : Pipelined.t) (addr nbytes : Z) :
  - Z.of_nat (length (Pipelined.mem core)) <= addr ->
  addr + nbytes <= 0 ->
  readDataMem core addr nbytes
  = readDataMem core (addr + Z.of_nat (length (Pipelined.mem core))) nbytes.
Proof.
  intros Hlo Hhi. unfold readDataMem.
  rewrite (mapM_ext_Forall
             (fun i => py_getitem (Pipelined.mem core) (addr + i))
             (fun i => py_getitem (Pipelined.mem core)
                         (addr + Z.of_nat (length (Pipelined.mem core)) + i))).
  - reflexivity.
  - apply Forall_forall. intros i Hi. apply elem_of_seqZ in Hi.
    rewrite py_getitem_negative by lia. f_equal. lia.
Qed.

(** X20. A result of [readDataMem] has exactly [nbytes] entries (none for
    a negative count), and every entry is the [hex()] text of a value
    stored in the memory list. *)
Theorem readDataMem_shape (core : Pipelined.t) (addr nbytes : Z)
    (l : list pyval) :
  readDataMem core addr nbytes = Return l ->
  length l = Z.to_nat nbytes /\
  Forall (fun v => exists b, b ∈ Pipelined.mem core /\ v = PyStr (py_hex b)) l.
Proof.
  unfold readDataMem.
  destruct (mapM _ (seqZ 0 nbytes)) as [bs |] eqn:E; [| discriminate].
  intros [= <-]. apply mapM_Some in E. split.
  - rewrite length_fmap, <- (Forall2_length _ _ _ E), length_seqZ.
    reflexivity.
  - apply Forall_fmap, Forall_forall. intros b Hb.
    apply list_elem_of_lookup in Hb. destruct Hb as [k Hk].
    destruct (Forall2_lookup_r _ _ _ _ _ E Hk) as (i & _ & Hget).
    exists b. split; [| reflexivity].
    unfold py_getitem in Hget.
    repeat match type of Hget with
           | (if ?c then _ else _) = _ => destruct c
           end;
      try discriminate Hget;
      apply list_elem_of_lookup_2 in Hget; exact Hget.
Qed.

End ModelReadBack.

Lemma later_load_overwrites_witness :
  PipelinedModel.load_instructions [19; 0; 0; 0; 115; 0; 0; 0]
    (PipelinedModel.load_instructions [147; 0; 16; 0] Pipelined.init)
  = PipelinedModel.load_instructions [19; 0; 0; 0; 115; 0; 0; 0] Pipelined.init.
Proof.
  apply (later_load_overwrites Pipelined.init [147; 0; 16; 0]
           [19; 0; 0; 0; 115; 0; 0; 0]).
  cbn. lia.
Defined.

Lemma readDataMem_negative_address_witness :
  PipelinedModel.readDataMem Pipelined.init (-4) 4
  = PipelinedModel.readDataMem Pipelined.init
      (-4 + Z.of_nat (length (Pipelined.mem Pipelined.init))) 4.
Proof.
  apply (readDataMem_negative_address Pipelined.init (-4) 4).
  - vm_compute. discriminate.
  - lia.
Defined.

Lemma readDataMem_shape_witness :
  length [PyStr "0x0"; PyStr "0x0"] = Z.to_nat 2 /\
  Forall (fun v => exists b, b ∈ Pipelined.mem Pipelined.init /\
                             v = PyStr (py_hex b))
    [PyStr "0x0"; PyStr "0x0"].
Proof.
  apply (readDataMem_shape Pipelined.init 16 2). vm_compute. reflexivity.
Defined.

(** At the reset PC the read-out wraps to the end of the memory. *)
Example readInstMem_at_reset_pc :
  PipelinedModel.readPC Pipelined.init = -4 /\
  PipelinedModel.readInstMem Pipelined.init
    (PipelinedModel.readPC Pipelined.init) 4
  = Return [PyStr "0x0"; PyStr "0x0"; PyStr "0x0"; PyStr "0x0"].
Proof. split; vm_compute; reflexivity. Qed.

(** ** The educational logger *)

Section LoggerStatus.
Context (isa : isa_tables).
Import HazardUnit EducationalLogger.

(** X24. What the logger can print for the outputs of the hazard unit:
    the status is [" [STALL] [FLUSH]"] on a stall, [" [FLUSH]"] on a taken
    branch without a stall, and empty otherwise; [" [STALL]"] alone never
    appears, and the line "PC stalled" always comes with the line "ID/EX
    flushed". *)
Theorem logger_hazard_status ifid idex exmem take_branch :
  let o := process isa ifid idex exmem take_branch in
  hazard_str (stall_pc_o o) (stall_ifid_o o) (flush_ifid_o o) (flush_idex_o o)
  = (if stall_pc_o o then " [STALL] [FLUSH]"
     else if take_branch then " [FLUSH]" else EmptyString) /\
  (In "  - PC stalled" (hazard_report o) ->
   In "  - ID/EX flushed (bubble inserted)" (hazard_report o)).
Proof.
  cbv zeta. unfold hazard_report, process.
  destruct (data_hazards_stall_or_not isa ifid idex exmem) as [-> | ->];
    destruct take_branch; (split; [reflexivity |]);
    vm_compute; intuition discriminate.
Qed.

End LoggerStatus.

(** ** The graphical front end *)

Lemma flat_map_nil {A B : Type} (f : A -> list B) (l : list A) :
  flat_map f l = [] <-> Forall (fun x => f x = []) l.
Proof.
  induction l as [| x l IH]; cbn.
  - split; [constructor | reflexivity].
  - rewrite app_nil, IH, Forall_cons. reflexivity.
Qed.

Section FrontEnd.
Import GUI.

Lemma snapshot_reg (core : Pipelined.t) (i : Z) :
  0 <= i < 16 ->
  regs (_snapshot_state core) !! Z.to_nat i
  = Some (PipelinedModel.readReg core i).
Proof.
  intros Hi. cbn [_snapshot_state regs].
  rewrite list_lookup_fmap.
  assert (E : seqZ 0 16 !! Z.to_nat i = Some i)
    by (apply lookup_seqZ; lia).
  rewrite E. reflexivity.
Qed.

Lemma reg_lines_nil (c1 c2 : Pipelined.t) :
  reg_lines (regs (_snapshot_state c1)) (regs (_snapshot_state c2)) = []
  <-> forall i, 0 <= i < 16 ->
        PipelinedModel.readReg c1 i = PipelinedModel.readReg c2 i.
Proof.
  unfold reg_lines. rewrite flat_map_nil, Forall_forall. split.
  - intros H i Hi. specialize (H i). cbv zeta in H.
    rewrite !snapshot_reg in H by assumption.
    destruct (decide (PipelinedModel.readReg c1 i
                      = PipelinedModel.readReg c2 i)) as [E | E];
      [exact E |].
    rewrite bool_decide_true in H by congruence.
    assert (Hin : i ∈ seqZ 0 16) by (apply elem_of_seqZ; lia).
    specialize (H Hin). discriminate H.
  - intros H i Hi. apply elem_of_seqZ in Hi. cbv zeta.
    rewrite !snapshot_reg by lia. rewrite (H i) by lia.
    rewrite bool_decide_false by (intros E; apply E; reflexivity).
    reflexivity.
Qed.

(** X25. [_format_diff] against the previous snapshot returns no line
    exactly when the two cores agree on what a snapshot observes: the PC,
    the registers x0 .. x15, the instruction and PC of IF/ID, [alu_res] and
    [take_branch] of EX/MEM, and [mem_rdata] of MEM/WB.  Against no
    previous snapshot it always returns at least the PC line. *)
Theorem format_diff_silent_iff (c1 c2 : Pipelined.t) :
  (_format_diff (Some (_snapshot_state c1)) (_snapshot_state c2) = []
   <-> PipelinedModel.readPC c1 = PipelinedModel.readPC c2 /\
       (forall i, 0 <= i < 16 ->
          PipelinedModel.readReg c1 i = PipelinedModel.readReg c2 i) /\
       IFID.inst (Pipelined.ifid_reg c1) = IFID.inst (Pipelined.ifid_reg c2) /\
       IFID.pc (Pipelined.ifid_reg c1) = IFID.pc (Pipelined.ifid_reg c2) /\
       EXMEM.alu_res (Pipelined.exmem_reg c1)
       = EXMEM.alu_res (Pipelined.exmem_reg c2) /\
       EXMEM.take_branch (Pipelined.exmem_reg c1)
       = EXMEM.take_branch (Pipelined.exmem_reg c2) /\
       MEMWB.mem_rdata (Pipelined.memwb_reg c1)
       = MEMWB.mem_rdata (Pipelined.memwb_reg c2)) /\
  _format_diff None (_snapshot_state c2) <> [].
Proof.
  split.
  - rewrite <- reg_lines_nil. unfold _format_diff. cbv zeta.
    generalize (reg_lines (regs (_snapshot_state c1))
                  (regs (_snapshot_state c2))).
    intros rl. cbn [_snapshot_state pc ifid_inst ifid_pc ex_alu
                      ex_take_branch mem_rdata].
    destruct (Z.eqb_spec (PipelinedModel.readPC c1) (PipelinedModel.readPC c2));
      destruct rl as [| s rl];
      destruct (Z.eqb_spec (IFID.inst (Pipelined.ifid_reg c1))
                  (IFID.inst (Pipelined.ifid_reg c2)));
      destruct (Z.eqb_spec (IFID.pc (Pipelined.ifid_reg c1))
                  (IFID.pc (Pipelined.ifid_reg c2)));
      destruct (Z.eqb_spec (EXMEM.alu_res (Pipelined.exmem_reg c1))
                  (EXMEM.alu_res (Pipelined.exmem_reg c2)));
      destruct (Bool.eqb_spec (EXMEM.take_branch (Pipelined.exmem_reg c1))
                  (EXMEM.take_branch (Pipelined.exmem_reg c2)));
      destruct (Z.eqb_spec (MEMWB.mem_rdata (Pipelined.memwb_reg c1))
                  (MEMWB.mem_rdata (Pipelined.memwb_reg c2)));
      cbn [negb orb app];
      (split; [intros H; try discriminate H; tauto
              | intros (? & H & ? & ? & ? & ? & ?);
                try discriminate H; try contradiction; reflexivity]).
  - unfold _format_diff. cbv zeta.
    destruct (imap _ _); discriminate.
Qed.

Lemma pipeline_empty_fields (core : Pipelined.t) :
  pipeline_empty core = true
  <-> IFID.inst (Pipelined.ifid_reg core) = 0 /\
      IDEX.opcode (Pipelined.idex_reg core) = 0 /\
      IDEX.rd (Pipelined.idex_reg core) = 0 /\
      EXMEM.rd (Pipelined.exmem_reg core) = 0 /\
      MEMWB.rd (Pipelined.memwb_reg core) = 0.
Proof.
  unfold pipeline_empty. cbv zeta.
  destruct (Z.eqb_spec (IFID.inst (Pipelined.ifid_reg core)) 0);
    destruct (Z.eqb_spec (IDEX.opcode (Pipelined.idex_reg core)) 0);
    destruct (Z.eqb_spec (IDEX.rd (Pipelined.idex_reg core)) 0);
    destruct (Z.eqb_spec (EXMEM.rd (Pipelined.exmem_reg core)) 0);
    destruct (Z.eqb_spec (MEMWB.rd (Pipelined.memwb_reg core)) 0);
    cbn [negb orb]; split; intros H; try discriminate H; tauto.
Qed.

(** X26. The front end's "pipeline appears empty" test compares the
    IF/ID instruction with 0, but the bubble that a flush (and the reset)
    puts into IF/ID is the NOP 0x13: in the cycle after a flush of IF/ID
    the test fails whatever the other registers hold, and a passing test
    means that IF/ID holds the word 0, which the hazard unit does not take
    for an instruction (no stall is raised for it). *)
Theorem pipeline_empty_never_after_flush (isa : isa_tables)
    (core : Pipelined.t) :
  (forall (cur IFID_i : IFID.t) (stall : bool),
     Pipelined.ifid_reg core = Reg_tick cur (IFIDReg.process IFID_i stall true) ->
     pipeline_empty core = false) /\
  (pipeline_empty core = true ->
   forall take_branch,
     HazardUnit.stall_pc_o
       (HazardUnit.process isa (Pipelined.ifid_reg core)
          (Pipelined.idex_reg core) (Pipelined.exmem_reg core) take_branch)
     = false).
Proof.
  split.
  - intros cur IFID_i stall Hreg.
    destruct (pipeline_empty core) eqn:E; [| reflexivity].
    apply pipeline_empty_fields in E. destruct E as (E & _).
    rewrite Hreg in E. cbn in E. discriminate E.
  - intros E take_branch.
    apply pipeline_empty_fields in E. destruct E as (E & _).
    unfold HazardUnit.process, HazardUnit.data_hazards. rewrite E.
    destruct take_branch; reflexivity.
Qed.

End FrontEnd.

(** ** Toolchain set-up *)

Lemma string_length_app (s t : string) :
  String.length (s +:+ t) = (String.length s + String.length t)%nat.
Proof.
  induction s as [| c s IH]; [reflexivity |].
  change (S (String.length (s +:+ t))
          = S (String.length s + String.length t)).
  f_equal. exact IH.
Qed.

(** A suffix test on [p + s] is a suffix test on [s] when the suffix is
    not longer than [s]. *)
Lemma py_endswith_app (suffix p s : string) :
  (String.length suffix <= String.length s)%nat ->
  py_endswith suffix (p +:+ s) = py_endswith suffix s.
Proof.
  intros Hlen. induction p as [| c p IH]; [reflexivity |].
  change (String c p +:+ s) with (String c (p +:+ s)).
  cbn [py_endswith]. rewrite IH.
  destruct (String.eqb_spec (String c (p +:+ s)) suffix) as [E | E];
    [| reflexivity].
  exfalso. rewrite <- E in Hlen. cbn in Hlen.
  rewrite string_length_app in Hlen. lia.
Qed.

Section Toolchain.
Import SetupToolchain.

(** X27. Whatever [platform.system()] and [platform.machine()] answer,
    [get_platform_info] either raises "Unsupported platform" or returns
    one of five package/extension pairs, and the archive name built from
    the pair is always accepted by [extract_archive], in any directory:
    the zip extractor for the [zip] extension, the tar extractor
    otherwise.  "Unknown archive format" is never raised on that path. *)
Theorem toolchain_archive_always_extractable
    (platform_system platform_machine dir p e : string) :
  get_platform_info platform_system platform_machine = Returns (p, e) ->
  In (p, e) [("win32-x64", "zip"); ("linux-arm64", "tar.gz");
             ("linux-x64", "tar.gz"); ("darwin-arm64", "tar.gz");
             ("darwin-x64", "tar.gz")] /\
  extract_archive (dir +:+ archive_name p e)
  = Returns (if String.eqb e "zip" then ZipFile else TarGz).
Proof.
  intros H. unfold get_platform_info in H.
  repeat match type of H with
         | context [if ?b then _ else _] => destruct b
         end;
    try discriminate H; injection H as <- <-;
    (split; [cbn; tauto |]);
    unfold extract_archive;
    rewrite !py_endswith_app by (vm_compute; lia);
    reflexivity.
Qed.

End Toolchain.

(** The report for a taken branch without a stall. *)
Example hazard_report_taken_branch :
  EducationalLogger.hazard_report
    (HazardUnit.process rv32i (IFID.mk 819 4) IDEX.default EXMEM.default true)
  = [String "010" "Hazard Status: [FLUSH]";
     "  - IF/ID flushed (bubble inserted)";
     "  - ID/EX flushed (bubble inserted)"].
Proof. reflexivity. Qed.

(** The load-use pair [lw x5, 0(x10)]; [add x6, x5, x7]: the report names
    the stalled PC and the flushed ID/EX. *)
Lemma logger_hazard_status_witness :
  In "  - ID/EX flushed (bubble inserted)"
    (EducationalLogger.hazard_report
       (HazardUnit.process rv32i (IFID.mk 7504691 4)
          (IDEX.mk 0 0 0 0 5 10 0 0 2 0 true 2 1 false 0 0 false)
          EXMEM.default false)).
Proof.
  apply (proj2 (logger_hazard_status rv32i (IFID.mk 7504691 4)
                  (IDEX.mk 0 0 0 0 5 10 0 0 2 0 true 2 1 false 0 0 false)
                  EXMEM.default false)).
  vm_compute. tauto.
Defined.

Lemma format_diff_silent_iff_witness :
  GUI._format_diff (Some (GUI._snapshot_state Pipelined.init))
    (GUI._snapshot_state Pipelined.init) = [].
Proof.
  apply (proj2 (proj1 (format_diff_silent_iff Pipelined.init Pipelined.init))).
  repeat split.
Defined.

Lemma pipeline_empty_never_after_flush_witness :
  GUI.pipeline_empty Pipelined.init = false.
Proof.
  apply (proj1 (pipeline_empty_never_after_flush rv32i Pipelined.init)
           IFIDReg.reset (IFID.mk 0 0) false).
  reflexivity.
Defined.

Lemma readDataMem_raises_iff_witness :
  PipelinedModel.readDataMem Pipelined.init 8190 4 = Raise IndexError.
Proof.
  apply (proj2 (proj1 (readDataMem_raises_iff Pipelined.init 8190 4))).
  split; [lia | right; vm_compute; reflexivity].
Defined.

Lemma toolchain_archive_always_extractable_witness :
  In ("linux-arm64", "tar.gz")
    [("win32-x64", "zip"); ("linux-arm64", "tar.gz");
     ("linux-x64", "tar.gz"); ("darwin-arm64", "tar.gz");
     ("darwin-x64", "tar.gz")] /\
  SetupToolchain.extract_archive
    ("temp_toolchain/" +:+ SetupToolchain.archive_name "linux-arm64" "tar.gz")
  = SetupToolchain.Returns
      (if String.eqb "tar.gz" "zip" then SetupToolchain.ZipFile
       else SetupToolchain.TarGz).
Proof.
  apply (toolchain_archive_always_extractable "Linux" "aarch64"
           "temp_toolchain/" "linux-arm64" "tar.gz").
  reflexivity.
Defined.
